(** * Document-intelligence platform: cache keys, cache layer, chunking,
      summarisation, enrichment orchestrator and semantic search

    A shallow embedding of [app/cache.py], [app/ai_model/ai.py] and
    [app/api/documents.py], with the properties of the specification that
    concern them.

    Conventions of the embedding.
    - A Python [str] is a Rocq [string], one [ascii] per character: the
      characters are the code points 0..255 (Latin-1), and the character
      classes below ([isspace], [lower], printability) are Python's on that
      range.
    - Python integers are [Z]; floats (similarities, vector components) are
      exact rationals [Q], so comparisons are those of the values the floats
      denote.
    - Code that may raise returns an [outcome]; module-level and external state
      (the Redis client and server, the database, the model service's call log)
      is passed explicitly in a [world].
    - [print] calls have no effect on any value and are left out. *)

From Stdlib Require Import ZArith QArith Qround Lqa String Ascii List Bool Lia.
From Stdlib Require Import Sorting.Sorted Sorting.Permutation DecimalString DecimalZ.
From stdpp Require Import strings gmap.
Import ListNotations.

Set Warnings "-register-all".
Set Default Proof Using "Type".

Local Open Scope string_scope.
Local Open Scope Z_scope.
Local Open Scope list_scope.

(** ** Python string primitives *)

Module Py.

Definition ord (c : ascii) : Z := Z.of_N (N_of_ascii c).
Definition chr (z : Z) : ascii := ascii_of_N (Z.to_N z).

(** [str.isspace] on one character: 0x09-0x0D, 0x1C-0x1F, 0x20, 0x85, 0xA0. *)
Definition isspace (c : ascii) : bool :=
  let n := ord c in
  ((9 <=? n) && (n <=? 13)) || ((28 <=? n) && (n <=? 32))
  || (n =? 133) || (n =? 160).

(** [str.lower] on one character: A-Z and the Latin-1 capitals
    0xC0-0xDE (but 0xD7, the multiplication sign) move up by 32. *)
Definition lower_char (c : ascii) : ascii :=
  let n := ord c in
  if ((65 <=? n) && (n <=? 90))
     || ((192 <=? n) && (n <=? 222) && negb (n =? 215))
  then chr (n + 32) else c.

Fixpoint lower (s : string) : string :=
  match s with
  | EmptyString => EmptyString
  | String c s' => String (lower_char c) (lower s')
  end.

Fixpoint lstrip (s : string) : string :=
  match s with
  | EmptyString => EmptyString
  | String c s' => if isspace c then lstrip s' else s
  end.

(** [rstrip]: a character stays when it is not a space or when something
    that stays follows it. *)
Fixpoint rstrip (s : string) : string :=
  match s with
  | EmptyString => EmptyString
  | String c s' =>
      match rstrip s' with
      | EmptyString => if isspace c then EmptyString else String c EmptyString
      | r => String c r
      end
  end.

Definition strip (s : string) : string := lstrip (rstrip s).

(** [s.split()] with no separator: maximal runs of non-space characters.
    [cur] is the word being read. *)
Fixpoint split_from (cur : string) (s : string) : list string :=
  match s with
  | EmptyString => match cur with EmptyString => [] | _ => [cur] end
  | String c s' =>
      if isspace c
      then match cur with
           | EmptyString => split_from EmptyString s'
           | _ => cur :: split_from EmptyString s'
           end
      else split_from (cur ++ String c EmptyString) s'
  end.

Definition split (s : string) : list string := split_from EmptyString s.

(** [sep.join(parts)] *)
Fixpoint join (sep : string) (parts : list string) : string :=
  match parts with
  | [] => EmptyString
  | [p] => p
  | p :: rest => p ++ sep ++ join sep rest
  end.

(** [s[:n]] for a non-negative [n]. *)
Fixpoint prefix (n : nat) (s : string) : string :=
  match n, s with
  | O, _ => EmptyString
  | _, EmptyString => EmptyString
  | S n', String c s' => String c (prefix n' s')
  end.

Definition len (s : string) : Z := Z.of_nat (String.length s).

(** [str(z)] and [repr(z)] of an integer: its decimal numeral. *)
Definition str_int (z : Z) : string := NilZero.string_of_int (Z.to_int z).

Definition hex_digit (n : Z) : ascii :=
  if n <? 10 then chr (48 + n) else chr (87 + n).

(** Two lower-case hexadecimal digits of a byte. *)
Definition hex2 (n : Z) : string :=
  String (hex_digit (n / 16)) (String (hex_digit (n mod 16)) EmptyString).

(** [str.isprintable] on one character. *)
Definition isprintable (c : ascii) : bool :=
  let n := ord c in
  ((32 <=? n) && (n <=? 126)) || ((161 <=? n) && negb (n =? 173)).

Fixpoint contains (c : ascii) (s : string) : bool :=
  match s with
  | EmptyString => false
  | String d s' => Ascii.eqb c d || contains c s'
  end.

Definition repr_char (quote : ascii) (c : ascii) : string :=
  let n := ord c in
  if Ascii.eqb c quote || (n =? 92) then String (chr 92) (String c EmptyString)
  else if n =? 9 then "\t"
  else if n =? 10 then "\n"
  else if n =? 13 then "\r"
  else if isprintable c then String c EmptyString
  else "\x" ++ hex2 n.

Fixpoint repr_body (quote : ascii) (s : string) : string :=
  match s with
  | EmptyString => EmptyString
  | String c s' => repr_char quote c ++ repr_body quote s'
  end.

(** [repr(s)] of a string: single quotes, unless the string has a single
    quote and no double quote. *)
Definition repr_str (s : string) : string :=
  let quote := if contains (chr 39) s && negb (contains (chr 34) s)
               then chr 34 else chr 39 in
  String quote (repr_body quote s ++ String quote EmptyString).

(** [json.dumps(s)] of a string with [ensure_ascii]: everything outside
    0x20-0x7E, the double quote and the backslash are escaped. *)
Definition json_char (c : ascii) : string :=
  let n := ord c in
  if n =? 34 then String (chr 92) (String (chr 34) EmptyString)
  else if n =? 92 then String (chr 92) (String (chr 92) EmptyString)
  else if n =? 10 then "\n"
  else if n =? 13 then "\r"
  else if n =? 9 then "\t"
  else if n =? 12 then "\f"
  else if n =? 8 then "\b"
  else if (32 <=? n) && (n <=? 126) then String c EmptyString
  else "\u00" ++ hex2 n.

Fixpoint json_body (s : string) : string :=
  match s with
  | EmptyString => EmptyString
  | String c s' => json_char c ++ json_body s'
  end.

Definition json_str (s : string) : string :=
  String (chr 34) (json_body s ++ String (chr 34) EmptyString).

(** [s.encode()]: UTF-8. *)
Fixpoint encode (s : string) : list Z :=
  match s with
  | EmptyString => []
  | String c s' =>
      let n := ord c in
      if n <? 128 then n :: encode s'
      else Z.lor 192 (Z.shiftr n 6) :: Z.lor 128 (Z.land n 63) :: encode s'
  end.

End Py.

(** ** [hashlib.md5] (RFC 1321), on 32-bit words kept in [Z] *)

Module MD5.

Definition mask32 (x : Z) : Z := Z.land x 4294967295.

Definition rotl32 (x : Z) (c : Z) : Z :=
  mask32 (Z.lor (Z.shiftl x c) (Z.shiftr x (32 - c))).

Definition not32 (x : Z) : Z := Z.lxor x 4294967295.

Definition K : list Z :=
  [ 3614090360; 3905402710;  606105819; 3250441966;
    4118548399; 1200080426; 2821735955; 4249261313;
    1770035416; 2336552879; 4294925233; 2304563134;
    1804603682; 4254626195; 2792965006; 1236535329;
    4129170786; 3225465664;  643717713; 3921069994;
    3593408605;   38016083; 3634488961; 3889429448;
     568446438; 3275163606; 4107603335; 1163531501;
    2850285829; 4243563512; 1735328473; 2368359562;
    4294588738; 2272392833; 1839030562; 4259657740;
    2763975236; 1272893353; 4139469664; 3200236656;
     681279174; 3936430074; 3572445317;   76029189;
    3654602809; 3873151461;  530742520; 3299628645;
    4096336452; 1126891415; 2878612391; 4237533241;
    1700485571; 2399980690; 4293915773; 2240044497;
    1873313359; 4264355552; 2734768916; 1309151649;
    4149444226; 3174756917;  718787259; 3951481745 ].

Definition S : list Z :=
  [ 7; 12; 17; 22; 7; 12; 17; 22; 7; 12; 17; 22; 7; 12; 17; 22;
    5;  9; 14; 20; 5;  9; 14; 20; 5;  9; 14; 20; 5;  9; 14; 20;
    4; 11; 16; 23; 4; 11; 16; 23; 4; 11; 16; 23; 4; 11; 16; 23;
    6; 10; 15; 21; 6; 10; 15; 21; 6; 10; 15; 21; 6; 10; 15; 21 ].

Definition nthZ (l : list Z) (i : Z) : Z := nth (Z.to_nat i) l 0.

Record state := { sa : Z; sb : Z; sc : Z; sd : Z }.

Definition init : state :=
  {| sa := 1732584193; sb := 4023233417; sc := 2562383102; sd := 271733878 |}.

(** One of the 64 operations of a block; [m] holds the block's 16 words. *)
Definition round (m : list Z) (st : state) (i : Z) : state :=
  let '(Build_state a b c d) := st in
  let '(f, g) :=
    if i <? 16 then (Z.lor (Z.land b c) (Z.land (not32 b) d), i)
    else if i <? 32 then (Z.lor (Z.land d b) (Z.land (not32 d) c), (5 * i + 1) mod 16)
    else if i <? 48 then (Z.lxor (Z.lxor b c) d, (3 * i + 5) mod 16)
    else (Z.lxor c (Z.lor b (not32 d)), (7 * i) mod 16) in
  let f' := mask32 (f + a + nthZ K i + nthZ m g) in
  {| sa := d; sb := mask32 (b + rotl32 f' (nthZ S i)); sc := b; sd := c |}.

Definition indices : list Z := map Z.of_nat (seq 0 64).

Definition block (st : state) (m : list Z) : state :=
  let r := fold_left (round m) indices st in
  {| sa := mask32 (sa st + sa r); sb := mask32 (sb st + sb r);
     sc := mask32 (sc st + sc r); sd := mask32 (sd st + sd r) |}.

(** Little-endian bytes of a word, and back. *)
Definition bytes_le (n : nat) (x : Z) : list Z :=
  map (fun k => Z.land (Z.shiftr x (8 * Z.of_nat k)) 255) (seq 0 n).

Fixpoint word_le (bs : list Z) : Z :=
  match bs with
  | [] => 0
  | b :: bs' => b + 256 * word_le bs'
  end.

(** The message, a 0x80 byte, zeros up to 56 modulo 64, and the length in
    bits on 8 bytes. *)
Definition pad (msg : list Z) : list Z :=
  let n := Z.of_nat (List.length msg) in
  let zeros := Z.to_nat ((55 - n) mod 64) in
  msg ++ 128 :: repeat 0 zeros ++ bytes_le 8 ((8 * n) mod 2 ^ 64).

(** Cut a list in pieces of [n] elements; [fuel] bounds the number of pieces. *)
Fixpoint pieces {A} (fuel n : nat) (l : list A) : list (list A) :=
  match fuel, l with
  | O, _ => []
  | _, [] => []
  | Datatypes.S fuel', _ => firstn n l :: pieces fuel' n (skipn n l)
  end.

Definition words (blk : list Z) : list Z := map word_le (pieces 16 4 blk).

Definition digest (msg : list Z) : list Z :=
  let p := pad msg in
  let st := fold_left block (map words (pieces (List.length p) 64 p)) init in
  bytes_le 4 (sa st) ++ bytes_le 4 (sb st) ++ bytes_le 4 (sc st) ++ bytes_le 4 (sd st).

Definition hexdigest (msg : list Z) : string :=
  fold_right (fun b acc => (Py.hex2 b ++ acc)%string) EmptyString (digest msg).

End MD5.

(** ** [app/cache.py]: cache keys *)

(** The values the call sites pass to [generate_cache_key]: integers
    (document and user ids) and strings (a text hash, a query). *)
Inductive pyval : Type :=
| PyInt (z : Z)
| PyStr (s : string).

(** [repr(v)], as [str] of a tuple shows its items. *)
Definition repr (v : pyval) : string :=
  match v with
  | PyInt z => Py.str_int z
  | PyStr s => Py.repr_str s
  end.

(** [str(args)] of the tuple of positional arguments. *)
Definition str_tuple (args : list pyval) : string :=
  match args with
  | [] => "()"
  | [a] => "(" ++ repr a ++ ",)"
  | _ => "(" ++ Py.join ", " (map repr args) ++ ")"
  end.

(** [json.dumps(v)] of one value. *)
Definition json_val (v : pyval) : string :=
  match v with
  | PyInt z => Py.str_int z
  | PyStr s => Py.json_str s
  end.

(** A keyword argument, as [kwargs.items()] yields it. *)
Definition item : Type := (string * pyval)%type.

(** Order of two items in [sorted(kwargs.items())]. The names of a dict are
    distinct, so the comparison of two items is decided by their names, which
    compare by code point. *)
Definition item_le (x y : item) : bool := String.leb (fst x) (fst y).

Fixpoint insert_item (x : item) (l : list item) : list item :=
  match l with
  | [] => [x]
  | y :: l' => if item_le x y then x :: l else y :: insert_item x l'
  end.

(** [sorted(kwargs.items())]: a stable sort. *)
Definition sorted (kwargs : list item) : list item :=
  fold_right insert_item [] kwargs.

(** [json.dumps] of a list whose items are already serialised. *)
Definition json_list (items : list string) : string :=
  "[" ++ Py.join ", " items ++ "]".

Definition json_item (x : item) : string :=
  json_list [Py.json_str (fst x); json_val (snd x)].

(** [json.dumps(key_data, sort_keys=True)] for
    [key_data = {"prefix": prefix, "args": str(args),
                 "kwargs": sorted(kwargs.items()) if kwargs else []}]:
    the keys come out as args, kwargs, prefix. *)
Definition key_string (prefix : string) (args : list pyval) (kwargs : list item)
  : string :=
  "{" ++ Py.json_str "args" ++ ": " ++ Py.json_str (str_tuple args) ++ ", "
      ++ Py.json_str "kwargs" ++ ": "
      ++ json_list (map json_item (match kwargs with [] => [] | _ => sorted kwargs end))
      ++ ", "
      ++ Py.json_str "prefix" ++ ": " ++ Py.json_str prefix ++ "}".

Definition generate_cache_key (prefix : string) (args : list pyval)
  (kwargs : list item) : string :=
  let key_hash := MD5.hexdigest (Py.encode (key_string prefix args kwargs)) in
  prefix ++ ":" ++ key_hash.

(** ** Exceptions *)

(** The exception classes that occur in the modelled code, with Python's
    subclass relation. [RedisError], [ConnectionError], [TimeoutError] and
    [ResponseError] are those of the [redis] package; an [HTTPException]
    carries its status code. *)
Inductive exn_class : Type :=
| Exception
| RedisError
| ConnectionError
| TimeoutError
| ResponseError
| ValueError
| JSONDecodeError
| TypeError
| UnicodeDecodeError
| RuntimeError
| OSError
| LookupError
| SQLAlchemyError
| HTTPException (status_code : Z).

Definition parent (c : exn_class) : option exn_class :=
  match c with
  | Exception => None
  | ConnectionError | TimeoutError | ResponseError => Some RedisError
  | JSONDecodeError | UnicodeDecodeError => Some ValueError
  | _ => Some Exception
  end.

Definition exn_class_eqb (a b : exn_class) : bool :=
  match a, b with
  | Exception, Exception | RedisError, RedisError
  | ConnectionError, ConnectionError | TimeoutError, TimeoutError
  | ResponseError, ResponseError | ValueError, ValueError
  | JSONDecodeError, JSONDecodeError | TypeError, TypeError
  | UnicodeDecodeError, UnicodeDecodeError | RuntimeError, RuntimeError
  | OSError, OSError | LookupError, LookupError
  | SQLAlchemyError, SQLAlchemyError => true
  | HTTPException _, HTTPException _ => true
  | _, _ => false
  end.

(** [issubclass(c, base)]; the hierarchy is three levels deep. *)
Definition issubclass (c base : exn_class) : bool :=
  exn_class_eqb c base
  || match parent c with
     | None => false
     | Some p =>
         exn_class_eqb p base
         || match parent p with
            | None => false
            | Some g => exn_class_eqb g base
            end
     end.

(** [type(e).__name__] *)
Definition class_name (c : exn_class) : string :=
  match c with
  | Exception => "Exception"
  | RedisError => "RedisError"
  | ConnectionError => "ConnectionError"
  | TimeoutError => "TimeoutError"
  | ResponseError => "ResponseError"
  | ValueError => "ValueError"
  | JSONDecodeError => "JSONDecodeError"
  | TypeError => "TypeError"
  | UnicodeDecodeError => "UnicodeDecodeError"
  | RuntimeError => "RuntimeError"
  | OSError => "OSError"
  | LookupError => "LookupError"
  | SQLAlchemyError => "SQLAlchemyError"
  | HTTPException _ => "HTTPException"
  end.

(** An exception object: its class and [str(e)]. *)
Record exn : Type := { cls : exn_class; message : string }.

Definition isinstance (e : exn) (base : exn_class) : bool := issubclass (cls e) base.

Inductive outcome (A : Type) : Type :=
| Return (a : A)
| Raise (e : exn).
Arguments Return {A} a.
Arguments Raise {A} e.

(** ** [app/cache.py]: the Redis client and the cache operations *)

(** Values that are cached and returned to callers: summaries (strings) and
    response dictionaries with string keys. [json.dumps] succeeds on all of
    them, and [json.loads] of the text gives the value back. *)
Inductive pyobj : Type :=
| ONone
| OInt (z : Z)
| OFloat (q : Q)
| OStr (s : string)
| OList (l : list pyobj)
| ODict (items : list (string * pyobj)).

(** A text stored in Redis, kept as what [json.loads] makes of it: the value
    of a JSON document, or a text that is not one. *)
Inductive payload : Type :=
| Json (v : pyobj)
| Malformed (raw : string).

(** A value passed to [json.dumps(value, default=str)]: a value of JSON
    (the values the program itself caches are of this kind); a container
    that contains itself, as [l = []; l.append(l)]; a dict with a tuple as a
    key; or any other object, which [default=str] turns into its [str]. *)
Inductive pyvalue : Type :=
| Tree (v : pyobj)
| SelfRef
| TupleKey
| Other (text : string).

Coercion Tree : pyobj >-> pyvalue.

(** [json.dumps(value, default=str)]: a circular reference is a
    [ValueError], a key that is no [str], [int], [float], [bool] or [None]
    is a [TypeError], and [default] is not asked for either. *)
Definition json_dumps (value : pyvalue) : outcome payload :=
  match value with
  | Tree v => Return (Json v)
  | SelfRef => Raise {| cls := ValueError; message := "Circular reference detected" |}
  | TupleKey =>
      Raise {| cls := TypeError;
               message := "keys must be str, int, float, bool or None, not tuple" |}
  | Other text => Return (Json (OStr text))
  end.

(** [json.loads(text)] *)
Definition json_loads (text : payload) : outcome pyobj :=
  match text with
  | Json v => Return v
  | Malformed raw =>
      Raise {| cls := JSONDecodeError; message := "Expecting value" |}
  end.

(** Truth value of a text returned by the client: a JSON document is never
    the empty string. *)
Definition nonempty_text (text : payload) : bool :=
  match text with
  | Json _ => true
  | Malformed raw => negb (String.eqb raw "")
  end.

(** Truth value of a Python value. *)
Definition truthy (v : pyobj) : bool :=
  match v with
  | ONone => false
  | OInt z => negb (z =? 0)
  | OFloat q => negb (Qeq_bool q 0)
  | OStr s => negb (String.eqb s "")
  | OList l => match l with [] => false | _ => true end
  | ODict items => match items with [] => false | _ => true end
  end.

(** The Redis server as the client sees it: [fault] is the exception every
    command raises while the server or the link is down; an entry holds its
    time to live and its text. *)
Record redis_server : Type := {
  fault : option exn;
  entries : gmap string (Z * payload)
}.

(** The module's state: the global [redis_client] ([true]: a client object,
    [false]: [None]) and the server behind it. *)
Record cache_state : Type := {
  redis_client : bool;
  server : redis_server
}.

(** [settings.REDIS_CACHE_TTL] *)
Definition REDIS_CACHE_TTL : Z := 3600.

(** [get_redis_client()]: connects and pings on first use; any exception
    leaves the global [None]. Returns whether a client is there. *)
Definition get_redis_client (c : cache_state) : bool * cache_state :=
  if redis_client c then (true, c)
  else match fault (server c) with
       | None => (true, {| redis_client := true; server := server c |})
       | Some _ => (false, {| redis_client := false; server := server c |})
       end.

(** [client.get(key)] *)
Definition client_get (key : string) (s : redis_server) : outcome (option payload) :=
  match fault s with
  | Some e => Raise e
  | None => Return (snd <$> entries s !! key)
  end.

(** [client.setex(key, ttl, text)]: the server refuses a time to live that is
    not positive. *)
Definition client_setex (key : string) (ttl : Z) (text : payload) (s : redis_server)
  : outcome unit * redis_server :=
  match fault s with
  | Some e => (Raise e, s)
  | None =>
      if ttl <=? 0
      then (Raise {| cls := ResponseError; message := "invalid expire time in 'setex' command" |}, s)
      else (Return tt, {| fault := None; entries := <[key := (ttl, text)]> (entries s) |})
  end.

(** [get_cache(key)]; the result [ONone] is a miss. *)
Definition get_cache (key : string) (c : cache_state) : outcome pyobj * cache_state :=
  let '(client, c) := get_redis_client c in
  if negb client then (Return ONone, c)
  else
    let attempt :=
      match client_get key (server c) with
      | Raise e => Raise e
      | Return None => Return ONone
      | Return (Some cached_value) =>
          if nonempty_text cached_value then json_loads cached_value else Return ONone
      end in
    match attempt with
    | Raise e =>
        if isinstance e RedisError || isinstance e JSONDecodeError
        then (Return ONone, c) else (Raise e, c)
    | Return v => (Return v, c)
    end.

(** [set_cache(key, value, ttl)]; [ttl = None] or [0] takes the default. *)
Definition set_cache (key : string) (value : pyvalue) (ttl : option Z) (c : cache_state)
  : outcome bool * cache_state :=
  let '(client, c) := get_redis_client c in
  if negb client then (Return false, c)
  else
    let ttl := match ttl with
               | Some t => if t =? 0 then REDIS_CACHE_TTL else t
               | None => REDIS_CACHE_TTL
               end in
    let '(attempt, s) :=
      match json_dumps value with
      | Raise e => (Raise e, server c)
      | Return json_value => client_setex key ttl json_value (server c)
      end in
    let c := {| redis_client := redis_client c; server := s |} in
    match attempt with
    | Return _ => (Return true, c)
    | Raise e =>
        if isinstance e RedisError || isinstance e TypeError
        then (Return false, c) else (Raise e, c)
    end.

(** Redis glob patterns, for the patterns this program uses: [*] matches any
    run of characters, [?] one character, anything else itself. The
    character classes ([[a-z]]) and the escapes (a backslash) of Redis are
    not modelled: this is the matching of Redis on the patterns that
    contain neither [[] nor a backslash, as the two patterns of the program
    do ([document_pattern_plain] below). *)
Fixpoint glob_match_list (fuel : nat) (p s : list ascii) : bool :=
  match fuel with
  | O => false
  | S fuel' =>
      match p, s with
      | [], [] => true
      | [], _ :: _ => false
      | pc :: p', _ =>
          if Ascii.eqb pc "*"
          then glob_match_list fuel' p' s
               || match s with
                  | [] => false
                  | _ :: s' => glob_match_list fuel' p s'
                  end
          else match s with
               | [] => false
               | sc :: s' =>
                   (Ascii.eqb pc "?" || Ascii.eqb pc sc) && glob_match_list fuel' p' s'
               end
      end
  end.

Definition glob_match (pattern key : string) : bool :=
  let p := list_ascii_of_string pattern in
  let s := list_ascii_of_string key in
  glob_match_list (S (List.length p + List.length s)) p s.

(** [delete_cache_pattern(pattern)]: the number of keys deleted. *)
Definition delete_cache_pattern (pattern : string) (c : cache_state)
  : outcome Z * cache_state :=
  let '(client, c) := get_redis_client c in
  if negb client then (Return 0, c)
  else
    match fault (server c) with
    | Some e =>
        if isinstance e RedisError then (Return 0, c) else (Raise e, c)
    | None =>
        let matching := filter (fun kv => glob_match pattern (fst kv) = true) (entries (server c)) in
        let kept := filter (fun kv => glob_match pattern (fst kv) = false) (entries (server c)) in
        (Return (Z.of_nat (size matching)),
         {| redis_client := redis_client c;
            server := {| fault := None; entries := kept |} |})
    end.

(** [client.delete(key)] *)
Definition client_delete (key : string) (s : redis_server) : outcome unit * redis_server :=
  match fault s with
  | Some e => (Raise e, s)
  | None => (Return tt, {| fault := None; entries := delete key (entries s) |})
  end.

(** [delete_cache(key)] *)
Definition delete_cache (key : string) (c : cache_state) : outcome bool * cache_state :=
  let '(client, c) := get_redis_client c in
  if negb client then (Return false, c)
  else
    let '(attempt, s) := client_delete key (server c) in
    let c := {| redis_client := redis_client c; server := s |} in
    match attempt with
    | Return _ => (Return true, c)
    | Raise e => if isinstance e RedisError then (Return false, c) else (Raise e, c)
    end.

(** [is_redis_available()]: the ping is under a bare [except]. *)
Definition is_redis_available (c : cache_state) : bool * cache_state :=
  let '(client, c) := get_redis_client c in
  if negb client then (false, c)
  else match fault (server c) with
       | None => (true, c)
       | Some _ => (false, c)
       end.

(** [cache_result(key_prefix, ttl)]: the wrapper the decorator makes of
    [func], called with positional and keyword arguments. [func] runs on a
    state of its own. *)
Definition cache_result {S : Type} (key_prefix : string) (ttl : option Z)
  (func : list pyval -> list item -> S -> outcome pyobj * S)
  (args : list pyval) (kwargs : list item) (st : S) (c : cache_state)
  : outcome pyobj * (S * cache_state) :=
  let cache_key := generate_cache_key key_prefix args kwargs in
  match get_cache cache_key c with
  | (Raise e, c) => (Raise e, (st, c))
  | (Return cached_result, c) =>
      match cached_result with
      | ONone =>
          match func args kwargs st with
          | (Raise e, st) => (Raise e, (st, c))
          | (Return result, st) =>
              match set_cache cache_key result ttl c with
              | (Raise e, c) => (Raise e, (st, c))
              | (Return _, c) => (Return result, (st, c))
              end
          end
      | _ => (Return cached_result, (st, c))
      end
  end.

(** ** [app/models.py]: the tables *)

(** A row of [documents]. [summary] is [ONone] while the column is NULL;
    [status] is free text. *)
Record Document : Type := {
  d_id : Z;
  d_user_id : Z;
  filename : string;
  file_type : string;
  content : string;
  summary : pyobj;
  status : string
}.

(** A row of [embeddings]; the column type is [Vector(384)]. *)
Record Embedding : Type := {
  document_id : Z;
  embedding : list Q;
  model_name : option string
}.

Record User : Type := {
  user_id : Z;
  username : string;
  role : string
}.

(** The Store. Its statements succeed, but an insert into [embeddings] fails
    with the exception that [reject] gives for the vector, if any: the
    dimension check of the column, a constraint, an outage. [next_id] is the
    next value of the [documents] id sequence. [journal] records every
    committed write of a status, oldest first, as (document id, status); the
    program never reads it. *)
Record database : Type := {
  documents : gmap Z Document;
  embeddings : list Embedding;
  users : gmap Z User;
  next_id : Z;
  reject : list Q -> option exn;
  journal : list (Z * string)
}.

(** The dimension check of [Vector(384)]. *)
Definition vector_384 (v : list Q) : option exn :=
  if (Z.of_nat (List.length v) =? 384)%Z then None
  else Some {| cls := SQLAlchemyError;
               message := "expected 384 dimensions, not " ++ Py.str_int (Z.of_nat (List.length v)) |}.

(** Everything the program reads and writes besides its arguments:
    the cache, the Store, and the inputs the summarisation model was called
    with, in call order. *)
Record world : Type := {
  cache : cache_state;
  db : database;
  summarizer_calls : list string
}.

Definition with_cache (w : world) (c : cache_state) : world :=
  {| cache := c; db := db w; summarizer_calls := summarizer_calls w |}.

Definition with_db (w : world) (d : database) : world :=
  {| cache := cache w; db := d; summarizer_calls := summarizer_calls w |}.

Definition log_call (w : world) (input : string) : world :=
  {| cache := cache w; db := db w; summarizer_calls := summarizer_calls w ++ [input] |}.

(** ** [app/ai_model/ai.py] *)

Definition MAX_INPUT_WORDS : Z := 3000.
Definition CHUNK_MAX_WORDS : Z := 300.

(** [len(s.split())] *)
Definition word_count (s : string) : Z := Z.of_nat (List.length (Py.split s)).

(** The loop variables of [chunk_text]. *)
Record chunker : Type := {
  chunks : list string;
  current_chunk : list string;
  current_word_count : Z
}.

(** [if current_chunk: chunks.append(" ".join(current_chunk))] *)
Definition flush (chunks : list string) (current_chunk : list string) : list string :=
  match current_chunk with
  | [] => chunks
  | _ => chunks ++ [Py.join " " current_chunk]
  end.

(** One turn of the loop over the sentences. *)
Definition chunk_step (max_words : Z) (st : chunker) (sentence : string) : chunker :=
  let sentence_words := word_count sentence in
  if current_word_count st + sentence_words <=? max_words
  then {| chunks := chunks st;
          current_chunk := current_chunk st ++ [sentence];
          current_word_count := current_word_count st + sentence_words |}
  else {| chunks := flush (chunks st) (current_chunk st);
          current_chunk := [sentence];
          current_word_count := sentence_words |}.

(** The body of [chunk_text] after tokenisation. *)
Definition chunk_sentences (sentences : list string) (max_words : Z) : list string :=
  let st := fold_left (chunk_step max_words) sentences
              {| chunks := []; current_chunk := []; current_word_count := 0 |} in
  flush (chunks st) (current_chunk st).

(** [get_text_hash(text)] *)
Definition get_text_hash (text : string) : string :=
  let normalized := Py.join " " (Py.split (Py.strip text)) in
  MD5.hexdigest (Py.encode normalized).

(** The cache key of a summary, as both the lookup and the store compute it
    from the value [text] has at that point. *)
Definition summary_cache_key (text : string) : string :=
  let text_hash := get_text_hash text in
  generate_cache_key "summary" [] [("text_hash", PyStr text_hash)].

(** The model service and the tokenizer, which are not part of this
    repository. *)
Section ModelService.

(** [nltk.sent_tokenize] *)
Variable sent_tokenize : string -> list string.

(** [get_summarizer()]: the exception loading the model raises, if any. *)
Variable summarizer_load : option exn.

(** The summarisation pipeline called on a text with [max_length] and
    [min_length]: [result[0]["summary_text"]], or the exception raised. *)
Variable summarizer : string -> Z -> Z -> outcome string.

(** [embedding_model.encode(text).tolist()], and the exception of loading or
    running the model. *)
Variable encode : string -> outcome (list Q).

(** Cosine distance of pgvector, the operator [<=>]. *)
Variable cosine_distance : list Q -> list Q -> Q.

Definition chunk_text (text : string) (max_words : Z) : list string :=
  chunk_sentences (sent_tokenize text) max_words.

(** One turn of the loop over the chunks: the summary appended, and the
    world with the call logged. *)
Definition summarize_chunk (chunk : string) (w : world) : string * world :=
  let chunk_words := word_count chunk in
  if chunk_words <? 30 then (chunk, w)
  else
    match summarizer chunk (Z.min 150 (Z.max 60 (chunk_words / 3))) 30 with
    | Return summary_text => (summary_text, log_call w chunk)
    | Raise _ => (Py.prefix 200 chunk, log_call w chunk)
    end.

Fixpoint summarize_chunks (chunks : list string) (w : world) : list string * world :=
  match chunks with
  | [] => ([], w)
  | chunk :: rest =>
      let '(s, w) := summarize_chunk chunk w in
      let '(ss, w) := summarize_chunks rest w in
      (s :: ss, w)
  end.

(** The text after the cap on its words. *)
Definition truncate_input (text : string) : string :=
  let words := Py.split text in
  if Z.of_nat (List.length words) >? MAX_INPUT_WORDS
  then Py.join " " (firstn (Z.to_nat MAX_INPUT_WORDS) words)
  else text.

(** The lookup at the head of [generate_summary]: the cached summary, if
    one is found and is true; an exception of the cache is swallowed. *)
Definition cached_summary (text : string) (w : world) : option pyobj * world :=
  let cache_key := summary_cache_key text in
  match get_cache cache_key (cache w) with
  | (Return cached_summary, c) =>
      (if truthy cached_summary then Some cached_summary else None, with_cache w c)
  | (Raise _, c) => (None, with_cache w c)
  end.

(** The final compression of a long concatenation of summaries. *)
Definition compress (final_summary : string) (w : world) : string * world :=
  let final_words := word_count final_summary in
  if final_words >? 250 then
    match summarizer final_summary 200 60 with
    | Return summary_text => (summary_text, log_call w final_summary)
    | Raise _ =>
        (Py.join " " (firstn 200 (Py.split final_summary)), log_call w final_summary)
    end
  else (final_summary, w).

(** The write at the end of [generate_summary]; an exception of the cache is
    swallowed. [text] is the value the variable has at that point. *)
Definition store_summary (text final_summary : string) (w : world) : world :=
  let cache_key := summary_cache_key text in
  with_cache w (snd (set_cache cache_key (OStr final_summary) (Some 86400) (cache w))).

(** [generate_summary(text, use_cache)]. A cache hit returns the cached
    value as it is. The assignment [text = " ".join(words[:MAX_INPUT_WORDS])]
    rebinds [text] for the rest of the function. *)
Definition generate_summary (text : string) (use_cache : bool) (w : world)
  : outcome pyobj * world :=
  if String.eqb (Py.strip text) "" then (Return (OStr ""), w)
  else
    let '(hit, w) := if use_cache then cached_summary text w else (None, w) in
    match hit with
    | Some cached_summary => (Return cached_summary, w)
    | None =>
        let text := truncate_input text in
        let chunks := chunk_text text CHUNK_MAX_WORDS in
        match chunks with
        | [] => (Return (OStr (Py.prefix 500 text)), w)
        | _ =>
            match summarizer_load with
            | Some e => (Raise e, w)
            | None =>
                let '(summaries, w) := summarize_chunks chunks w in
                let '(final_summary, w) := compress (Py.join " " summaries) w in
                let w := if use_cache then store_summary text final_summary w else w in
                (Return (OStr final_summary), w)
            end
        end
    end.

(** [generate_embedding(text)] *)
Definition generate_embedding (text : string) : outcome (list Q) := encode text.

(** ** [app/api/documents.py] *)

Definition http_error (code : Z) (detail : string) : exn :=
  {| cls := HTTPException code; message := detail |}.

(** The document row with [summary] and [status] assigned. *)
Definition updated (doc : Document) (new_summary : pyobj) (new_status : string) : Document :=
  {| d_id := d_id doc; d_user_id := d_user_id doc;
     filename := filename doc; file_type := file_type doc;
     content := content doc; summary := new_summary; status := new_status |}.

(** [db.commit()] of a document whose [summary] and [status] were assigned. *)
Definition commit_document (doc : Document) (new_summary : pyobj) (new_status : string)
  (d : database) : database :=
  {| documents := <[d_id doc := updated doc new_summary new_status]> (documents d);
     embeddings := embeddings d;
     users := users d;
     next_id := next_id d;
     reject := reject d;
     journal := journal d ++ [(d_id doc, new_status)] |}.

(** [db.add(Embedding(document_id, embedding)); db.commit()] *)
Definition add_embedding (doc : Z) (vector : list Q) (d : database)
  : outcome unit * database :=
  match reject d vector with
  | Some e => (Raise e, d)
  | None =>
      (Return tt,
       {| documents := documents d;
          embeddings := embeddings d ++ [{| document_id := doc; embedding := vector;
                                            model_name := None |}];
          users := users d;
          next_id := next_id d;
          reject := reject d;
          journal := journal d |})
  end.

(** The message stored in [status] by the outer handler. *)
Definition failure_status (e : exn) : string :=
  let error_msg := ("failed: " ++ class_name (cls e) ++ ": " ++ message e)%string in
  if Py.len error_msg >? 500 then (Py.prefix 497 error_msg ++ "...")%string else error_msg.

(** Steps 3 and 4 of the background task: the document record, then the
    embedding. *)
Definition record_results (doc_id : Z) (summary : pyobj) (embedding_vector : list Q)
  (w : world) : outcome unit * world :=
  match documents (db w) !! doc_id with
  | None => (Return tt, w)
  | Some doc =>
      let w := with_db w (commit_document doc summary "completed" (db w)) in
      match delete_cache_pattern ("document:*" ++ Py.str_int doc_id ++ "*") (cache w) with
      | (Raise e, c) => (Raise e, with_cache w c)
      | (Return _, c) =>
          let w := with_cache w c in
          let '(saved, w) :=
            match add_embedding (d_id doc) embedding_vector (db w) with
            | (Raise e, d) => (Raise e, with_db w d)
            | (Return _, d) =>
                let w := with_db w d in
                match delete_cache_pattern "search:*" (cache w) with
                | (Raise e, c) => (Raise e, with_cache w c)
                | (Return _, c) => (Return tt, with_cache w c)
                end
            end in
          match saved with
          | Return _ => (Return tt, w)
          | Raise embedding_save_error =>
              (* db.rollback(); the document as committed, with a new status *)
              (Return tt,
               with_db w (commit_document doc summary
                            ("completed (embedding save failed: "
                               ++ message embedding_save_error ++ ")") (db w)))
          end
      end
  end.

(** [process_document_background(doc_id, text, db_session_maker)] *)
Definition process_document_background (doc_id : Z) (text : string) (w : world) : world :=
  let '(attempt, w) :=
    match generate_summary text true w with
    | (Raise summary_error, w) =>
        (Raise {| cls := Exception;
                  message := "Summary generation failed: " ++ message summary_error |}, w)
    | (Return summary, w) =>
        match generate_embedding text with
        | Raise embedding_error =>
            (Raise {| cls := Exception;
                      message := "Embedding generation failed: " ++ message embedding_error |}, w)
        | Return embedding_vector => record_results doc_id summary embedding_vector w
        end
    end in
  match attempt with
  | Return _ => w
  | Raise e =>
      match documents (db w) !! doc_id with
      | Some doc => with_db w (commit_document doc (summary doc) (failure_status e) (db w))
      | None => w
      end
  end.

(** An uploaded file, and the text extraction of the three formats (PyMuPDF,
    docx2txt, UTF-8 decoding), which is not part of this repository. *)
Record UploadFile : Type := { file_name : string; file_bytes : list Z }.

Variable extract_text : string -> list Z -> outcome string.

(** [s.split(sep)[-1]] for a one-character separator. *)
Fixpoint last_segment (sep : ascii) (s : string) : string :=
  match s with
  | EmptyString => EmptyString
  | String c s' =>
      if Py.contains sep s' then last_segment sep s'
      else if Ascii.eqb c sep then s' else s
  end.

(** [db.add(doc); db.commit(); db.refresh(doc)] for a new document. *)
Definition insert_document (user : Z) (name ext text : string) (st : string)
  (d : database) : Document * database :=
  let doc := {| d_id := next_id d; d_user_id := user; filename := name;
                file_type := ext; content := text; summary := ONone; status := st |} in
  (doc,
   {| documents := <[next_id d := doc]> (documents d);
      embeddings := embeddings d;
      users := users d;
      next_id := next_id d + 1;
      reject := reject d;
      journal := journal d ++ [(next_id d, st)] |}).

(** [upload_document]: the response, and the arguments of the background
    task it queued. *)
Definition upload_document (file : UploadFile) (current_user : User) (w : world)
  : outcome (pyobj * (Z * string)) * world :=
  let ext := Py.lower (last_segment "." (file_name file)) in
  if negb (String.eqb ext "pdf" || String.eqb ext "docx" || String.eqb ext "txt")
  then (Raise (http_error 400 "Unsupported file format"), w)
  else
    let read :=
      if String.eqb ext "pdf" then
        match file_bytes file with
        | [] => Raise (http_error 400 "Uploaded PDF is empty")
        | _ => extract_text ext (file_bytes file)
        end
      else if String.eqb ext "docx" then extract_text ext (file_bytes file)
      else
        match file_bytes file with
        | [] => Raise (http_error 400 "Uploaded text file is empty")
        | _ => extract_text ext (file_bytes file)
        end in
    match read with
    | Raise e =>
        if isinstance e (HTTPException 0) then (Raise e, w)
        else (Raise (http_error 500 ("Error reading document: " ++ message e)), w)
    | Return text =>
        if String.eqb (Py.strip text) "" then
          (Raise (http_error 400 "Empty or unreadable document"), w)
        else
          let '(doc, d) :=
            insert_document (user_id current_user) (file_name file) ext text "processing" (db w) in
          (Return
             (ODict [("message",
                      OStr "Document uploaded successfully. Summary and embedding are being processed.");
                     ("document_id", OInt (d_id doc));
                     ("status", OStr "processing")],
              (d_id doc, text)),
           with_db w d)
    end.

(** A request and the background task it queued, run in that order. *)
Definition upload_and_process (file : UploadFile) (current_user : User) (w : world) : world :=
  match upload_document file current_user w with
  | (Return (_, (doc_id, text)), w) => process_document_background doc_id text w
  | (Raise _, w) => w
  end.

(** A row of the search statement. *)
Record row : Type := {
  r_id : Z;
  r_filename : string;
  r_summary : pyobj;
  r_username : string;
  r_distance : Q
}.

(** [similarity]: [1 - (e.embedding <=> query_vector)] *)
Definition r_similarity (r : row) : Q := 1 - r_distance r.

(** The joins of the statement: an embedding with its document and the
    document's owner. *)
Definition joined (d : database) (query_vector : list Q) : list row :=
  omap (fun e =>
          match documents d !! document_id e with
          | None => None
          | Some doc =>
              match users d !! d_user_id doc with
              | None => None
              | Some u =>
                  Some {| r_id := d_id doc; r_filename := filename doc;
                          r_summary := summary doc; r_username := username u;
                          r_distance := cosine_distance (embedding e) query_vector |}
              end
          end)
       (embeddings d).

(** [ORDER BY e.embedding <=> query_vector], as a stable sort. *)
Fixpoint insert_row (r : row) (l : list row) : list row :=
  match l with
  | [] => [r]
  | x :: l' => if Qle_bool (r_distance r) (r_distance x) then r :: l else x :: insert_row r l'
  end.

Definition order_by_distance (l : list row) : list row := fold_right insert_row [] l.

(** The statement of [semantic_search], with [LIMIT 10]. *)
Definition search_rows (d : database) (query_vector : list Q) : list row :=
  firstn 10 (order_by_distance (joined d query_vector)).

(** [round(x)] to an integer, halves to the even neighbour. *)
Definition round_half_even (x : Q) : Z :=
  let f := Qfloor x in
  match ((x - inject_Z f) ?= (1 # 2))%Q with
  | Lt => f
  | Gt => f + 1
  | Eq => if Z.even f then f else f + 1
  end.

(** [round(x, 4)] *)
Definition round4 (x : Q) : Q := (round_half_even (x * 10000) # 10000)%Q.

(** The relevance floor: [float(r.similarity) > 0.2]. *)
Definition relevant (r : row) : bool := negb (Qle_bool (r_similarity r) (2 # 10)).

Definition format_row (r : row) : pyobj :=
  ODict [("id", OInt (r_id r));
         ("filename", OStr (r_filename r));
         ("summary", r_summary r);
         ("username", OStr (r_username r));
         ("similarity", OFloat (round4 (r_similarity r)))].

Definition filtered_results (results : list row) : list pyobj :=
  map format_row (filter (fun r => relevant r = true) results).

(** The cache key of a search. *)
Definition search_cache_key (query : string) : string :=
  generate_cache_key "search" [] [("query", PyStr (Py.lower (Py.strip query)))].

(** What [semantic_search] does after a cache miss. *)
Definition search_on_miss (cache_key query : string) (w : world) : outcome pyobj * world :=
  match generate_embedding query with
  | Raise e => (Raise e, w)
  | Return [] => (Raise (http_error 500 "Failed to generate query embedding"), w)
  | Return query_embedding =>
      let results := search_rows (db w) query_embedding in
      let '(response, ttl) :=
        match results with
        | [] => (ODict [("message", OStr "No results found"); ("results", OList [])], Some 300)
        | _ =>
            match filtered_results results with
            | [] => (ODict [("message", OStr "No relevant results found"); ("results", OList [])],
                     Some 300)
            | filtered => (ODict [("results", OList filtered)], None)
            end
        end in
      match set_cache cache_key response ttl (cache w) with
      | (Raise e, c) => (Raise e, with_cache w c)
      | (Return _, c) => (Return response, with_cache w c)
      end
  end.

(** [semantic_search(query, db, current_user)] *)
Definition semantic_search (query : string) (current_user : User) (w : world)
  : outcome pyobj * world :=
  let '(attempt, w) :=
    if String.eqb (Py.strip query) "" then
      (Raise (http_error 400 "Query cannot be empty"), w)
    else
      let cache_key := search_cache_key query in
      match get_cache cache_key (cache w) with
      | (Raise e, c) => (Raise e, with_cache w c)
      | (Return cached_result, c) =>
          let w := with_cache w c in
          match cached_result with
          | ONone => search_on_miss cache_key query w
          | _ => (Return cached_result, w)
          end
      end in
  match attempt with
  | Return response => (Return response, w)
  | Raise e =>
      if isinstance e (HTTPException 0) then (Raise e, w)
      else (Raise (http_error 500 ("Search failed: " ++ message e)), w)
  end.

(** The cache key of a document view. *)
Definition document_cache_key (document_id : Z) (user : Z) : string :=
  generate_cache_key "document" []
    [("document_id", PyInt document_id); ("user_id", PyInt user)].

(** [x or default] for a summary column. *)
Definition or_default (v : pyobj) (default : pyobj) : pyobj :=
  if truthy v then v else default.

(** [get_document(document_id, db, current_user)] *)
Definition get_document (document_id : Z) (current_user : User) (w : world)
  : outcome pyobj * world :=
  let '(attempt, w) :=
    if document_id <=? 0 then
      (Raise (http_error 400 "Invalid document ID. Must be a positive integer."), w)
    else
      let cache_key := document_cache_key document_id (user_id current_user) in
      match get_cache cache_key (cache w) with
      | (Raise e, c) => (Raise e, with_cache w c)
      | (Return cached_result, c) =>
          let w := with_cache w c in
          match cached_result with
          | ONone =>
              match documents (db w) !! document_id with
              | None =>
                  (Raise (http_error 404
                            ("Document with ID " ++ Py.str_int document_id ++ " not found.")), w)
              | Some doc =>
                  if negb (d_user_id doc =? user_id current_user)
                     && negb (String.eqb (role current_user) "admin")
                  then (Raise (http_error 403 "You are not authorized to access this document."), w)
                  else
                    let uploaded_by :=
                      if d_user_id doc =? user_id current_user
                      then Return (username current_user)
                      else match users (db w) !! d_user_id doc with
                           | Some owner => Return (username owner)
                           | None =>
                               Raise {| cls := Exception;
                                        message := "'NoneType' object has no attribute 'username'" |}
                           end in
                    match uploaded_by with
                    | Raise e => (Raise e, w)
                    | Return name =>
                        let response :=
                          ODict [("id", OInt (d_id doc));
                                 ("filename", OStr (filename doc));
                                 ("summary", or_default (summary doc)
                                               (OStr "Summary not available yet."));
                                 ("status",
                                  if String.eqb (status doc) ""
                                  then (if truthy (summary doc) then OStr "completed"
                                        else OStr "processing")
                                  else OStr (status doc));
                                 ("uploaded_by", OStr name)] in
                        match set_cache cache_key response (Some 900) (cache w) with
                        | (Raise e, c) => (Raise e, with_cache w c)
                        | (Return _, c) => (Return response, with_cache w c)
                        end
                    end
              end
          | _ => (Return cached_result, w)
          end
      end in
  match attempt with
  | Return response => (Return response, w)
  | Raise e =>
      if isinstance e (HTTPException 0) then (Raise e, w)
      else if isinstance e SQLAlchemyError
      then (Raise (http_error 500 ("Database error occurred: " ++ message e)), w)
      else (Raise (http_error 500 ("Unexpected error: " ++ message e)), w)
  end.

End ModelService.

(** * Vocabulary of the properties

    Predicates, readings of results and concrete worlds that the statements
    below use. None of it is part of the program. *)


(** The words of a list of sentences. *)
Definition total_words (g : list string) : Z :=
  fold_right (fun s n => word_count s + n) 0 g.

(** What holds of a finished chunk, as the list of its sentences: it is not
    empty, and it keeps to the budget unless it is one sentence that alone
    exceeds it. *)
Definition good_group (max_words : Z) (g : list string) : Prop :=
  g <> [] /\ (total_words g <= max_words
              \/ exists s, g = [s] /\ max_words < word_count s).

(** The same of the chunk under construction, which may be empty. *)
Definition good_current (max_words : Z) (st : chunker) : Prop :=
  current_word_count st = total_words (current_chunk st)
  /\ (current_chunk st = [] \/ good_group max_words (current_chunk st)).

(** The group that [flush] adds for the chunk under construction. *)
Definition pending (cur : list string) : list (list string) :=
  match cur with [] => [] | _ => [cur] end.

(** A sentence of 301 words. *)
Definition long_sentence : string := Py.join " " (repeat "w" 301).

(** [d.get(k)] on the items of a dictionary. *)
Fixpoint dict_get (k : string) (items : list (string * pyobj)) : option pyobj :=
  match items with
  | [] => None
  | (k', v) :: rest => if String.eqb k k' then Some v else dict_get k rest
  end.

(** [response["results"]] *)
Definition results_of (response : pyobj) : list pyobj :=
  match response with
  | ODict items =>
      match dict_get "results" items with
      | Some (OList l) => l
      | _ => []
      end
  | _ => []
  end.




(** The rows that pass the relevance floor. *)
Definition relevant_rows (results : list row) : list row :=
  List.filter relevant results.

(** The inner product of two vectors. *)
Fixpoint dot (a b : list Q) : Q :=
  match a, b with
  | x :: a', y :: b' => (x * y + dot a' b')%Q
  | _, _ => (0 # 1)%Q
  end.

(** Cosine distance on vectors of norm 1, as the embedding model gives
    them. *)
Definition unit_distance (a b : list Q) : Q := (1 - dot a b)%Q.

(** A query embedding of norm 1. *)
Definition query_vector : list Q := (1 # 1)%Q :: repeat (0 # 1)%Q 383.

(** A vector of norm 1 at cosine similarity 78409/392041, about 0.200002,
    of [query_vector]. *)
Definition stored_vector : list Q :=
  ((78409 # 392041) :: (384120 # 392041) :: repeat (0 # 1) 382)%Q.

(** A user, and a completed document of hers with its embedding. *)
Definition ann : User := {| user_id := 1; username := "ann"; role := "user" |}.

Definition lease : Document :=
  {| d_id := 1; d_user_id := 1; filename := "lease.txt"; file_type := "txt";
     content := "The lease is renewed each year."; summary := OStr "A yearly lease.";
     status := "completed" |}.

(** A Redis server that answers, holding nothing, and no client yet. *)
Definition no_cache : cache_state :=
  {| redis_client := false; server := {| fault := None; entries := ∅ |} |}.

(** A Store with the one document of [ann], embedded as [stored_vector]. *)
Definition search_world : world :=
  {| cache := no_cache;
     db := {| documents := {[ 1 := lease ]};
              embeddings := [{| document_id := 1; embedding := stored_vector;
                                model_name := None |}];
              users := {[ 1 := ann ]};
              next_id := 2;
              reject := vector_384;
              journal := [(1, "processing"); (1, "completed")] |};
     summarizer_calls := [] |}.

(** The response to the query [renewal] in [search_world]. *)
Definition floor_response : pyobj :=
  ODict [("results",
          OList [ODict [("id", OInt 1);
                        ("filename", OStr "lease.txt");
                        ("summary", OStr "A yearly lease.");
                        ("username", OStr "ann");
                        ("similarity", OFloat (2000 # 10000))]])].

(** A cache whose faults, behind a connected client, are transport errors:
    under this condition the cache operations do not raise (C8). *)
Definition cache_quiet (c : cache_state) : Prop :=
  forall e, fault (server c) = Some e ->
            redis_client c = false \/ isinstance e RedisError = true.

(** The status written when the embedding cannot be saved. *)
Definition degraded_status (e : exn) : string :=
  ("completed (embedding save failed: " ++ message e ++ ")")%string.

(** The outer handler: the failure is written to the document, if it is
    there. *)
Definition record_failure (id : Z) (e : exn) (w : world) : world :=
  match documents (db w) !! id with
  | Some doc => with_db w (commit_document doc (summary doc) (failure_status e) (db w))
  | None => w
  end.

(** The exceptions the background task raises for a failed model call. *)
Definition embedding_failed (e : exn) : exn :=
  {| cls := Exception; message := "Embedding generation failed: " ++ message e |}.

Definition summary_failed (e : exn) : exn :=
  {| cls := Exception; message := "Summary generation failed: " ++ message e |}.

(** The classes of status values (section 6 of the specification): the
    two progress values, the completed values, the failure strings. *)
Inductive phase : Type := Pending | Processing | Completed | Failed | Unknown.

(** The class of a status value. *)
Definition phase_of (st : string) : phase :=
  if String.eqb st "pending" then Pending
  else if String.eqb st "processing" then Processing
  else if String.prefix "completed" st then Completed
  else if String.prefix "failed" st then Failed
  else Unknown.

(** A tokenizer for texts of one sentence. *)
Definition one_sentence (text : string) : list string := [text].

(** A summarisation model with one answer. *)
Definition echo_summarizer (text : string) (max_length min_length : Z) : outcome string :=
  Return "A summary.".

(** UTF-8 decoding of ASCII bytes. *)
Definition decode_ascii (ext : string) (bytes : list Z) : outcome string :=
  Return (string_of_list_ascii (map Py.chr bytes)).

(** An embedding model that cannot be loaded. *)
Definition model_unavailable (text : string) : outcome (list Q) :=
  Raise {| cls := RuntimeError; message := "model unavailable" |}.

(** An embedding model that gives vectors of 3 components, which the
    column [Vector(384)] rejects. *)
Definition short_vectors (text : string) : outcome (list Q) :=
  Return [(1 # 2)%Q; (1 # 2)%Q; (1 # 2)%Q].

(** A text of one sentence, uploaded as a text file. *)
Definition lease_text : string := "The lease is renewed each year.".

Definition lease_file : UploadFile :=
  {| file_name := "lease.TXT"; file_bytes := Py.encode lease_text |}.

(** A Store without documents, with [no_cache]. *)
Definition empty_world : world :=
  {| cache := no_cache;
     db := {| documents := ∅; embeddings := []; users := {[ 1 := ann ]};
              next_id := 1; reject := vector_384; journal := [] |};
     summarizer_calls := [] |}.

(** The world after the upload of [lease_file] by [ann]. *)
Definition uploaded_world : world :=
  snd (upload_document decode_ascii lease_file ann empty_world).

(** The row the upload creates. *)
Definition uploaded_lease : Document :=
  {| d_id := 1; d_user_id := 1; filename := "lease.TXT"; file_type := "txt";
     content := lease_text; summary := ONone; status := "processing" |}.

(** A text of 3001 words, one more than [MAX_INPUT_WORDS]. *)
Definition long_text : string := Py.join " " (repeat "w" 3001).

(** The key under which [generate_summary] looks a summary up, and the key
    under which it stores the summary it generated. *)
Definition lookup_key (text : string) : string := summary_cache_key text.
Definition store_key (text : string) : string := summary_cache_key (truncate_input text).

(** The world after one and after two calls of [generate_summary] on
    [long_text]. *)
Definition after_first_call : world :=
  snd (generate_summary one_sentence None echo_summarizer long_text true empty_world).

Definition after_second_call : world :=
  snd (generate_summary one_sentence None echo_summarizer long_text true after_first_call).

(** The client connected, over the same server. *)
Definition connected (c : cache_state) : cache_state :=
  {| redis_client := true; server := server c |}.

(** What a lookup finds on a server that answers. *)
Definition cache_value (key : string) (s : redis_server) : pyobj :=
  match entries s !! key with
  | Some (_, Json v) => v
  | _ => ONone
  end.

(** The time to live that [set_cache] passes to the server. *)
Definition effective_ttl (ttl : option Z) : Z :=
  match ttl with
  | Some t => if t =? 0 then REDIS_CACHE_TTL else t
  | None => REDIS_CACHE_TTL
  end.

(** Whether a client is there after an operation of the cache: it was there
    before, or the server answered the connection. *)
Definition client_after (c : cache_state) : bool :=
  redis_client c || match fault (server c) with None => true | Some _ => false end.

(** A pattern text in which every character stands for itself in a Redis
    pattern: it has no wildcard [*] or [?], opens no character class with
    [[] and escapes nothing with a backslash. *)
Definition literal (p : string) : bool :=
  negb (Py.contains "*" p) && negb (Py.contains "?" p)
  && negb (Py.contains "[" p) && negb (Py.contains (Py.chr 92) p).

(** The number of keys of a server that begin with [p]. *)
Definition count_prefixed (p : string) (s : redis_server) : Z :=
  Z.of_nat (size (filter (fun kv => String.prefix p (fst kv) = true) (entries s))).

(** A function that counts its runs in its state and returns 42. *)
Definition counted_answer (args : list pyval) (kwargs : list item) (runs : nat)
  : outcome pyobj * nat :=
  (Return (OInt 42), S runs).

(** A text without whitespace. *)
Fixpoint no_space (s : string) : bool :=
  match s with
  | EmptyString => true
  | String c s' => negb (Py.isspace c) && no_space s'
  end.

(** A word, as [split] yields them: not empty, without whitespace. *)
Definition is_word (w : string) : Prop := w <> EmptyString /\ no_space w = true.

(** Consecutive groups of sentences that could not be merged: the first
    sentence of each group did not fit the budget after the group before. *)
Fixpoint tight (max_words : Z) (groups : list (list string)) : Prop :=
  match groups with
  | g1 :: ((g2 :: _) as rest) =>
      match g2 with
      | s :: _ => max_words < total_words g1 + word_count s
      | [] => False
      end /\ tight max_words rest
  | _ => True
  end.

(** A summarisation model that fails on every call, and a model that cannot
    be loaded. *)
Definition failing_summarizer (text : string) (max_length min_length : Z) : outcome string :=
  Raise {| cls := RuntimeError; message := "index out of range" |}.

Definition load_error : exn := {| cls := OSError; message := "cannot load the model" |}.

(** The file types [upload_document] accepts. *)
Definition accepted_type (ext : string) : bool :=
  String.eqb ext "pdf" || String.eqb ext "docx" || String.eqb ext "txt".

(** The row [upload_document] inserts for a file and its text. *)
Definition new_document (id : Z) (file : UploadFile) (current_user : User) (text : string)
  : Document :=
  {| d_id := id; d_user_id := user_id current_user; filename := file_name file;
     file_type := Py.lower (last_segment "." (file_name file));
     content := text; summary := ONone; status := "processing" |}.

(** An installer, which is not a document. *)
Definition setup_exe : UploadFile :=
  {| file_name := "setup.exe"; file_bytes := [77; 90] |}.

(** What the background task for document [id] may have written, from the
    Store [d] to the Store [d']: no user, no id of the sequence and no row
    other than [id] changes; the row [id] is there after iff it was before,
    with nothing but its summary and status assigned; and the embeddings
    are the same, or one more at the end, for [id] with the vector [v]. *)
Definition task_write (id : Z) (v : option (list Q)) (d d' : database) : Prop :=
  users d' = users d
  /\ next_id d' = next_id d
  /\ (forall vec, reject d' vec = reject d vec)
  /\ (forall k, k <> id -> documents d' !! k = documents d !! k)
  /\ match documents d !! id with
     | None => documents d' !! id = None
     | Some doc => exists s st, documents d' !! id = Some (updated doc s st)
     end
  /\ (embeddings d' = embeddings d
      \/ exists x, v = Some x
                   /\ embeddings d'
                      = embeddings d ++ [{| document_id := id; embedding := x;
                                            model_name := None |}]).

(** The vector of a successful encoding. *)
Definition encoded (o : outcome (list Q)) : option (list Q) :=
  match o with Return v => Some v | Raise _ => None end.

(** An embedding model that gives every text the vector [stored_vector]. *)
Definition stored_encoder (text : string) : outcome (list Q) := Return stored_vector.

(** What a read endpoint may change, from the world [w] to the world [w']:
    nothing of the Store, no call of the summarizer, not the state of the
    cache server, and no entry of the cache other than [own_key]. *)
Definition reads_only (own_key : string) (w w' : world) : Prop :=
  db w' = db w
  /\ summarizer_calls w' = summarizer_calls w
  /\ fault (server (cache w')) = fault (server (cache w))
  /\ forall key, key <> own_key ->
       entries (server (cache w')) !! key = entries (server (cache w)) !! key.

(** The row of the search statement for an embedding, its document and the
    document's owner. *)
Definition joined_row (cosine_distance : list Q -> list Q -> Q) (query_vector : list Q)
  (e : Embedding) (doc : Document) (u : User) : row :=
  {| r_id := d_id doc; r_filename := filename doc; r_summary := summary doc;
     r_username := username u;
     r_distance := cosine_distance (embedding e) query_vector |}.

(** A second user, who owns nothing. *)
Definition bob : User := {| user_id := 2; username := "bob"; role := "user" |}.

(** The view of [lease] that its owner gets. *)
Definition lease_view : pyobj :=
  ODict [("id", OInt 1); ("filename", OStr "lease.txt");
         ("summary", OStr "A yearly lease."); ("status", OStr "completed");
         ("uploaded_by", OStr "ann")].

(** The invariant of the [documents] table: a row is stored under its own
    id, and the ids in use are below the next value of the sequence. *)
Definition store_wf (d : database) : Prop :=
  forall k doc, documents d !! k = Some doc -> d_id doc = k /\ k < next_id d.


(** Two states of the cache in which a read or a write of the key [k] goes
    the same way: a client is there or can be connected in both or in
    neither, the server is in the same state, and the key has the same
    entry. *)
Definition same_at (k : string) (c c' : cache_state) : Prop :=
  client_after c = client_after c'
  /\ fault (server c) = fault (server c')
  /\ entries (server c) !! k = entries (server c') !! k.

(** * Properties *)

(** ** Test vectors of the hash and of the key derivation *)

Example md5_empty : MD5.hexdigest (Py.encode "") = "d41d8cd98f00b204e9800998ecf8427e".
Proof. vm_compute. reflexivity. Qed.

Example md5_abc : MD5.hexdigest (Py.encode "abc") = "900150983cd24fb0d6963f7d28e17f72".
Proof. vm_compute. reflexivity. Qed.

Example key_document_5_7 :
  generate_cache_key "document" [] [("document_id", PyInt 5); ("user_id", PyInt 7)]
  = "document:de9cb18dcfdac3463096d6ff9dfa1a73".
Proof. vm_compute. reflexivity. Qed.

Example key_search :
  generate_cache_key "search" [] [("query", PyStr "contract renewal")]
  = "search:45716136eb09800caa7d8a4d4288037a".
Proof. vm_compute. reflexivity. Qed.

Example key_positional :
  generate_cache_key "p" [PyInt 1; PyStr "a'b"; PyStr (String (Py.chr 120) (String (Py.chr 34) "y"));
                          PyStr (String (Py.chr 233) (String (Py.chr 10) "")); PyInt (-3)]
    [("q", PyStr (String (Py.chr 233) (String (Py.chr 34) (String (Py.chr 92)
                   (String (Py.chr 127) (String (Py.chr 1) ""))))))]
  = "p:56eb33d541e28b3eaf62c7d364d69541".
Proof. vm_compute. reflexivity. Qed.

Example key_quotes :
  generate_cache_key "p" [PyStr ("it's " ++ String (Py.chr 34) ("q" ++ String (Py.chr 34) ""))] []
  = "p:2b7f16173c66ce75a5baf7b35d0b443a".
Proof. vm_compute. reflexivity. Qed.

(** ** Strings *)

Lemma append_cons (c : ascii) (s t : string) :
  (String c s ++ t)%string = String c (s ++ t)%string.
Proof. reflexivity. Qed.

Lemma append_empty_l (t : string) : (EmptyString ++ t)%string = t.
Proof. reflexivity. Qed.

Lemma append_empty_r (s : string) : (s ++ EmptyString)%string = s.
Proof. induction s as [|c s IH]; [reflexivity|]. rewrite append_cons, IH. reflexivity. Qed.

Lemma append_assoc (s t u : string) :
  ((s ++ t) ++ u)%string = (s ++ (t ++ u))%string.
Proof.
  induction s as [|c s IH]; [reflexivity|].
  rewrite !append_cons, IH. reflexivity.
Qed.

Lemma append_length (s t : string) :
  String.length (s ++ t) = (String.length s + String.length t)%nat.
Proof.
  induction s as [|c s IH]; [reflexivity|].
  rewrite append_cons. simpl. rewrite IH. reflexivity.
Qed.

Lemma append_inv_head (s t u : string) : (s ++ t)%string = (s ++ u)%string -> t = u.
Proof.
  induction s as [|c s IH]; intros H; [exact H|].
  rewrite !append_cons in H. injection H as H. auto.
Qed.

Lemma append_inv_tail (s t u : string) : (s ++ u)%string = (t ++ u)%string -> s = t.
Proof.
  revert t. induction s as [|c s IH]; intros [|d t] H.
  - reflexivity.
  - apply (f_equal String.length) in H. rewrite !append_length in H. simpl in H. lia.
  - apply (f_equal String.length) in H. rewrite !append_length in H. simpl in H. lia.
  - rewrite !append_cons in H. injection H as Hc H. subst d. f_equal. auto.
Qed.

(** ** Cache keys: the order of keyword arguments (C7) *)

Lemma item_le_true (x y : item) : item_le x y = true <-> String.le (fst x) (fst y).
Proof. unfold item_le, String.le. split; [apply Is_true_true_2 | apply Is_true_true_1]. Qed.

Lemma item_le_trans (x y z : item) :
  item_le x y = true -> item_le y z = true -> item_le x z = true.
Proof. rewrite !item_le_true. intros Hxy Hyz. etrans; eassumption. Qed.

Lemma item_le_total (x y : item) : item_le x y = true \/ item_le y x = true.
Proof. apply String.leb_total. Qed.

Lemma item_le_antisym (x y : item) :
  item_le x y = true -> item_le y x = true -> fst x = fst y.
Proof. intros Hxy Hyx. apply String.leb_antisym; assumption. Qed.

(** Two insertions of items with different names commute. *)
Lemma insert_item_comm (x y : item) (l : list item) :
  fst x <> fst y ->
  insert_item x (insert_item y l) = insert_item y (insert_item x l).
Proof.
  intros Hne. induction l as [|z l IH]; simpl.
  - destruct (item_le x y) eqn:Hxy, (item_le y x) eqn:Hyx; try reflexivity.
    + exfalso. eauto using item_le_antisym.
    + destruct (item_le_total x y); congruence.
  - destruct (item_le y z) eqn:Hyz, (item_le x z) eqn:Hxz; simpl;
      rewrite ?Hyz, ?Hxz;
      destruct (item_le x y) eqn:Hxy, (item_le y x) eqn:Hyx;
      try reflexivity;
      try (exfalso; eauto using item_le_antisym; fail);
      try (destruct (item_le_total x y); congruence);
      try (assert (item_le x z = true) by eauto using item_le_trans; congruence);
      try (assert (item_le y z = true) by eauto using item_le_trans; congruence).
Qed.

Lemma sorted_permutation (kw1 kw2 : list item) :
  NoDup (map fst kw1) -> Permutation kw1 kw2 -> sorted kw1 = sorted kw2.
Proof.
  intros Hnd Hp. induction Hp as [|x l l' Hp IH|x y l|l l' l'' Hp1 IH1 Hp2 IH2].
  - reflexivity.
  - simpl. rewrite IH; [reflexivity|]. simpl in Hnd. apply NoDup_cons in Hnd. tauto.
  - simpl. apply insert_item_comm.
    simpl in Hnd. apply NoDup_cons in Hnd as [Hin _]. intros Heq. apply Hin.
    rewrite <- Heq. left.
  - rewrite IH1 by assumption. apply IH2.
    assert (Hm : Permutation (map fst l) (map fst l')) by (apply Permutation_map; exact Hp1).
    rewrite <- Hm. exact Hnd.
Qed.

Lemma sorted_or_empty (kwargs : list item) :
  match kwargs with [] => [] | _ => sorted kwargs end = sorted kwargs.
Proof. destruct kwargs; reflexivity. Qed.

(** C7. Two calls of [generate_cache_key] with the same prefix and positional
    arguments, and the same keyword arguments given in different orders, get
    the same key. The names of keyword arguments are distinct, as in any
    Python call. *)
Theorem generate_cache_key_kwargs_order
  (prefix : string) (args : list pyval) (kw1 kw2 : list item) :
  NoDup (map fst kw1) ->
  Permutation kw1 kw2 ->
  generate_cache_key prefix args kw1 = generate_cache_key prefix args kw2.
Proof.
  intros Hnd Hp. unfold generate_cache_key, key_string.
  rewrite !sorted_or_empty, (sorted_permutation kw1 kw2 Hnd Hp). reflexivity.
Qed.

Lemma generate_cache_key_kwargs_order_witness :
  NoDup (map fst [("user_id", PyInt 7); ("document_id", PyInt 5)])
  /\ Permutation [("user_id", PyInt 7); ("document_id", PyInt 5)]
                 [("document_id", PyInt 5); ("user_id", PyInt 7)]
  /\ generate_cache_key "document" [] [("user_id", PyInt 7); ("document_id", PyInt 5)]
     = generate_cache_key "document" [] [("document_id", PyInt 5); ("user_id", PyInt 7)].
Proof.
  assert (Hnd : NoDup (map fst [("user_id", PyInt 7); ("document_id", PyInt 5)])).
  { apply NoDup_cons. split; [|apply NoDup_singleton].
    intros Hin. apply list_elem_of_singleton in Hin. discriminate Hin. }
  assert (Hp : Permutation [("user_id", PyInt 7); ("document_id", PyInt 5)]
                           [("document_id", PyInt 5); ("user_id", PyInt 7)])
    by apply perm_swap.
  exact (conj Hnd (conj Hp (generate_cache_key_kwargs_order "document" [] _ _ Hnd Hp))).
Defined.

(** ** Cache keys: document views *)

Lemma to_int_proper (z : Z) :
  Z.to_int z <> Decimal.Pos Decimal.Nil /\ Z.to_int z <> Decimal.Neg Decimal.Nil.
Proof.
  destruct z as [|p|p]; simpl; split; try discriminate;
    intros [= H]; exact (DecimalPos.Unsigned.to_uint_nonnil p H).
Qed.

Lemma str_int_inj (a b : Z) : Py.str_int a = Py.str_int b -> a = b.
Proof.
  unfold Py.str_int. intros H.
  assert (Ha := NilZero.isi (Z.to_int a) (proj1 (to_int_proper a)) (proj2 (to_int_proper a))).
  assert (Hb := NilZero.isi (Z.to_int b) (proj1 (to_int_proper b)) (proj2 (to_int_proper b))).
  rewrite H, Hb in Ha. injection Ha as Ha.
  rewrite <- (DecimalZ.of_to a), <- (DecimalZ.of_to b), Ha. reflexivity.
Qed.

(** The text that is hashed for a document view determines the user. *)
Lemma document_key_string_inj (d u1 u2 : Z) :
  key_string "document" [] [("document_id", PyInt d); ("user_id", PyInt u1)]
  = key_string "document" [] [("document_id", PyInt d); ("user_id", PyInt u2)] ->
  u1 = u2.
Proof.
  unfold key_string.
  change (sorted [("document_id", PyInt d); ("user_id", PyInt u1)])
    with [("document_id", PyInt d); ("user_id", PyInt u1)].
  change (sorted [("document_id", PyInt d); ("user_id", PyInt u2)])
    with [("document_id", PyInt d); ("user_id", PyInt u2)].
  cbv [map json_item json_list json_val fst snd Py.join].
  rewrite !append_assoc. intros H.
  repeat apply append_inv_head in H.
  apply append_inv_tail in H. apply str_int_inj. exact H.
Qed.

(** The cache operations leave alone what they are not asked about. *)
Lemma get_redis_client_server (c : cache_state) :
  server (snd (get_redis_client c)) = server c.
Proof.
  unfold get_redis_client.
  destruct (redis_client c); [reflexivity|]. destruct (fault (server c)); reflexivity.
Qed.

Lemma get_cache_server (key : string) (c : cache_state) :
  server (snd (get_cache key c)) = server c.
Proof.
  unfold get_cache.
  pose proof (get_redis_client_server c) as Hs.
  destruct (get_redis_client c) as [client c']. simpl in Hs.
  destruct client; simpl; [|exact Hs].
  destruct (client_get key (server c')) as [[text|]|e]; simpl; try exact Hs.
  - destruct (nonempty_text text); [|exact Hs].
    destruct (json_loads text) as [v|e]; simpl; [exact Hs|].
    destruct (isinstance e RedisError || isinstance e JSONDecodeError); exact Hs.
  - destruct (isinstance e RedisError || isinstance e JSONDecodeError); exact Hs.
Qed.

Lemma client_setex_other (key key' : string) (ttl : Z) (text : payload) (s : redis_server) :
  key <> key' ->
  entries (snd (client_setex key ttl text s)) !! key' = entries s !! key'.
Proof.
  intros Hne. unfold client_setex.
  destruct (fault s); [reflexivity|].
  destruct (ttl <=? 0); [reflexivity|]. simpl.
  apply lookup_insert_ne. exact Hne.
Qed.

Lemma set_cache_other (key key' : string) (value : pyvalue) (ttl : option Z) (c : cache_state) :
  key <> key' ->
  entries (server (snd (set_cache key value ttl c))) !! key' = entries (server c) !! key'.
Proof.
  intros Hne. unfold set_cache.
  pose proof (get_redis_client_server c) as Hs.
  destruct (get_redis_client c) as [client c']. simpl in Hs.
  destruct client; simpl; [|rewrite Hs; reflexivity].
  set (t := match ttl with
            | Some t => if t =? 0 then REDIS_CACHE_TTL else t
            | None => REDIS_CACHE_TTL
            end).
  destruct (json_dumps value) as [json_value|e].
  - pose proof (client_setex_other key key' t json_value (server c') Hne) as Hx.
    destruct (client_setex key t json_value (server c')) as [[[]|e] s']; simpl in *.
    + rewrite Hx, Hs. reflexivity.
    + destruct (isinstance e RedisError || isinstance e TypeError); simpl;
        rewrite Hx, Hs; reflexivity.
  - destruct (isinstance e RedisError || isinstance e TypeError); simpl;
      rewrite Hs; reflexivity.
Qed.

(** A view of a document touches no cache entry but the one of its key. *)
Lemma get_document_other (document_id : Z) (current_user : User) (w : world) (key' : string) :
  document_cache_key document_id (user_id current_user) <> key' ->
  entries (server (cache (snd (get_document document_id current_user w)))) !! key'
  = entries (server (cache w)) !! key'.
Proof.
  intros Hne. unfold get_document.
  destruct (document_id <=? 0); [reflexivity|].
  pose proof (get_cache_server (document_cache_key document_id (user_id current_user)) (cache w))
    as Hg.
  destruct (get_cache _ (cache w)) as [[cached|e] c]; simpl in Hg.
  2: { simpl. destruct (isinstance e (HTTPException 0)); simpl;
       [|destruct (isinstance e SQLAlchemyError)]; simpl; rewrite Hg; reflexivity. }
  assert (Hhit : entries (server (cache (with_cache w c))) !! key'
                 = entries (server (cache w)) !! key') by (simpl; rewrite Hg; reflexivity).
  destruct cached; try exact Hhit.
  simpl db. destruct (documents (db w) !! document_id) as [doc|]; [|exact Hhit].
  destruct (negb (d_user_id doc =? user_id current_user)
            && negb (String.eqb (role current_user) "admin")); [exact Hhit|].
  destruct (d_user_id doc =? user_id current_user);
    [|destruct (users (db w) !! d_user_id doc) as [owner|]];
    try (simpl; exact Hhit).
  all: simpl cache;
    match goal with
    | |- context [set_cache ?k ?v ?t ?c0] =>
        pose proof (set_cache_other k key' v t c0 Hne) as Hset;
        destruct (set_cache k v t c0) as [[b|e] c2]
    end; simpl in *;
    repeat match goal with
           | |- context [isinstance ?e ?k] => destruct (isinstance e k); simpl
           end;
    rewrite Hset, Hg; reflexivity.
Qed.

(** ** The cache operations absorb errors (C8) *)

Lemma get_redis_client_cases (c : cache_state) :
  (fst (get_redis_client c) = false /\ redis_client c = false /\ fault (server c) <> None)
  \/ (fst (get_redis_client c) = true
      /\ (redis_client c = true \/ fault (server c) = None)).
Proof.
  unfold get_redis_client.
  destruct (redis_client c); [right; auto|].
  destruct (fault (server c)); [left|right]; simpl; auto.
Qed.


(** [set_cache] under the same condition. *)
Lemma set_cache_returns (key : string) (value : pyobj) (ttl : option Z) (c : cache_state) :
  (forall e, fault (server c) = Some e ->
             redis_client c = false \/ isinstance e RedisError = true) ->
  exists b c',
    set_cache key value ttl c = (Return b, c')
    /\ (fault (server c) <> None -> b = false /\ server c' = server c).
Proof.
  intros Hf. unfold set_cache.
  pose proof (get_redis_client_server c) as Hs.
  pose proof (get_redis_client_cases c) as Hc.
  destruct (get_redis_client c) as [client c']. simpl in Hs, Hc.
  destruct Hc as [(-> & Hnone & Hfault) | (-> & Hc)]; simpl.
  - exists false, c'. split; auto.
  - unfold client_setex. rewrite Hs.
    destruct (fault (server c)) as [e|] eqn:He.
    + destruct (Hf e eq_refl) as [Hn | Hr]; [destruct Hc; congruence|].
      rewrite Hr. simpl. eexists false, _. split; [reflexivity|]. intros _. simpl.
      split; [reflexivity|]. destruct (server c); simpl in *; congruence.
    + set (t := match ttl with
                | Some t => if t =? 0 then REDIS_CACHE_TTL else t
                | None => REDIS_CACHE_TTL
                end).
      destruct (t <=? 0); simpl.
      * eexists false, _. split; [reflexivity|]. intros H. congruence.
      * eexists true, _. split; [reflexivity|]. intros H. congruence.
Qed.





(** An exception of another class raised behind a connected client is not
    caught by [get_cache]. *)
Lemma get_cache_other_exception (key : string) (s : redis_server) (e : exn) :
  fault s = Some e ->
  isinstance e RedisError = false -> isinstance e JSONDecodeError = false ->
  fst (get_cache key {| redis_client := true; server := s |}) = Raise e.
Proof.
  intros Hf H1 H2. unfold get_cache, get_redis_client, client_get. simpl.
  rewrite Hf, H1, H2. reflexivity.
Qed.

(** ** Chunking (C5, C6) *)

Lemma split_from_space (cur a b : string) :
  Py.split_from cur (a ++ String " " b) = Py.split_from cur a ++ Py.split_from EmptyString b.
Proof.
  revert cur. induction a as [|c a IH]; intros cur.
  - rewrite append_empty_l. simpl. destruct cur; reflexivity.
  - rewrite append_cons. simpl.
    destruct (Py.isspace c); [destruct cur|]; rewrite IH; reflexivity.
Qed.

(** The words of a chunk are the words of its sentences. *)
Lemma split_join (g : list string) :
  Py.split (Py.join " " g) = concat (map Py.split g).
Proof.
  induction g as [|s g IH]; [reflexivity|].
  destruct g as [|s' g].
  - simpl. rewrite app_nil_r. reflexivity.
  - change (Py.join " " (s :: s' :: g)) with (s ++ " " ++ Py.join " " (s' :: g))%string.
    change (" " ++ Py.join " " (s' :: g))%string with (String " " (Py.join " " (s' :: g))).
    unfold Py.split at 1. rewrite split_from_space.
    change (Py.split_from EmptyString (Py.join " " (s' :: g)))
      with (Py.split (Py.join " " (s' :: g))).
    rewrite IH. reflexivity.
Qed.

Lemma word_count_join (g : list string) : word_count (Py.join " " g) = total_words g.
Proof.
  unfold word_count. rewrite split_join.
  induction g as [|s g IH]; [reflexivity|].
  simpl. rewrite length_app, Nat2Z.inj_add, IH. reflexivity.
Qed.

Lemma word_count_nonneg (s : string) : 0 <= word_count s.
Proof. unfold word_count. lia. Qed.

Lemma total_words_app (g h : list string) :
  total_words (g ++ h) = total_words g + total_words h.
Proof. induction g as [|s g IH]; simpl; [reflexivity|]. rewrite IH. lia. Qed.

Lemma flush_groups (gs : list (list string)) (cur : list string) :
  flush (map (Py.join " ") gs) cur = map (Py.join " ") (gs ++ pending cur).
Proof.
  destruct cur; simpl; [rewrite app_nil_r; reflexivity|].
  rewrite map_app. reflexivity.
Qed.

Lemma pending_good (max_words : Z) (cur : list string) :
  cur = [] \/ good_group max_words cur -> Forall (good_group max_words) (pending cur).
Proof.
  intros [-> | Hg]; [constructor|].
  destruct cur; [constructor|]. constructor; [exact Hg|constructor].
Qed.

Lemma concat_pending (cur : list string) : concat (pending cur) = cur.
Proof. destruct cur; simpl; rewrite ?app_nil_r; reflexivity. Qed.

Lemma chunk_step_groups (max_words : Z) (st : chunker) (sentence : string)
  (gs : list (list string)) :
  chunks st = map (Py.join " ") gs ->
  Forall (good_group max_words) gs ->
  good_current max_words st ->
  exists gs',
    chunks (chunk_step max_words st sentence) = map (Py.join " ") gs'
    /\ Forall (good_group max_words) gs'
    /\ good_current max_words (chunk_step max_words st sentence)
    /\ concat gs' ++ current_chunk (chunk_step max_words st sentence)
       = concat gs ++ current_chunk st ++ [sentence].
Proof.
  intros Hc Hgs [Hcount Hcur]. unfold chunk_step.
  pose proof (word_count_nonneg sentence) as Hs.
  destruct (current_word_count st + word_count sentence <=? max_words) eqn:Hfit.
  - apply Z.leb_le in Hfit. exists gs. unfold good_current.
    cbn [chunks current_chunk current_word_count].
    rewrite total_words_app. cbn [total_words fold_right].
    split; [exact Hc|]. split; [exact Hgs|]. split; [split|reflexivity].
    + lia.
    + right. split; [destruct (current_chunk st); discriminate|].
      left. rewrite total_words_app. cbn [total_words fold_right]. lia.
  - apply Z.leb_gt in Hfit.
    exists (gs ++ pending (current_chunk st)).
    unfold good_current. cbn [chunks current_chunk current_word_count].
    split; [|split; [|split; [split|]]].
    + rewrite Hc. apply flush_groups.
    + apply Forall_app. split; [exact Hgs|]. apply pending_good. exact Hcur.
    + cbn [total_words fold_right]. lia.
    + right. split; [discriminate|].
      destruct (Z_le_gt_dec (word_count sentence) max_words) as [Hle|Hgt].
      * left. cbn [total_words fold_right]. lia.
      * right. exists sentence. split; [reflexivity|lia].
    + rewrite concat_app, concat_pending, <- app_assoc. reflexivity.
Qed.

Lemma chunk_fold_groups (max_words : Z) (sentences : list string) :
  forall (st : chunker) (gs : list (list string)),
    chunks st = map (Py.join " ") gs ->
    Forall (good_group max_words) gs ->
    good_current max_words st ->
    exists gs',
      chunks (fold_left (chunk_step max_words) sentences st) = map (Py.join " ") gs'
      /\ Forall (good_group max_words) gs'
      /\ good_current max_words (fold_left (chunk_step max_words) sentences st)
      /\ concat gs' ++ current_chunk (fold_left (chunk_step max_words) sentences st)
         = concat gs ++ current_chunk st ++ sentences.
Proof.
  induction sentences as [|s rest IH]; intros st gs Hc Hgs Hcur.
  - exists gs. simpl. rewrite app_nil_r. auto.
  - destruct (chunk_step_groups max_words st s gs Hc Hgs Hcur)
      as (gs1 & Hc1 & Hgs1 & Hcur1 & Hcat1).
    destruct (IH _ gs1 Hc1 Hgs1 Hcur1) as (gs2 & Hc2 & Hgs2 & Hcur2 & Hcat2).
    exists gs2. cbn [fold_left].
    split; [exact Hc2|]. split; [exact Hgs2|]. split; [exact Hcur2|].
    rewrite Hcat2, app_assoc, Hcat1, <- !app_assoc. reflexivity.
Qed.

(** The chunks are the joins of groups of consecutive sentences. *)
Lemma chunk_sentences_groups (sentences : list string) (max_words : Z) :
  exists groups : list (list string),
    chunk_sentences sentences max_words = map (Py.join " ") groups
    /\ concat groups = sentences
    /\ Forall (good_group max_words) groups.
Proof.
  unfold chunk_sentences.
  set (st0 := {| chunks := []; current_chunk := []; current_word_count := 0 |}).
  destruct (chunk_fold_groups max_words sentences st0 [] eq_refl (List.Forall_nil _))
    as (gs & Hc & Hgs & [Hcount Hcur] & Hcat).
  { split; [reflexivity|left; reflexivity]. }
  simpl in Hcat.
  exists (gs ++ pending (current_chunk (fold_left (chunk_step max_words) sentences st0))).
  split; [rewrite Hc; apply flush_groups|]. split.
  - rewrite concat_app, concat_pending. exact Hcat.
  - apply Forall_app. split; [exact Hgs|]. apply pending_good. exact Hcur.
Qed.

(** C5. The chunks of a text are the joins, with one space, of groups of
    whole consecutive sentences: no group is empty, and the groups taken in
    order are the sentences of the text in order, each sentence in one
    group. *)
Theorem chunk_text_whole_sentences
  (sent_tokenize : string -> list string) (text : string) (max_words : Z) :
  exists groups : list (list string),
    chunk_text sent_tokenize text max_words = map (Py.join " ") groups
    /\ concat groups = sent_tokenize text
    /\ Forall (fun g => g <> []) groups.
Proof.
  destruct (chunk_sentences_groups (sent_tokenize text) max_words) as (gs & Hc & Hcat & Hg).
  exists gs. repeat split; auto.
  eapply Forall_impl; [exact Hg|]. intros g [Hne _]. exact Hne.
Qed.

(** C6 as stated fails: a sentence of 301 words is a chunk of 301 words. *)
Lemma chunk_over_budget :
  chunk_text (fun text => [text]) long_sentence CHUNK_MAX_WORDS = [long_sentence]
  /\ word_count long_sentence = 301
  /\ CHUNK_MAX_WORDS = 300.
Proof. vm_compute. repeat split; reflexivity. Qed.

(** C6, amended. A chunk has at most [max_words] words, unless it is a single
    sentence that alone has more. *)
Theorem chunk_text_word_budget
  (sent_tokenize : string -> list string) (text : string) (max_words : Z) :
  Forall (fun chunk =>
            word_count chunk <= max_words
            \/ (In chunk (sent_tokenize text) /\ max_words < word_count chunk))
         (chunk_text sent_tokenize text max_words).
Proof.
  destruct (chunk_sentences_groups (sent_tokenize text) max_words) as (gs & Hc & Hcat & Hg).
  unfold chunk_text. rewrite Hc. apply List.Forall_forall. intros chunk Hin.
  apply in_map_iff in Hin as (g & <- & Hin).
  pose proof (proj1 (List.Forall_forall _ _) Hg g Hin) as [_ [Hle | (s & -> & Hgt)]].
  - left. rewrite word_count_join. exact Hle.
  - right. simpl. split; [|exact Hgt].
    rewrite <- Hcat. apply List.in_concat. exists [s]. split; [exact Hin|left; reflexivity].
Qed.

(** ** Search results (C3) *)

(** *** Rounding *)




(** *** The statement: order and limit *)

Lemma insert_row_In (r x : row) (l : list row) :
  In x (insert_row r l) -> x = r \/ In x l.
Proof.
  induction l as [|y l IH]; simpl.
  - intros [<-|[]]. auto.
  - destruct (Qle_bool (r_distance r) (r_distance y)); simpl;
      intros [H|H]; auto. destruct (IH H); auto.
Qed.



Lemma In_firstn {A} (n : nat) (l : list A) (x : A) : In x (firstn n l) -> In x l.
Proof.
  revert l. induction n as [|n IH]; intros [|y l]; simpl; try tauto.
  intros [H|H]; [left; exact H|right; exact (IH _ H)].
Qed.




Lemma filtered_results_rows (results : list row) :
  filtered_results results = map format_row (relevant_rows results).
Proof.
  unfold filtered_results, relevant_rows. f_equal.
  induction results as [|r l IH]; [reflexivity|].
  simpl. rewrite filter_cons. destruct (relevant r) eqn:Hr.
  - rewrite decide_True by reflexivity. f_equal. exact IH.
  - rewrite decide_False by discriminate. exact IH.
Qed.


Section Search.

Variable encode : string -> outcome (list Q).
Variable cosine_distance : list Q -> list Q -> Q.

(** What [search_on_miss] returns is made of the relevant rows of the
    statement. *)
Lemma search_on_miss_results (cache_key query : string) (w w' : world) (response : pyobj) :
  search_on_miss encode cosine_distance cache_key query w = (Return response, w') ->
  exists query_embedding,
    encode query = Return query_embedding
    /\ results_of response
       = map format_row (relevant_rows (search_rows cosine_distance (db w) query_embedding)).
Proof.
  unfold search_on_miss, generate_embedding.
  destruct (encode query) as [query_embedding|e]; [|discriminate].
  destruct query_embedding as [|x v]; [discriminate|].
  intros H. exists (x :: v). split; [reflexivity|].
  rewrite <- filtered_results_rows.
  remember (search_rows cosine_distance (db w) (x :: v)) as results eqn:Hres.
  destruct results as [|r rest].
  - destruct (set_cache _ _ _ _) as [[b|e] c]; [|discriminate].
    injection H as <- _. reflexivity.
  - destruct (filtered_results (r :: rest)) as [|f fs] eqn:Hfil;
      destruct (set_cache _ _ _ _) as [[b|e] c]; try discriminate;
      injection H as <- _; reflexivity.
Qed.



End Search.

(** *** A result at the floor *)

Lemma stored_vector_unit :
  (dot stored_vector stored_vector == 1)%Q /\ (dot query_vector query_vector == 1)%Q
  /\ List.length stored_vector = 384%nat /\ List.length query_vector = 384%nat.
Proof. vm_compute. repeat split; reflexivity. Qed.



(** ** The enrichment attempt (C1, C2) *)

Lemma get_redis_client_quiet (c : cache_state) :
  cache_quiet c -> cache_quiet (snd (get_redis_client c)).
Proof.
  unfold cache_quiet, get_redis_client. intros H.
  destruct c as [client s]. simpl in *. destruct client; [exact H|].
  destruct (fault s) eqn:Hf; simpl; intros e' He; [left; reflexivity|congruence].
Qed.

Lemma get_cache_quiet (key : string) (c : cache_state) :
  cache_quiet c -> cache_quiet (snd (get_cache key c)).
Proof.
  intros H. apply get_redis_client_quiet in H. unfold get_cache.
  destruct (get_redis_client c) as [client c']. simpl in H.
  destruct client; simpl; [|exact H].
  destruct (client_get key (server c')) as [[text|]|e]; simpl; try exact H.
  - destruct (nonempty_text text); [|exact H].
    destruct (json_loads text) as [v|e]; simpl; [exact H|].
    destruct (isinstance e RedisError || isinstance e JSONDecodeError); exact H.
  - destruct (isinstance e RedisError || isinstance e JSONDecodeError); exact H.
Qed.

Lemma set_cache_quiet (key : string) (value : pyvalue) (ttl : option Z) (c : cache_state) :
  cache_quiet c -> cache_quiet (snd (set_cache key value ttl c)).
Proof.
  intros H. apply get_redis_client_quiet in H. unfold set_cache.
  destruct (get_redis_client c) as [client c']. simpl in H.
  destruct client; simpl; [|exact H].
  destruct (json_dumps value) as [json_value|e0].
  2: { destruct (isinstance e0 RedisError || isinstance e0 TypeError); simpl;
         intros e' He'; simpl in He'; apply H; exact He'. }
  unfold client_setex.
  destruct (fault (server c')) as [e|] eqn:Hf.
  - simpl. destruct (isinstance e RedisError || isinstance e TypeError); simpl;
      intros e' He'; simpl in He'; apply H; congruence.
  - match goal with |- context [if ?b then _ else _] => destruct b end; simpl;
      intros e' He'; simpl in He'; congruence.
Qed.

Lemma get_redis_client_connected (c : cache_state) :
  fst (get_redis_client c) = redis_client (snd (get_redis_client c)).
Proof.
  unfold get_redis_client. destruct (redis_client c) eqn:Hc; simpl; [congruence|].
  destruct (fault (server c)); reflexivity.
Qed.

Lemma delete_cache_pattern_quiet (pattern : string) (c : cache_state) :
  cache_quiet c ->
  exists n c', delete_cache_pattern pattern c = (Return n, c') /\ cache_quiet c'.
Proof.
  intros H. pose proof (get_redis_client_connected c) as Hconn.
  apply get_redis_client_quiet in H. unfold delete_cache_pattern.
  destruct (get_redis_client c) as [client c']. simpl in H, Hconn.
  destruct client; simpl; [|eauto].
  destruct (fault (server c')) as [e|] eqn:Hf.
  - destruct (H e Hf) as [Hn|Hr]; [congruence|].
    rewrite Hr. eauto.
  - eexists _, _. split; [reflexivity|]. intros e He. simpl in He. discriminate.
Qed.

Section Enrichment.

Variable sent_tokenize : string -> list string.
Variable summarizer_load : option exn.
Variable summarizer : string -> Z -> Z -> outcome string.
Variable encode : string -> outcome (list Q).

(** Summarisation touches the cache and the call log, not the Store. *)
Lemma summarize_chunks_frame (chunks : list string) (w : world) :
  db (snd (summarize_chunks summarizer chunks w)) = db w
  /\ cache (snd (summarize_chunks summarizer chunks w)) = cache w.
Proof.
  revert w. induction chunks as [|chunk rest IH]; intros w; [split; reflexivity|].
  simpl. unfold summarize_chunk.
  destruct (word_count chunk <? 30).
  - specialize (IH w). destruct (summarize_chunks summarizer rest w). exact IH.
  - destruct (summarizer chunk _ _);
      specialize (IH (log_call w chunk));
      destruct (summarize_chunks summarizer rest (log_call w chunk)); exact IH.
Qed.

Lemma compress_frame (final_summary : string) (w : world) :
  db (snd (compress summarizer final_summary w)) = db w
  /\ cache (snd (compress summarizer final_summary w)) = cache w.
Proof.
  unfold compress. destruct (word_count final_summary >? 250); [|split; reflexivity].
  destruct (summarizer final_summary 200 60); split; reflexivity.
Qed.

Lemma cached_summary_frame (text : string) (w : world) :
  db (snd (cached_summary text w)) = db w
  /\ (cache_quiet (cache w) -> cache_quiet (cache (snd (cached_summary text w)))).
Proof.
  unfold cached_summary.
  pose proof (get_cache_quiet (summary_cache_key text) (cache w)) as Hq.
  destruct (get_cache (summary_cache_key text) (cache w)) as [[v|e] c]; simpl in *;
    split; auto.
Qed.

Lemma generate_summary_frame (text : string) (use_cache : bool) (w : world) :
  db (snd (generate_summary sent_tokenize summarizer_load summarizer text use_cache w)) = db w
  /\ (cache_quiet (cache w) ->
      cache_quiet (cache (snd (generate_summary sent_tokenize summarizer_load summarizer
                                 text use_cache w)))).
Proof.
  unfold generate_summary.
  destruct (String.eqb (Py.strip text) ""); [split; auto|].
  assert (Hhit : let r := if use_cache then cached_summary text w else (None, w) in
                 db (snd r) = db w /\ (cache_quiet (cache w) -> cache_quiet (cache (snd r)))).
  { destruct use_cache; [apply cached_summary_frame|split; auto]. }
  destruct (if use_cache then cached_summary text w else (None, w)) as [hit w1].
  simpl in Hhit. destruct Hhit as [Hdb Hq].
  destruct hit; [split; assumption|].
  destruct (chunk_text sent_tokenize (truncate_input text) CHUNK_MAX_WORDS) as [|c cs];
    [split; assumption|].
  destruct summarizer_load; [split; assumption|].
  pose proof (summarize_chunks_frame (c :: cs) w1) as [Hdb2 Hc2].
  destruct (summarize_chunks summarizer (c :: cs) w1) as [summaries w2]. simpl in Hdb2, Hc2.
  pose proof (compress_frame (Py.join " " summaries) w2) as [Hdb3 Hc3].
  destruct (compress summarizer (Py.join " " summaries) w2) as [final_summary w3].
  simpl in Hdb3, Hc3.
  destruct use_cache; simpl.
  - split; [congruence|]. intros H. apply set_cache_quiet. rewrite Hc3, Hc2. auto.
  - split; [congruence|]. rewrite Hc3, Hc2. exact Hq.
Qed.

(** Steps 3 and 4 when the cache does not raise: the record is committed as
    completed, and then either the embedding is added or the status is
    rewritten. *)
Lemma record_results_quiet (id : Z) (s : pyobj) (v : list Q) (w : world) (doc : Document) :
  documents (db w) !! id = Some doc ->
  d_id doc = id ->
  cache_quiet (cache w) ->
  exists w',
    record_results id s v w = (Return tt, w')
    /\ match reject (db w) v with
       | None =>
           documents (db w') = <[id := updated doc s "completed"]> (documents (db w))
           /\ embeddings (db w')
              = embeddings (db w) ++ [{| document_id := id; embedding := v; model_name := None |}]
           /\ journal (db w') = journal (db w) ++ [(id, "completed")]
       | Some e =>
           documents (db w')
           = <[id := updated doc s (degraded_status e)]>
               (<[id := updated doc s "completed"]> (documents (db w)))
           /\ embeddings (db w') = embeddings (db w)
           /\ journal (db w')
              = journal (db w) ++ [(id, "completed"); (id, degraded_status e)]
       end.
Proof.
  intros Hdoc Hid Hq. subst id. unfold record_results. rewrite Hdoc.
  cbn [cache with_db].
  destruct (delete_cache_pattern_quiet ("document:*" ++ Py.str_int (d_id doc) ++ "*")
              (cache w) Hq) as (n & c1 & -> & Hq1).
  unfold add_embedding. cbn [db with_cache with_db commit_document reject].
  destruct (reject (db w) v) as [e|].
  - eexists. split; [reflexivity|].
    cbn [db with_db with_cache commit_document documents embeddings journal updated d_id].
    rewrite <- app_assoc. auto.
  - cbn [cache with_db with_cache].
    destruct (delete_cache_pattern_quiet "search:*" c1 Hq1) as (n2 & c2 & -> & Hq2).
    eexists. split; [reflexivity|].
    cbn [db with_db with_cache commit_document documents embeddings journal]. auto.
Qed.

(** The attempt, by the outcome of its two model calls, under a cache that
    does not raise. *)
Lemma process_document_background_cases (id : Z) (text : string) (w : world) :
  cache_quiet (cache w) ->
  let run := generate_summary sent_tokenize summarizer_load summarizer text true w in
  let w' := process_document_background sent_tokenize summarizer_load summarizer encode
              id text w in
  match fst run, generate_embedding encode text with
  | Raise e, _ => w' = record_failure id (summary_failed e) (snd run)
  | Return s, Raise e => w' = record_failure id (embedding_failed e) (snd run)
  | Return s, Return v =>
      match documents (db w) !! id with
      | None => w' = snd run
      | Some doc =>
          d_id doc = id -> record_results id s v (snd run) = (Return tt, w')
      end
  end.
Proof.
  intros Hq run w'. subst run w'. unfold process_document_background.
  pose proof (generate_summary_frame text true w) as [Hdb Hquiet].
  destruct (generate_summary sent_tokenize summarizer_load summarizer text true w)
    as [[s|e] w1]; simpl in *; [|reflexivity].
  destruct (generate_embedding encode text) as [v|e]; [|reflexivity].
  destruct (documents (db w) !! id) as [doc|] eqn:Hdoc.
  - intros Hid. rewrite <- Hdb in Hdoc.
    destruct (record_results_quiet id s v w1 doc Hdoc Hid (Hquiet Hq)) as (w2 & -> & _).
    reflexivity.
  - unfold record_results. rewrite Hdb, Hdoc. reflexivity.
Qed.

End Enrichment.

(** *** The status of a document over an attempt (C2) *)

Lemma phase_of_degraded (e : exn) : phase_of (degraded_status e) = Completed.
Proof. reflexivity. Qed.

Lemma phase_of_failure (e : exn) : phase_of (failure_status e) = Failed.
Proof.
  unfold failure_status.
  destruct (Py.len ("failed: " ++ class_name (cls e) ++ ": " ++ message e) >? 500);
    reflexivity.
Qed.

Section Lifecycle.

Variable sent_tokenize : string -> list string.
Variable summarizer_load : option exn.
Variable summarizer : string -> Z -> Z -> outcome string.
Variable encode : string -> outcome (list Q).
Variable extract_text : string -> list Z -> outcome string.

(** A document is created with the status [processing]. *)
Lemma upload_document_creates
  (file : UploadFile) (current_user : User) (w w' : world)
  (response : pyobj) (id : Z) (text : string) :
  upload_document extract_text file current_user w = (Return (response, (id, text)), w') ->
  id = next_id (db w)
  /\ (exists doc, documents (db w') !! id = Some doc
                  /\ d_id doc = id /\ status doc = "processing" /\ summary doc = ONone)
  /\ journal (db w') = journal (db w) ++ [(id, "processing")].
Proof.
  unfold upload_document.
  destruct (negb _); [discriminate|].
  match goal with |- context [match ?r with Return _ => _ | Raise _ => _ end] =>
    destruct r as [t|e] end.
  2: { destruct (isinstance e (HTTPException 0)); discriminate. }
  destruct (String.eqb (Py.strip t) ""); [discriminate|].
  unfold insert_document. cbn [d_id with_db db].
  intros [= _ <- _ <-]. cbn [db documents journal].
  split; [reflexivity|]. split; [|reflexivity].
  eexists. split; [apply lookup_insert_eq|]. auto.
Qed.

Lemma record_failure_journal (id : Z) (e : exn) (w : world) :
  (forall doc, documents (db w) !! id = Some doc -> d_id doc = id) ->
  exists J, journal (db (record_failure id e w)) = journal (db w) ++ map (pair id) J
            /\ (J = [] \/ J = [failure_status e]).
Proof.
  intros Hwf. unfold record_failure.
  destruct (documents (db w) !! id) as [doc|] eqn:Hdoc.
  - exists [failure_status e]. cbn. rewrite (Hwf doc eq_refl). auto.
  - exists []. cbn. rewrite app_nil_r. auto.
Qed.

(** The statuses one attempt commits, under a cache that does not raise. *)
Lemma process_document_background_journal (id : Z) (text : string) (w : world) :
  cache_quiet (cache w) ->
  (forall doc, documents (db w) !! id = Some doc -> d_id doc = id) ->
  exists J,
    journal (db (process_document_background sent_tokenize summarizer_load summarizer encode
                   id text w))
    = journal (db w) ++ map (pair id) J
    /\ (J = [] \/ J = ["completed"]
        \/ (exists e, J = ["completed"; degraded_status e])
        \/ (exists e, J = [failure_status e])).
Proof.
  intros Hq Hwf.
  pose proof (process_document_background_cases sent_tokenize summarizer_load summarizer encode
                id text w Hq) as Hcases.
  pose proof (generate_summary_frame sent_tokenize summarizer_load summarizer text true w)
    as [Hdb Hquiet].
  cbv zeta in Hcases.
  destruct (generate_summary sent_tokenize summarizer_load summarizer text true w)
    as [[s|e] w1]; simpl in Hcases, Hdb, Hquiet.
  - destruct (generate_embedding encode text) as [v|e].
    + destruct (documents (db w) !! id) as [doc|] eqn:Hdoc.
      * specialize (Hcases (Hwf doc eq_refl)).
        rewrite <- Hdb in Hdoc.
        destruct (record_results_quiet id s v w1 doc Hdoc (Hwf doc eq_refl) (Hquiet Hq))
          as (w2 & Hrun & Hres).
        rewrite Hrun in Hcases. injection Hcases as <-.
        destruct (reject (db w1) v) as [e|]; destruct Hres as (_ & _ & Hj);
          rewrite Hj, Hdb.
        -- exists ["completed"; degraded_status e]. split; [reflexivity|]. eauto.
        -- exists ["completed"]. split; [reflexivity|]. eauto.
      * rewrite Hcases, Hdb. exists []. rewrite app_nil_r. auto.
    + rewrite Hcases. rewrite <- Hdb in Hwf |- *.
      destruct (record_failure_journal id (embedding_failed e) w1 Hwf) as (J & -> & [->| ->]);
        eexists; split; eauto.
  - rewrite Hcases. rewrite <- Hdb in Hwf |- *.
    destruct (record_failure_journal id (summary_failed e) w1 Hwf) as (J & -> & [->| ->]);
      eexists; split; eauto.
Qed.

(** C2, amended. A document record is created on ingestion with the status
    [processing]; and, under a cache that does not raise, the statuses that
    one enrichment attempt commits for the document are, in order: none
    (the document is not in the Store), one completed status, a completed
    status followed by the completed status that reports the failed save of
    the embedding, or one failure status. So from [processing] the status
    goes to completed or to failed, and changes no further but within
    completed. *)
Theorem document_status_lifecycle :
  (forall file current_user w w' response id text,
     upload_document extract_text file current_user w = (Return (response, (id, text)), w') ->
     (exists doc, documents (db w') !! id = Some doc /\ status doc = "processing")
     /\ journal (db w') = journal (db w) ++ [(id, "processing")])
  /\ (forall id text w,
        cache_quiet (cache w) ->
        (forall doc, documents (db w) !! id = Some doc -> d_id doc = id) ->
        exists J,
          journal (db (process_document_background sent_tokenize summarizer_load summarizer
                         encode id text w))
          = journal (db w) ++ map (pair id) J
          /\ (map phase_of J = []
              \/ map phase_of J = [Completed]
              \/ map phase_of J = [Completed; Completed]
              \/ map phase_of J = [Failed])).
Proof.
  split.
  - intros file current_user w w' response id text H.
    destruct (upload_document_creates _ _ _ _ _ _ _ H) as (_ & (doc & Hd & _ & Hs & _) & Hj).
    split; [exists doc; auto|exact Hj].
  - intros id text w Hq Hwf.
    destruct (process_document_background_journal id text w Hq Hwf)
      as (J & Hj & [-> | [-> | [(e & ->) | (e & ->)]]]);
      eexists; (split; [exact Hj|]); cbn [map];
      rewrite ?phase_of_degraded, ?phase_of_failure; auto.
Qed.

End Lifecycle.

(** *** One attempt, run *)

Lemma uploaded_world_document : documents (db uploaded_world) !! 1 = Some uploaded_lease.
Proof. vm_compute. reflexivity. Qed.

(** C2 as stated fails: the uploaded document is created with the status
    [processing], not [pending]. *)
Lemma upload_creates_processing :
  fst (upload_document decode_ascii lease_file ann empty_world)
  = Return (ODict [("message",
                    OStr "Document uploaded successfully. Summary and embedding are being processed.");
                   ("document_id", OInt 1);
                   ("status", OStr "processing")],
            (1, lease_text))
  /\ status <$> documents (db uploaded_world) !! 1 = Some "processing"
  /\ journal (db uploaded_world) = [(1, "processing")]
  /\ String.eqb "processing" "pending" = false.
Proof. vm_compute. repeat split; reflexivity. Qed.


Lemma uploaded_world_quiet : cache_quiet (cache uploaded_world).
Proof. intros e He. vm_compute in He. discriminate He. Qed.

Lemma document_status_lifecycle_witness :
  ((exists doc, documents (db uploaded_world) !! 1 = Some doc /\ status doc = "processing")
   /\ journal (db uploaded_world) = journal (db empty_world) ++ [(1, "processing")])
  /\ exists J,
       journal (db (process_document_background one_sentence None echo_summarizer
                      short_vectors 1 lease_text uploaded_world))
       = journal (db uploaded_world) ++ map (pair 1) J
       /\ (map phase_of J = []
           \/ map phase_of J = [Completed]
           \/ map phase_of J = [Completed; Completed]
           \/ map phase_of J = [Failed]).
Proof.
  destruct (document_status_lifecycle one_sentence None echo_summarizer short_vectors
              decode_ascii) as [Hcreate Hrun].
  split.
  - apply (Hcreate lease_file ann empty_world uploaded_world
             (ODict [("message",
                      OStr "Document uploaded successfully. Summary and embedding are being processed.");
                     ("document_id", OInt 1);
                     ("status", OStr "processing")]) 1 lease_text).
    vm_compute. reflexivity.
  - apply Hrun; [exact uploaded_world_quiet|].
    intros doc Hdoc. rewrite uploaded_world_document in Hdoc. injection Hdoc as <-. reflexivity.
Defined.

(** ** Summaries and the cache (C4) *)

(** C4 fails on a text of more than 3000 words: the key looked up is that of
    the text, the key stored under is that of the truncated text, so the
    second call misses the cache and calls the summarizer again. *)
Theorem generate_summary_long_text_misses :
  lookup_key long_text = "summary:b579560d8c213bf6d7db6b8e73612797"
  /\ store_key long_text = "summary:5158fde4ea072feb04fc38f44c0fb405"
  /\ fst (generate_summary one_sentence None echo_summarizer long_text true empty_world)
     = Return (OStr "A summary.")
  /\ entries (server (cache after_first_call)) !! store_key long_text
     = Some (86400, Json (OStr "A summary."))
  /\ entries (server (cache after_first_call)) !! lookup_key long_text = None
  /\ List.length (summarizer_calls after_first_call) = 1%nat
  /\ fst (generate_summary one_sentence None echo_summarizer long_text true after_first_call)
     = Return (OStr "A summary.")
  /\ List.length (summarizer_calls after_second_call) = 2%nat.
Proof. vm_compute. repeat split; reflexivity. Qed.

(** *** Within the word cap the second call is served from the cache *)

Lemma get_cache_available (key : string) (c : cache_state) :
  fault (server c) = None ->
  get_cache key c = (Return (cache_value key (server c)), connected c).
Proof.
  intros Hf. unfold get_cache, get_redis_client, client_get, cache_value, connected.
  destruct c as [client s]. simpl in *. destruct client; simpl; rewrite Hf; simpl.
  - destruct (entries s !! key) as [[t [v|raw]]|]; simpl; try reflexivity.
    destruct (negb (String.eqb raw "")); reflexivity.
  - rewrite Hf. destruct (entries s !! key) as [[t [v|raw]]|]; simpl; try reflexivity.
    destruct (negb (String.eqb raw "")); reflexivity.
Qed.

Lemma set_cache_available (key : string) (value : pyobj) (c : cache_state) :
  fault (server c) = None ->
  set_cache key value (Some 86400) c
  = (Return true,
     {| redis_client := true;
        server := {| fault := None;
                     entries := <[key := (86400, Json value)]> (entries (server c)) |} |}).
Proof.
  intros Hf. unfold set_cache, get_redis_client, client_setex.
  destruct c as [client s]. simpl in *. destruct client; simpl; rewrite Hf; simpl;
    rewrite ?Hf; reflexivity.
Qed.

Section Idempotence.

Variable sent_tokenize : string -> list string.
Variable summarizer_load : option exn.
Variable summarizer : string -> Z -> Z -> outcome string.

(** For a text within the word cap, a cache that answers and a first call
    that returns a summary that is not empty, a second call on the same text
    returns the same summary and changes nothing: the summarizer is not
    called again. *)
Lemma generate_summary_idempotent_within_cap (text : string) (w w1 : world) (s : pyobj) :
  truncate_input text = text ->
  fault (server (cache w)) = None ->
  generate_summary sent_tokenize summarizer_load summarizer text true w = (Return s, w1) ->
  truthy s = true ->
  generate_summary sent_tokenize summarizer_load summarizer text true w1 = (Return s, w1).
Proof.
  intros Hcap Hf. unfold generate_summary.
  destruct (String.eqb (Py.strip text) ""); [intros [= <- <-]; discriminate|].
  unfold cached_summary. rewrite (get_cache_available _ _ Hf), Hcap.
  destruct (truthy (cache_value (summary_cache_key text) (server (cache w)))) eqn:Hhit.
  - (* the first call was a hit *)
    intros [= <- <-] _. cbn [cache with_cache].
    rewrite get_cache_available by exact Hf.
    cbn [server connected]. rewrite Hhit. reflexivity.
  - (* the first call was a miss *)
    destruct (chunk_text sent_tokenize text CHUNK_MAX_WORDS) as [|c cs] eqn:Hchunks.
    + intros [= <- <-] _. cbn [cache with_cache].
      rewrite get_cache_available by exact Hf.
      cbn [server connected]. rewrite Hhit. reflexivity.
    + destruct summarizer_load; [discriminate|].
      pose proof (summarize_chunks_frame summarizer (c :: cs)
                    (with_cache w (connected (cache w)))) as [_ Hc1].
      destruct (summarize_chunks summarizer (c :: cs) (with_cache w (connected (cache w))))
        as [summaries w2].
      pose proof (compress_frame summarizer (Py.join " " summaries) w2) as [_ Hc2].
      destruct (compress summarizer (Py.join " " summaries) w2) as [final_summary w3].
      simpl in Hc1, Hc2.
      assert (Hf3 : fault (server (cache w3)) = None) by (rewrite Hc2, Hc1; exact Hf).
      unfold store_summary. rewrite (set_cache_available _ _ _ Hf3).
      intros [= <- <-] Hs. cbn [cache with_cache snd].
      rewrite get_cache_available by reflexivity.
      unfold cache_value. cbn [server entries]. rewrite lookup_insert_eq.
      rewrite Hs. reflexivity.
Qed.

End Idempotence.

(** The lemma at work: the summary of [lease_text] is stored by the first
    call and served by the second. *)
Example generate_summary_second_call_cached :
  let first := generate_summary one_sentence None echo_summarizer lease_text true empty_world in
  fst first = Return (OStr lease_text)
  /\ generate_summary one_sentence None echo_summarizer lease_text true (snd first)
     = (Return (OStr lease_text), snd first).
Proof.
  cbv zeta.
  destruct (generate_summary one_sentence None echo_summarizer lease_text true empty_world)
    as [o w1] eqn:Hrun.
  assert (Ho : o = Return (OStr lease_text)).
  { apply (f_equal fst) in Hrun. simpl in Hrun. rewrite <- Hrun. vm_compute. reflexivity. }
  subst o. split; [reflexivity|]. simpl snd.
  apply (generate_summary_idempotent_within_cap one_sentence None echo_summarizer
           lease_text empty_world w1 (OStr lease_text)).
  - vm_compute. reflexivity.
  - reflexivity.
  - exact Hrun.
  - reflexivity.
Qed.

(** * Further properties of the cache layer *)

Lemma set_cache_stores (key : string) (value : pyobj) (ttl : option Z) (c : cache_state) :
  fault (server c) = None ->
  0 < effective_ttl ttl ->
  set_cache key value ttl c
  = (Return true,
     {| redis_client := true;
        server := {| fault := None;
                     entries := <[key := (effective_ttl ttl, Json value)]>
                                  (entries (server c)) |} |}).
Proof.
  intros Hf Ht. unfold set_cache, get_redis_client, client_setex.
  fold (effective_ttl ttl).
  assert (Hle : (effective_ttl ttl <=? 0) = false) by (apply Z.leb_gt; exact Ht).
  destruct c as [client s]. simpl in *. destruct client; simpl; rewrite Hf; simpl;
    rewrite ?Hf, Hle; reflexivity.
Qed.

(** X1. With the server answering and a time to live that is not negative,
    [set_cache] returns [True], and [get_cache] of the same key then returns
    the value that was set; the entry carries the time to live given, or
    [REDIS_CACHE_TTL] when none or 0 was given. *)
Theorem set_cache_get_cache_round_trip
  (key : string) (value : pyobj) (ttl : option Z) (c : cache_state) :
  fault (server c) = None ->
  0 < effective_ttl ttl ->
  exists c',
    set_cache key value ttl c = (Return true, c')
    /\ get_cache key c' = (Return value, c')
    /\ entries (server c') !! key = Some (effective_ttl ttl, Json value).
Proof.
  intros Hf Ht. eexists. split; [apply set_cache_stores; assumption|].
  split.
  - rewrite get_cache_available by reflexivity.
    unfold cache_value, connected. cbn [server entries].
    rewrite lookup_insert_eq. reflexivity.
  - cbn [server entries]. apply lookup_insert_eq.
Qed.

Lemma set_cache_get_cache_round_trip_witness :
  exists c',
    set_cache "search:k" (OStr "v") None no_cache = (Return true, c')
    /\ get_cache "search:k" c' = (Return (OStr "v"), c')
    /\ entries (server c') !! "search:k" = Some (3600, Json (OStr "v")).
Proof.
  exact (set_cache_get_cache_round_trip "search:k" (OStr "v") None no_cache
           eq_refl eq_refl).
Defined.

Lemma delete_cache_available (key : string) (c : cache_state) :
  fault (server c) = None ->
  delete_cache key c
  = (Return true,
     {| redis_client := true;
        server := {| fault := None; entries := delete key (entries (server c)) |} |}).
Proof.
  intros Hf. unfold delete_cache, get_redis_client, client_delete.
  destruct c as [client s]. simpl in *. destruct client; simpl; rewrite Hf; simpl;
    rewrite ?Hf; reflexivity.
Qed.

(** X2. With the server answering, [delete_cache] returns [True], whether or
    not the key was there; afterwards [get_cache] of the key is a miss, and
    every other key holds what it held. *)
Theorem delete_cache_then_miss (key : string) (c : cache_state) :
  fault (server c) = None ->
  exists c',
    delete_cache key c = (Return true, c')
    /\ get_cache key c' = (Return ONone, c')
    /\ forall key', key' <> key ->
         entries (server c') !! key' = entries (server c) !! key'.
Proof.
  intros Hf. eexists. split; [apply delete_cache_available; exact Hf|]. split.
  - rewrite get_cache_available by reflexivity.
    unfold cache_value, connected. cbn [server entries].
    rewrite lookup_delete_eq. reflexivity.
  - intros key' Hne. cbn [server entries]. apply lookup_delete_ne. congruence.
Qed.

Lemma delete_cache_then_miss_witness :
  exists c',
    delete_cache "search:k" no_cache = (Return true, c')
    /\ get_cache "search:k" c' = (Return ONone, c')
    /\ forall key', key' <> "search:k" ->
         entries (server c') !! key' = entries (server no_cache) !! key'.
Proof. exact (delete_cache_then_miss "search:k" no_cache eq_refl). Defined.

Lemma list_ascii_of_string_append (s t : string) :
  list_ascii_of_string (s ++ t) = list_ascii_of_string s ++ list_ascii_of_string t.
Proof.
  induction s as [|a s IH]; [reflexivity|].
  rewrite append_cons. simpl. rewrite IH. reflexivity.
Qed.

Lemma list_ascii_of_string_length (s : string) :
  List.length (list_ascii_of_string s) = String.length s.
Proof. induction s as [|a s IH]; simpl; [reflexivity|]. rewrite IH. reflexivity. Qed.

(** A final [*] matches whatever is left. *)
Lemma glob_star_rest (s : list ascii) (fuel : nat) :
  (List.length s + 2 <= fuel)%nat ->
  glob_match_list fuel ["*"%char] s = true.
Proof.
  revert fuel. induction s as [|a s IH]; intros fuel Hf.
  - destruct fuel as [|[|fuel]]; [simpl in Hf; lia..|]. reflexivity.
  - destruct fuel as [|fuel]; [simpl in Hf; lia|].
    cbn [glob_match_list]. change (Ascii.eqb "*" "*") with true. cbn iota.
    rewrite IH by (simpl in Hf; lia). apply orb_true_r.
Qed.

(** A pattern that is a literal text followed by [*] matches the keys that
    begin with the text. *)
Lemma glob_literal_star (p k : string) (fuel : nat) :
  literal p = true ->
  (String.length p + String.length k + 2 <= fuel)%nat ->
  glob_match_list fuel (list_ascii_of_string p ++ ["*"%char]) (list_ascii_of_string k)
  = String.prefix p k.
Proof.
  revert k fuel. induction p as [|a p IH]; intros k fuel Hlit Hf.
  - simpl. rewrite glob_star_rest.
    + destruct k; reflexivity.
    + rewrite list_ascii_of_string_length. simpl in Hf. lia.
  - unfold literal in Hlit. cbn [Py.contains] in Hlit.
    apply andb_true_iff in Hlit as [Hlit H4].
    apply andb_true_iff in Hlit as [Hlit H3].
    apply andb_true_iff in Hlit as [H1 H2].
    apply negb_true_iff, orb_false_iff in H1 as [Ha1 Hp1].
    apply negb_true_iff, orb_false_iff in H2 as [Ha2 Hp2].
    apply negb_true_iff, orb_false_iff in H3 as [Ha3 Hp3].
    apply negb_true_iff, orb_false_iff in H4 as [Ha4 Hp4].
    assert (Hlit' : literal p = true)
      by (unfold literal; rewrite Hp1, Hp2, Hp3, Hp4; reflexivity).
    rewrite Ascii.eqb_sym in Ha1. rewrite Ascii.eqb_sym in Ha2.
    destruct fuel as [|fuel]; [simpl in Hf; lia|].
    simpl list_ascii_of_string. cbn [app glob_match_list]. rewrite Ha1.
    destruct k as [|b k]; simpl list_ascii_of_string; cbn iota; [reflexivity|].
    rewrite Ha2. simpl orb. simpl String.prefix.
    destruct (ascii_dec a b) as [->|Hne].
    + rewrite Ascii.eqb_refl. simpl andb. apply IH; [exact Hlit'|]. simpl in Hf. lia.
    + apply Ascii.eqb_neq in Hne. rewrite Hne. reflexivity.
Qed.

Lemma glob_match_prefix (p k : string) :
  literal p = true -> glob_match (p ++ "*") k = String.prefix p k.
Proof.
  intros Hlit. unfold glob_match.
  rewrite list_ascii_of_string_append. simpl (list_ascii_of_string "*").
  apply glob_literal_star; [exact Hlit|].
  rewrite length_app, !list_ascii_of_string_length. simpl. lia.
Qed.

(** X3. With the server answering, [delete_cache_pattern] of a literal text
    (one without [*], [?], [[] and backslash) followed by [*] deletes the
    keys that begin with the text and no other, and returns their number. *)
Theorem delete_cache_pattern_prefix (p : string) (c : cache_state) :
  fault (server c) = None ->
  literal p = true ->
  exists c',
    delete_cache_pattern (p ++ "*") c = (Return (count_prefixed p (server c)), c')
    /\ fault (server c') = None
    /\ forall key,
         entries (server c') !! key
         = if String.prefix p key then None else entries (server c) !! key.
Proof.
  intros Hf Hlit. unfold delete_cache_pattern, get_redis_client.
  assert (Hrun :
    forall s : redis_server, fault s = None ->
      exists c',
        (let '(client, c0) := (true, {| redis_client := true; server := s |}) in
         if negb client then (Return 0, c0)
         else match fault (server c0) with
              | Some e => if isinstance e RedisError then (Return 0, c0) else (Raise e, c0)
              | None =>
                  (Return (Z.of_nat (size (filter (fun kv => glob_match (p ++ "*") (fst kv) = true)
                                             (entries (server c0))))),
                   {| redis_client := redis_client c0;
                      server := {| fault := None;
                                   entries := filter (fun kv => glob_match (p ++ "*") (fst kv) = false)
                                                (entries (server c0)) |} |})
              end)
        = (Return (count_prefixed p s), c')
        /\ fault (server c') = None
        /\ forall key, entries (server c') !! key
                       = if String.prefix p key then None else entries s !! key).
  { intros s Hs. cbn [negb server redis_client]. rewrite Hs. eexists. split; [|split].
    - f_equal. f_equal. unfold count_prefixed. f_equal. f_equal.
      apply map_filter_ext. intros k x _. cbn [fst]. rewrite glob_match_prefix by exact Hlit.
      reflexivity.
    - reflexivity.
    - intros key. cbn [server entries]. rewrite map_lookup_filter. cbn [fst].
      destruct (entries s !! key) as [x|]; simpl.
      + rewrite glob_match_prefix by exact Hlit.
        destruct (String.prefix p key).
        * rewrite option_guard_False by discriminate. reflexivity.
        * rewrite option_guard_True by reflexivity. reflexivity.
      + destruct (String.prefix p key); reflexivity. }
  destruct c as [client s]. simpl in Hf. cbn [redis_client server].
  destruct client; [exact (Hrun s Hf)|]. rewrite Hf. exact (Hrun s Hf).
Qed.

Lemma delete_cache_pattern_prefix_witness :
  exists c',
    delete_cache_pattern "search:*" no_cache = (Return (count_prefixed "search:" (server no_cache)), c')
    /\ fault (server c') = None
    /\ forall key,
         entries (server c') !! key
         = if String.prefix "search:" key then None else entries (server no_cache) !! key.
Proof. exact (delete_cache_pattern_prefix "search:" no_cache eq_refl eq_refl). Defined.

Lemma get_redis_client_after (c : cache_state) :
  redis_client (snd (get_redis_client c)) = client_after c
  /\ fst (get_redis_client c) = client_after c.
Proof.
  unfold get_redis_client, client_after. destruct c as [client s]. simpl.
  destruct client; [split; reflexivity|]. destruct (fault s); split; reflexivity.
Qed.

(** X4. Every operation of the cache leaves the global client as
    [get_redis_client] leaves it: a client that is there stays, whatever the
    server does afterwards, and a missing one is created exactly when the
    server answers. [is_redis_available] tells whether the server answers. *)
Theorem cache_client_is_kept
  (key pattern : string) (value : pyobj) (ttl : option Z) (c : cache_state) :
  redis_client (snd (get_cache key c)) = client_after c
  /\ redis_client (snd (set_cache key value ttl c)) = client_after c
  /\ redis_client (snd (delete_cache key c)) = client_after c
  /\ redis_client (snd (delete_cache_pattern pattern c)) = client_after c
  /\ redis_client (snd (is_redis_available c)) = client_after c
  /\ fst (is_redis_available c)
     = match fault (server c) with None => true | Some _ => false end.
Proof.
  assert (Havail : fst (is_redis_available c)
                   = match fault (server c) with None => true | Some _ => false end).
  { unfold is_redis_available, get_redis_client. destruct c as [client s]. simpl.
    destruct client; simpl; destruct (fault s) eqn:Hf; simpl; rewrite ?Hf; reflexivity. }
  pose proof (get_redis_client_after c) as [Hc Hb].
  pose proof (get_redis_client_server c) as Hs.
  revert Havail.
  unfold get_cache, set_cache, delete_cache, delete_cache_pattern, is_redis_available.
  destruct (get_redis_client c) as [client c']. simpl in Hc, Hb, Hs. subst client.
  intros Havail. repeat split; [| | | | |exact Havail].
  - destruct (client_after c); simpl; [|exact Hc].
    destruct (client_get key (server c')) as [[text|]|e]; simpl; try exact Hc.
    + destruct (nonempty_text text); [|exact Hc].
      destruct (json_loads text) as [v|e]; simpl; [exact Hc|].
      destruct (isinstance e RedisError || isinstance e JSONDecodeError); exact Hc.
    + destruct (isinstance e RedisError || isinstance e JSONDecodeError); exact Hc.
  - destruct (client_after c); simpl; [|exact Hc].
    destruct (client_setex key _ (Json value) (server c')) as [[[]|e] s']; simpl; [exact Hc|].
    destruct (isinstance e RedisError || isinstance e TypeError); exact Hc.
  - destruct (client_after c); simpl; [|exact Hc].
    destruct (client_delete key (server c')) as [[[]|e] s']; simpl; [exact Hc|].
    destruct (isinstance e RedisError); exact Hc.
  - destruct (client_after c); simpl; [|exact Hc].
    destruct (fault (server c')) as [e|]; [|exact Hc].
    destruct (isinstance e RedisError); exact Hc.
  - destruct (client_after c); simpl; [|exact Hc].
    destruct (fault (server c')); exact Hc.
Qed.

Lemma client_delete_other (key key' : string) (s : redis_server) :
  key <> key' ->
  entries (snd (client_delete key s)) !! key' = entries s !! key'.
Proof.
  intros Hne. unfold client_delete. destruct (fault s); [reflexivity|].
  simpl. apply lookup_delete_ne. exact Hne.
Qed.

Lemma client_write_fault (key : string) (ttl : Z) (text : payload) (s : redis_server) :
  fault (snd (client_setex key ttl text s)) = fault s
  /\ fault (snd (client_delete key s)) = fault s.
Proof.
  unfold client_setex, client_delete. destruct (fault s) eqn:Hf; simpl; [auto|].
  destruct (ttl <=? 0); simpl; auto.
Qed.

(** X5. [get_cache] and [is_redis_available] change nothing on the server;
    [set_cache] and [delete_cache] leave every key but their own as it was;
    and none of them changes whether the server is in fault. *)
Theorem cache_operations_frame
  (key : string) (value : pyobj) (ttl : option Z) (c : cache_state) :
  server (snd (get_cache key c)) = server c
  /\ server (snd (is_redis_available c)) = server c
  /\ fault (server (snd (set_cache key value ttl c))) = fault (server c)
  /\ fault (server (snd (delete_cache key c))) = fault (server c)
  /\ forall key', key <> key' ->
       entries (server (snd (set_cache key value ttl c))) !! key' = entries (server c) !! key'
       /\ entries (server (snd (delete_cache key c))) !! key' = entries (server c) !! key'.
Proof.
  split; [apply get_cache_server|].
  pose proof (get_redis_client_server c) as Hs.
  unfold is_redis_available, set_cache, delete_cache.
  destruct (get_redis_client c) as [client c']. simpl in Hs.
  split; [|split; [|split]].
  - destruct client; simpl; [|exact Hs]. destruct (fault (server c')); exact Hs.
  - destruct client; simpl; [|rewrite Hs; reflexivity].
    pose proof (proj1 (client_write_fault key (effective_ttl ttl) (Json value) (server c')))
      as Hw. unfold effective_ttl in Hw.
    destruct (client_setex key _ (Json value) (server c')) as [[[]|e] s']; simpl in *.
    + rewrite Hw, Hs. reflexivity.
    + destruct (isinstance e RedisError || isinstance e TypeError); simpl;
        rewrite Hw, Hs; reflexivity.
  - destruct client; simpl; [|rewrite Hs; reflexivity].
    pose proof (proj2 (client_write_fault key 1 (Malformed "") (server c'))) as Hw.
    destruct (client_delete key (server c')) as [[[]|e] s']; simpl in *.
    + rewrite Hw, Hs. reflexivity.
    + destruct (isinstance e RedisError); simpl; rewrite Hw, Hs; reflexivity.
  - intros key' Hne. split.
    + destruct client; simpl; [|rewrite Hs; reflexivity].
      pose proof (client_setex_other key key' (effective_ttl ttl) (Json value) (server c') Hne)
        as Hw. unfold effective_ttl in Hw.
      destruct (client_setex key _ (Json value) (server c')) as [[[]|e] s']; simpl in *.
      * rewrite Hw, Hs. reflexivity.
      * destruct (isinstance e RedisError || isinstance e TypeError); simpl;
          rewrite Hw, Hs; reflexivity.
    + destruct client; simpl; [|rewrite Hs; reflexivity].
      pose proof (client_delete_other key key' (server c') Hne) as Hw.
      destruct (client_delete key (server c')) as [[[]|e] s']; simpl in *.
      * rewrite Hw, Hs. reflexivity.
      * destruct (isinstance e RedisError); simpl; rewrite Hw, Hs; reflexivity.
Qed.

(** The key does not depend on the order of the keyword arguments. *)
Lemma generate_cache_key_permutation
  (prefix : string) (args : list pyval) (kw1 kw2 : list item) :
  NoDup (map fst kw1) -> Permutation kw1 kw2 ->
  generate_cache_key prefix args kw1 = generate_cache_key prefix args kw2.
Proof.
  intros Hnd Hp. unfold generate_cache_key, key_string.
  rewrite !sorted_or_empty, (sorted_permutation kw1 kw2 Hnd Hp). reflexivity.
Qed.

(** X6. A function wrapped by [cache_result]: with the server answering and
    a time to live that is not negative, after a call that returned a value
    other than [None], a call with the same positional arguments and the
    same keyword arguments in any order returns that value from the cache;
    the function is not run again (its state is as the first call left
    it). *)
Theorem cache_result_second_call {S : Type}
  (key_prefix : string) (ttl : option Z)
  (func : list pyval -> list item -> S -> outcome pyobj * S)
  (args : list pyval) (kw1 kw2 : list item) (st st1 : S) (c c1 : cache_state) (v : pyobj) :
  fault (server c) = None ->
  0 < effective_ttl ttl ->
  NoDup (map fst kw1) ->
  Permutation kw1 kw2 ->
  cache_result key_prefix ttl func args kw1 st c = (Return v, (st1, c1)) ->
  v <> ONone ->
  cache_result key_prefix ttl func args kw2 st1 c1 = (Return v, (st1, c1)).
Proof.
  intros Hf Ht Hnd Hp. unfold cache_result.
  rewrite <- (generate_cache_key_permutation key_prefix args kw1 kw2 Hnd Hp).
  generalize (generate_cache_key key_prefix args kw1). intros k.
  rewrite (get_cache_available k c Hf).
  destruct (cache_value k (server c)) eqn:Hhit.
  - (* miss: the function runs and its result is stored *)
    destruct (func args kw1 st) as [[result|e] st'] eqn:Hrun; [|discriminate].
    rewrite set_cache_stores by assumption.
    intros [= <- <- <-] Hv.
    rewrite get_cache_available by reflexivity.
    unfold cache_value. cbn [server entries]. rewrite lookup_insert_eq.
    destruct result; try reflexivity. congruence.
  - intros [= <- <- <-] _. rewrite get_cache_available by exact Hf.
    cbn [server connected]. rewrite Hhit. reflexivity.
  - intros [= <- <- <-] _. rewrite get_cache_available by exact Hf.
    cbn [server connected]. rewrite Hhit. reflexivity.
  - intros [= <- <- <-] _. rewrite get_cache_available by exact Hf.
    cbn [server connected]. rewrite Hhit. reflexivity.
  - intros [= <- <- <-] _. rewrite get_cache_available by exact Hf.
    cbn [server connected]. rewrite Hhit. reflexivity.
  - intros [= <- <- <-] _. rewrite get_cache_available by exact Hf.
    cbn [server connected]. rewrite Hhit. reflexivity.
Qed.

Lemma cache_result_second_call_witness :
  let first := cache_result "calc" (Some 60) counted_answer [PyInt 1]
                 [("b", PyInt 2); ("a", PyInt 3)] O no_cache in
  fst first = Return (OInt 42)
  /\ fst (snd first) = 1%nat
  /\ cache_result "calc" (Some 60) counted_answer [PyInt 1]
       [("a", PyInt 3); ("b", PyInt 2)] 1%nat (snd (snd first))
     = (Return (OInt 42), (1%nat, snd (snd first))).
Proof.
  cbv zeta.
  destruct (cache_result "calc" (Some 60) counted_answer [PyInt 1]
              [("b", PyInt 2); ("a", PyInt 3)] O no_cache) as [o [n c1]] eqn:Hrun.
  assert (Ho : o = Return (OInt 42) /\ n = 1%nat).
  { pose proof (f_equal fst Hrun) as H1. pose proof (f_equal (fun r => fst (snd r)) Hrun) as H2.
    simpl in H1, H2. rewrite <- H1, <- H2. vm_compute. split; reflexivity. }
  destruct Ho as [-> ->]. split; [reflexivity|]. split; [reflexivity|].
  cbn [snd].
  refine (cache_result_second_call "calc" (Some 60) counted_answer [PyInt 1]
            [("b", PyInt 2); ("a", PyInt 3)] [("a", PyInt 3); ("b", PyInt 2)]
            O 1%nat no_cache c1 (OInt 42) eq_refl eq_refl _ (perm_swap _ _ _) Hrun _).
  - apply NoDup_cons. split; [|apply NoDup_singleton].
    intros Hin. apply list_elem_of_singleton in Hin. discriminate Hin.
  - discriminate.
Defined.

(** * Further properties of the summarisation *)

(** ** Words *)

Lemma split_lstrip (s : string) : Py.split (Py.lstrip s) = Py.split s.
Proof.
  induction s as [|c s IH]; [reflexivity|].
  unfold Py.split in *. simpl. destruct (Py.isspace c) eqn:Hc; [exact IH|].
  simpl. rewrite Hc. reflexivity.
Qed.

Lemma split_from_rstrip (s : string) :
  forall cur, Py.split_from cur (Py.rstrip s) = Py.split_from cur s.
Proof.
  induction s as [|c s IH]; intros cur; [reflexivity|].
  simpl Py.rstrip. destruct (Py.rstrip s) as [|a r] eqn:Hr.
  - destruct (Py.isspace c) eqn:Hc.
    + simpl. rewrite Hc. rewrite <- (IH EmptyString). simpl. destruct cur; reflexivity.
    + simpl. rewrite Hc. rewrite <- IH. reflexivity.
  - simpl. destruct (Py.isspace c); [destruct cur|]; rewrite <- IH; reflexivity.
Qed.

Lemma split_strip (s : string) : Py.split (Py.strip s) = Py.split s.
Proof.
  unfold Py.strip. rewrite split_lstrip. unfold Py.split. apply split_from_rstrip.
Qed.

Lemma no_space_append (s t : string) :
  no_space (s ++ t) = no_space s && no_space t.
Proof.
  induction s as [|c s IH]; [reflexivity|].
  rewrite append_cons. simpl. rewrite IH, andb_assoc. reflexivity.
Qed.

Lemma split_from_no_space (w : string) :
  no_space w = true ->
  forall cur, Py.split_from cur w
              = match (cur ++ w)%string with
                | EmptyString => []
                | _ => [(cur ++ w)%string]
                end.
Proof.
  induction w as [|c w IH]; intros Hw cur.
  - rewrite append_empty_r. reflexivity.
  - simpl in Hw. apply andb_true_iff in Hw as [Hc Hw]. apply negb_true_iff in Hc.
    simpl. rewrite Hc, (IH Hw), append_assoc. reflexivity.
Qed.

Lemma split_word (w : string) : is_word w -> Py.split w = [w].
Proof.
  intros [Hne Hw]. unfold Py.split. rewrite (split_from_no_space w Hw).
  rewrite append_empty_l. destruct w; [congruence|reflexivity].
Qed.

Lemma split_from_words (s : string) :
  forall cur, no_space cur = true -> Forall is_word (Py.split_from cur s).
Proof.
  induction s as [|c s IH]; intros cur Hcur; simpl.
  - destruct cur; constructor; [|constructor]. split; [discriminate|exact Hcur].
  - destruct (Py.isspace c) eqn:Hc.
    + destruct cur; [apply IH; reflexivity|].
      constructor; [split; [discriminate|exact Hcur]|apply IH; reflexivity].
    + apply IH. rewrite no_space_append, Hcur. simpl. rewrite Hc. reflexivity.
Qed.

Lemma split_words (s : string) : Forall is_word (Py.split s).
Proof. apply split_from_words. reflexivity. Qed.

(** Joining words with a space and splitting again gives the words. *)
Lemma split_join_words (ws : list string) :
  Forall is_word ws -> Py.split (Py.join " " ws) = ws.
Proof.
  intros Hws. rewrite split_join.
  induction Hws as [|w ws Hw _ IH]; [reflexivity|].
  simpl. rewrite (split_word w Hw), IH. reflexivity.
Qed.

Lemma Forall_firstn {A} (P : A -> Prop) (n : nat) (l : list A) :
  Forall P l -> Forall P (firstn n l).
Proof.
  intros H. revert n. induction H as [|x l Hx _ IH]; intros [|n]; simpl; constructor; auto.
Qed.

(** ** The hash of a text *)

(** X7. [get_text_hash] sees a text through its words only: two texts with
    the same words in the same order, whatever the whitespace between and
    around them, have the same hash and so the same summary cache key. *)
Theorem get_text_hash_words (t1 t2 : string) :
  Py.split t1 = Py.split t2 ->
  get_text_hash t1 = get_text_hash t2
  /\ summary_cache_key t1 = summary_cache_key t2.
Proof.
  intros H.
  assert (Hh : get_text_hash t1 = get_text_hash t2).
  { unfold get_text_hash. rewrite !split_strip, H. reflexivity. }
  split; [exact Hh|].
  exact (f_equal (fun h => generate_cache_key "summary" [] [("text_hash", PyStr h)]) Hh).
Qed.

Lemma get_text_hash_words_witness :
  get_text_hash "  The lease   is renewed. " = get_text_hash "The lease is renewed."
  /\ summary_cache_key "  The lease   is renewed. " = summary_cache_key "The lease is renewed.".
Proof.
  apply get_text_hash_words. vm_compute. reflexivity.
Defined.

(** ** The cap on the input *)

(** X8. The text that is summarised holds the first [MAX_INPUT_WORDS] words
    of the input, in order, and no other: it never has more than 3000
    words, and capping a capped text changes nothing. *)
Theorem truncate_input_words (text : string) :
  Py.split (truncate_input text) = firstn (Z.to_nat MAX_INPUT_WORDS) (Py.split text)
  /\ word_count (truncate_input text) <= MAX_INPUT_WORDS
  /\ truncate_input (truncate_input text) = truncate_input text.
Proof.
  assert (Hsplit : Py.split (truncate_input text)
                   = firstn (Z.to_nat MAX_INPUT_WORDS) (Py.split text)).
  { unfold truncate_input.
    destruct (Z.of_nat (List.length (Py.split text)) >? MAX_INPUT_WORDS) eqn:Hlen.
    - apply split_join_words, Forall_firstn, split_words.
    - symmetry. apply firstn_all2.
      assert (Z.of_nat (List.length (Py.split text)) <= MAX_INPUT_WORDS) by lia. lia. }
  assert (Hcount : word_count (truncate_input text) <= MAX_INPUT_WORDS).
  { unfold word_count. rewrite Hsplit.
    pose proof (firstn_le_length (Z.to_nat MAX_INPUT_WORDS) (Py.split text)) as Hle.
    unfold MAX_INPUT_WORDS in *. lia. }
  split; [exact Hsplit|]. split; [exact Hcount|].
  unfold truncate_input at 1. fold (word_count (truncate_input text)).
  destruct (word_count (truncate_input text) >? MAX_INPUT_WORDS) eqn:Hgt; [lia|reflexivity].
Qed.

(** ** [generate_summary] *)

Section Summary.

Variable sent_tokenize : string -> list string.
Variable summarizer_load : option exn.
Variable summarizer : string -> Z -> Z -> outcome string.

Lemma summarize_chunks_calls_short (chunks : list string) (w : world) :
  Forall (fun chunk => word_count chunk < 30) chunks ->
  summarize_chunks summarizer chunks w = (chunks, w).
Proof.
  induction 1 as [|chunk rest Hc _ IH]; [reflexivity|].
  simpl. unfold summarize_chunk.
  assert (Hlt : (word_count chunk <? 30) = true) by (apply Z.ltb_lt; exact Hc).
  rewrite Hlt, IH. reflexivity.
Qed.

Lemma cached_summary_calls (text : string) (w : world) :
  summarizer_calls (snd (cached_summary text w)) = summarizer_calls w.
Proof.
  unfold cached_summary.
  destruct (get_cache (summary_cache_key text) (cache w)) as [[v|e] c]; reflexivity.
Qed.

(** X9. With the sentence tokenizer a total function, [generate_summary]
    raises only when the summarisation model cannot be loaded, and then with
    the exception of the loading, before any call of the summarizer and
    without a write to the Store: a failure of the summarizer on a chunk or
    on the final compression, and a failure of the cache, are absorbed. *)
Theorem generate_summary_raises_only_on_load
  (text : string) (use_cache : bool) (w : world) (e : exn) :
  fst (generate_summary sent_tokenize summarizer_load summarizer text use_cache w) = Raise e ->
  summarizer_load = Some e
  /\ summarizer_calls
       (snd (generate_summary sent_tokenize summarizer_load summarizer text use_cache w))
     = summarizer_calls w
  /\ db (snd (generate_summary sent_tokenize summarizer_load summarizer text use_cache w)) = db w.
Proof.
  intros H.
  split; [|split;
    [|exact (proj1 (generate_summary_frame sent_tokenize summarizer_load summarizer
                      text use_cache w))]];
  revert H; unfold generate_summary;
  (destruct (String.eqb (Py.strip text) ""); [discriminate|]);
  pose proof (cached_summary_calls text w) as Hcalls;
  (destruct use_cache;
   [destruct (cached_summary text w) as [hit w1]; simpl in Hcalls|]);
  try (destruct hit; [discriminate|]);
  (destruct (chunk_text sent_tokenize (truncate_input text) CHUNK_MAX_WORDS) as [|c cs];
   [discriminate|]);
  (destruct summarizer_load as [e'|];
   [|destruct (summarize_chunks summarizer (c :: cs) _) as [summaries w2];
     destruct (compress summarizer (Py.join " " summaries) w2) as [final_summary w3];
     discriminate]);
  simpl; intros [= ->]; auto.
Qed.

(** X11. [generate_summary] never writes the Store, and with
    [use_cache=False] it leaves the cache as it was. *)
Theorem generate_summary_touches (text : string) (use_cache : bool) (w : world) :
  db (snd (generate_summary sent_tokenize summarizer_load summarizer text use_cache w)) = db w
  /\ cache (snd (generate_summary sent_tokenize summarizer_load summarizer text false w))
     = cache w.
Proof.
  split;
    [exact (proj1 (generate_summary_frame sent_tokenize summarizer_load summarizer
                     text use_cache w))|].
  unfold generate_summary.
  destruct (String.eqb (Py.strip text) ""); [reflexivity|].
  destruct (chunk_text sent_tokenize (truncate_input text) CHUNK_MAX_WORDS) as [|c cs];
    [reflexivity|].
  destruct summarizer_load; [reflexivity|].
  pose proof (summarize_chunks_frame summarizer (c :: cs) w) as [_ Hc1].
  destruct (summarize_chunks summarizer (c :: cs) w) as [summaries w2]. simpl in Hc1.
  pose proof (compress_frame summarizer (Py.join " " summaries) w2) as [_ Hc2].
  destruct (compress summarizer (Py.join " " summaries) w2) as [final_summary w3].
  simpl in *. congruence.
Qed.

(** The sentences that fit the budget together make one chunk. *)
Lemma chunk_fold_fit (max_words : Z) (rest : list string) :
  forall st,
    current_word_count st + total_words rest <= max_words ->
    fold_left (chunk_step max_words) rest st
    = {| chunks := chunks st;
         current_chunk := current_chunk st ++ rest;
         current_word_count := current_word_count st + total_words rest |}.
Proof.
  induction rest as [|s rest IH]; intros st Hfit.
  - simpl. rewrite app_nil_r, Z.add_0_r. destruct st; reflexivity.
  - cbn [total_words fold_right] in Hfit. fold (total_words rest) in Hfit.
    pose proof (word_count_nonneg s) as Hs.
    assert (Hrest : 0 <= total_words rest).
    { clear. induction rest as [|x r IHr]; simpl; [lia|].
      pose proof (word_count_nonneg x). fold (total_words r). lia. }
    cbn [fold_left]. unfold chunk_step at 2.
    assert (Hle : (current_word_count st + word_count s <=? max_words) = true)
      by (apply Z.leb_le; lia).
    rewrite Hle, IH; cbn [chunks current_chunk current_word_count]; [|lia].
    rewrite <- app_assoc. cbn [total_words fold_right]. fold (total_words rest).
    f_equal. lia.
Qed.

Lemma chunk_sentences_fit (sentences : list string) (max_words : Z) :
  sentences <> [] ->
  total_words sentences <= max_words ->
  chunk_sentences sentences max_words = [Py.join " " sentences].
Proof.
  intros Hne Hfit. unfold chunk_sentences.
  rewrite chunk_fold_fit by (cbn [current_word_count]; lia).
  cbn [chunks current_chunk app]. destruct sentences; [congruence|reflexivity].
Qed.

(** X10. A text whose sentences have fewer than 30 words together is not
    summarised by the model: when the model loads and the cache has no
    summary for the text, [generate_summary] returns the sentences joined
    by one space, and the summarizer is not called. *)
Theorem generate_summary_short_text (text : string) (use_cache : bool) (w : world) :
  summarizer_load = None ->
  String.eqb (Py.strip text) "" = false ->
  (use_cache = true -> fst (cached_summary text w) = None) ->
  sent_tokenize (truncate_input text) <> [] ->
  total_words (sent_tokenize (truncate_input text)) < 30 ->
  fst (generate_summary sent_tokenize summarizer_load summarizer text use_cache w)
  = Return (OStr (Py.join " " (sent_tokenize (truncate_input text))))
  /\ summarizer_calls
       (snd (generate_summary sent_tokenize summarizer_load summarizer text use_cache w))
     = summarizer_calls w.
Proof.
  intros Hload Hblank Hmiss Hne Hshort. unfold generate_summary. rewrite Hblank, Hload.
  set (sentences := sent_tokenize (truncate_input text)) in *.
  assert (Hchunks : chunk_text sent_tokenize (truncate_input text) CHUNK_MAX_WORDS
                    = [Py.join " " sentences]).
  { unfold chunk_text. apply chunk_sentences_fit; [exact Hne|].
    unfold CHUNK_MAX_WORDS. fold sentences. lia. }
  rewrite Hchunks.
  assert (Hwc : word_count (Py.join " " sentences) < 30)
    by (rewrite word_count_join; exact Hshort).
  assert (Hrun : forall w0,
            summarize_chunks summarizer [Py.join " " sentences] w0
            = ([Py.join " " sentences], w0)).
  { intros w0. apply summarize_chunks_calls_short. constructor; [exact Hwc|constructor]. }
  assert (Hcomp : forall w0,
            compress summarizer (Py.join " " [Py.join " " sentences]) w0
            = (Py.join " " sentences, w0)).
  { intros w0. unfold compress. cbn [Py.join].
    assert (Hle : (word_count (Py.join " " sentences) >? 250) = false) by lia.
    rewrite Hle. reflexivity. }
  pose proof (cached_summary_calls text w) as Hcalls.
  destruct use_cache.
  - specialize (Hmiss eq_refl).
    destruct (cached_summary text w) as [hit w1]. simpl in Hmiss, Hcalls. subst hit.
    rewrite Hrun, Hcomp. split; [reflexivity|]. simpl. exact Hcalls.
  - rewrite Hrun, Hcomp. split; reflexivity.
Qed.

(** X12. When the final compression is attempted and the summarizer fails,
    the summary is cut to its first 200 words; so whenever the summarizer
    fails on the final text, the result has at most 250 words. *)
Theorem compress_failure_bound (final_summary : string) (w : world) (e : exn) :
  summarizer final_summary 200 60 = Raise e ->
  word_count (fst (compress summarizer final_summary w)) <= 250
  /\ (250 < word_count final_summary ->
      Py.split (fst (compress summarizer final_summary w))
      = firstn 200 (Py.split final_summary)
      /\ word_count (fst (compress summarizer final_summary w)) = 200).
Proof.
  intros Hfail. unfold compress. rewrite Hfail.
  destruct (word_count final_summary >? 250) eqn:Hgt; cbn [fst].
  - assert (Hsplit : Py.split (Py.join " " (firstn 200 (Py.split final_summary)))
                     = firstn 200 (Py.split final_summary))
      by (apply split_join_words, Forall_firstn, split_words).
    assert (Hlen : word_count (Py.join " " (firstn 200 (Py.split final_summary))) = 200).
    { unfold word_count in *. rewrite Hsplit, firstn_length_le; lia. }
    split; [lia|]. intros _. split; assumption.
  - split; [lia|]. intros Hlt. lia.
Qed.

End Summary.

Lemma generate_summary_raises_only_on_load_witness :
  fst (generate_summary one_sentence (Some load_error) echo_summarizer lease_text true
         empty_world) = Raise load_error
  /\ Some load_error = Some load_error
  /\ summarizer_calls
       (snd (generate_summary one_sentence (Some load_error) echo_summarizer lease_text true
               empty_world))
     = summarizer_calls empty_world
  /\ db (snd (generate_summary one_sentence (Some load_error) echo_summarizer lease_text true
                empty_world)) = db empty_world.
Proof.
  assert (H : fst (generate_summary one_sentence (Some load_error) echo_summarizer lease_text
                     true empty_world) = Raise load_error) by (vm_compute; reflexivity).
  exact (conj H (generate_summary_raises_only_on_load one_sentence (Some load_error)
                   echo_summarizer lease_text true empty_world load_error H)).
Defined.

Lemma generate_summary_short_text_witness :
  fst (generate_summary one_sentence None failing_summarizer lease_text true empty_world)
  = Return (OStr (Py.join " " (one_sentence (truncate_input lease_text))))
  /\ summarizer_calls
       (snd (generate_summary one_sentence None failing_summarizer lease_text true empty_world))
     = summarizer_calls empty_world.
Proof.
  apply (generate_summary_short_text one_sentence None failing_summarizer lease_text true
           empty_world eq_refl).
  - vm_compute. reflexivity.
  - intros _. vm_compute. reflexivity.
  - discriminate.
  - vm_compute. reflexivity.
Defined.

Lemma compress_failure_bound_witness :
  word_count (fst (compress failing_summarizer long_sentence empty_world)) <= 250
  /\ (250 < word_count long_sentence ->
      Py.split (fst (compress failing_summarizer long_sentence empty_world))
      = firstn 200 (Py.split long_sentence)
      /\ word_count (fst (compress failing_summarizer long_sentence empty_world)) = 200).
Proof.
  exact (compress_failure_bound failing_summarizer long_sentence empty_world _ eq_refl).
Defined.

(** ** [chunk_text] is greedy *)

Lemma tight_grow (max_words : Z) (g : list string) (s : string) (gs : list (list string)) :
  g <> [] ->
  tight max_words (gs ++ [g]) -> tight max_words (gs ++ [g ++ [s]]).
Proof.
  intros Hg. induction gs as [|g1 gs IH]; [intros _; exact I|].
  destruct gs as [|g2 gs].
  - cbn. destruct g as [|s0 g]; [congruence|]. cbn. tauto.
  - intros [H1 H2]. split; [exact H1|]. apply IH. exact H2.
Qed.

Lemma tight_snoc (max_words : Z) (g : list string) (s : string) (gs : list (list string)) :
  max_words < total_words g + word_count s ->
  tight max_words (gs ++ [g]) -> tight max_words (gs ++ [g; [s]]).
Proof.
  intros Hs. induction gs as [|g1 gs IH].
  - intros _. cbn. split; [exact Hs|exact I].
  - destruct gs as [|g2 gs].
    + cbn. intros [H1 _]. split; [exact H1|]. split; [exact Hs|exact I].
    + intros [H1 H2]. split; [exact H1|]. apply IH. exact H2.
Qed.

Lemma chunk_fold_tight (max_words : Z) (rest : list string) :
  forall (st : chunker) (gs : list (list string)),
    chunks st = map (Py.join " ") gs ->
    current_word_count st = total_words (current_chunk st) ->
    (current_chunk st = [] -> gs = []) ->
    tight max_words (gs ++ pending (current_chunk st)) ->
    exists gs' : list (list string),
      chunks (fold_left (chunk_step max_words) rest st) = map (Py.join " ") gs'
      /\ tight max_words
           (gs' ++ pending (current_chunk (fold_left (chunk_step max_words) rest st)))
      /\ concat (gs' ++ pending (current_chunk (fold_left (chunk_step max_words) rest st)))
         = (concat (gs ++ pending (current_chunk st)) ++ rest)%list.
Proof.
  induction rest as [|s rest IH]; intros st gs Hc Hn He Ht.
  - exists gs. rewrite app_nil_r. auto.
  - cbn [fold_left]. unfold chunk_step at 2 4 6.
    destruct (current_word_count st + word_count s <=? max_words) eqn:Hfit.
    + destruct (IH {| chunks := chunks st;
                      current_chunk := current_chunk st ++ [s];
                      current_word_count := current_word_count st + word_count s |} gs)
        as (gs' & Hc' & Ht' & Hcat'); cbn [chunks current_chunk current_word_count].
      * exact Hc.
      * rewrite Hn, total_words_app. cbn. lia.
      * intros Hnil. destruct (current_chunk st); discriminate Hnil.
      * destruct (current_chunk st) as [|s0 cur] eqn:Hcur.
        -- rewrite (He eq_refl). exact I.
        -- change (pending ((s0 :: cur) ++ [s])) with [(s0 :: cur) ++ [s]].
           apply tight_grow; [discriminate|exact Ht].
      * exists gs'. split; [exact Hc'|]. split; [exact Ht'|]. rewrite Hcat'.
        cbn [current_chunk].
        rewrite !concat_app, !concat_pending, <- !app_assoc. reflexivity.
    + destruct (IH {| chunks := flush (chunks st) (current_chunk st);
                      current_chunk := [s];
                      current_word_count := word_count s |}
                   (gs ++ pending (current_chunk st)))
        as (gs' & Hc' & Ht' & Hcat'); cbn [chunks current_chunk current_word_count].
      * rewrite Hc. apply flush_groups.
      * cbn. lia.
      * discriminate.
      * destruct (current_chunk st) as [|s0 cur] eqn:Hcur.
        -- rewrite (He eq_refl). exact I.
        -- cbn [pending]. rewrite <- app_assoc. cbn [app].
           apply tight_snoc; [|exact Ht].
           apply Z.leb_gt in Hfit. rewrite <- Hn. lia.
      * exists gs'. split; [exact Hc'|]. split; [exact Ht'|]. rewrite Hcat'.
        cbn [current_chunk].
        rewrite !concat_app, !concat_pending, <- !app_assoc. reflexivity.
Qed.

(** X13. [chunk_text] is greedy: its chunks are the sentences of the text in
    order, grouped and joined by one space, and a chunk is closed only when
    the next sentence does not fit: the words of a chunk and of the first
    sentence of the chunk after it are together more than [max_words]. *)
Theorem chunk_text_greedy
  (sent_tokenize : string -> list string) (text : string) (max_words : Z) :
  exists groups : list (list string),
    chunk_text sent_tokenize text max_words = map (Py.join " ") groups
    /\ concat groups = sent_tokenize text
    /\ tight max_words groups.
Proof.
  unfold chunk_text, chunk_sentences.
  set (st0 := {| chunks := []; current_chunk := []; current_word_count := 0 |}).
  destruct (chunk_fold_tight max_words (sent_tokenize text) st0 [] eq_refl eq_refl
              (fun _ => eq_refl) I) as (gs & Hc & Ht & Hcat).
  exists (gs ++ pending
                  (current_chunk (fold_left (chunk_step max_words) (sent_tokenize text) st0))).
  split; [rewrite Hc; apply flush_groups|]. split; [exact Hcat|exact Ht].
Qed.

(** * Further properties of the document endpoints *)

Lemma issubclass_http (c : exn_class) :
  issubclass c (HTTPException 0) = true -> exists code, c = HTTPException code.
Proof. destruct c; try discriminate. intros _. eexists. reflexivity. Qed.

Lemma contains_append (c : ascii) (a b : string) :
  Py.contains c (a ++ b) = Py.contains c a || Py.contains c b.
Proof.
  induction a as [|d a IH]; [reflexivity|].
  rewrite append_cons. cbn [Py.contains]. rewrite IH. apply orb_assoc.
Qed.

Lemma last_segment_whole (sep : ascii) (s : string) :
  Py.contains sep s = false -> last_segment sep s = s.
Proof.
  induction s as [|c s IH]; [reflexivity|].
  cbn [Py.contains last_segment]. intros H. apply orb_false_iff in H as [Hc Hs].
  rewrite Hs, Ascii.eqb_sym, Hc. reflexivity.
Qed.

Lemma last_segment_append (sep : ascii) (base e : string) :
  Py.contains sep e = false -> last_segment sep (base ++ String sep e) = e.
Proof.
  intros He. induction base as [|c base IH].
  - rewrite append_empty_l. cbn [last_segment]. rewrite He, Ascii.eqb_refl. reflexivity.
  - rewrite append_cons. cbn [last_segment].
    rewrite contains_append. cbn [Py.contains]. rewrite Ascii.eqb_refl, orb_true_r.
    exact IH.
Qed.

Section Upload.

Variable extract_text : string -> list Z -> outcome string.

(** What a call of [upload_document] did, read off its result. *)
Lemma upload_document_inv (file : UploadFile) (current_user : User) (w : world) :
  let ext := Py.lower (last_segment "." (file_name file)) in
  match upload_document extract_text file current_user w with
  | (Raise e, w') => w' = w /\ isinstance e (HTTPException 0) = true
  | (Return (response, (id, text)), w') =>
      accepted_type ext = true
      /\ extract_text ext (file_bytes file) = Return text
      /\ String.eqb (Py.strip text) "" = false
      /\ id = next_id (db w)
      /\ w' = with_db w (snd (insert_document (user_id current_user) (file_name file) ext
                                text "processing" (db w)))
  end.
Proof.
  intros ext. unfold upload_document. fold ext. fold (accepted_type ext).
  destruct (accepted_type ext) eqn:Hext; cbn [negb]; [|split; reflexivity].
  set (read := if String.eqb ext "pdf" then _ else _).
  assert (Hread : forall text, read = Return text ->
                               extract_text ext (file_bytes file) = Return text).
  { intros text. subst read.
    destruct (String.eqb ext "pdf"); [|destruct (String.eqb ext "docx")];
      try (destruct (file_bytes file); [discriminate|]); auto. }
  destruct read as [text|e].
  - destruct (String.eqb (Py.strip text) "") eqn:Hblank; [split; reflexivity|].
    cbn. repeat split; auto.
  - destruct (isinstance e (HTTPException 0)) eqn:Hhttp; split; auto.
Qed.

(** X14. [upload_document] either rejects the file with an [HTTPException]
    and leaves the cache and the Store as they were, or it inserts one row
    under the next id of the sequence, for the caller, with the extracted
    text, which is not blank, and status ["processing"], queues the
    background task for that id and text, and changes no other row, no
    embedding, no user and no entry of the cache. *)
Theorem upload_document_outcome (file : UploadFile) (current_user : User) (w : world) :
  match upload_document extract_text file current_user w with
  | (Raise e, w') => w' = w /\ exists code, cls e = HTTPException code
  | (Return (response, (id, text)), w') =>
      id = next_id (db w)
      /\ extract_text (Py.lower (last_segment "." (file_name file))) (file_bytes file)
         = Return text
      /\ String.eqb (Py.strip text) "" = false
      /\ documents (db w') !! id = Some (new_document id file current_user text)
      /\ (forall k, k <> id -> documents (db w') !! k = documents (db w) !! k)
      /\ embeddings (db w') = embeddings (db w)
      /\ users (db w') = users (db w)
      /\ next_id (db w') = id + 1
      /\ cache w' = cache w
  end.
Proof.
  pose proof (upload_document_inv file current_user w) as H. cbv zeta in H.
  destruct (upload_document extract_text file current_user w)
    as [[[response [id text]]|e] w'].
  - destruct H as (_ & Hsrc & Hblank & -> & ->). cbn.
    repeat split; auto.
    + apply lookup_insert_eq.
    + intros k Hk. apply lookup_insert_ne. congruence.
  - destruct H as [-> Hhttp]. split; [reflexivity|]. apply issubclass_http. exact Hhttp.
Qed.

(** X15. The file type is read off the part of the file name after its last
    dot, or off the whole name when it has no dot, in lower case: when that
    is none of [pdf], [docx] and [txt] the upload is rejected with status
    400 before the content is looked at, and an accepted upload stores that
    part, in lower case, as the file type of the row. *)
Theorem upload_document_extension
  (name base e : string) (content : list Z) (current_user : User) (w : world) :
  Py.contains "." e = false ->
  name = (base ++ "." ++ e)%string \/ name = e ->
  let file := {| file_name := name; file_bytes := content |} in
  (accepted_type (Py.lower e) = false ->
   upload_document extract_text file current_user w
   = (Raise (http_error 400 "Unsupported file format"), w))
  /\ (forall response id text w',
        upload_document extract_text file current_user w = (Return (response, (id, text)), w') ->
        exists doc, documents (db w') !! id = Some doc
                    /\ filename doc = name /\ file_type doc = Py.lower e).
Proof.
  intros He Hname file.
  assert (Hseg : last_segment "." name = e).
  { destruct Hname as [-> | ->].
    - change ("." ++ e)%string with (String "." e). apply last_segment_append. exact He.
    - apply last_segment_whole. exact He. }
  split.
  - intros Hno. unfold upload_document. cbn [file_name file].
    rewrite Hseg. fold (accepted_type (Py.lower e)). rewrite Hno. reflexivity.
  - intros response id text w' Hup.
    pose proof (upload_document_inv file current_user w) as H. cbv zeta in H.
    rewrite Hup in H. destruct H as (_ & _ & _ & -> & ->).
    eexists. split; [apply lookup_insert_eq|].
    cbn [filename file_type file_name file]. rewrite Hseg. split; reflexivity.
Qed.

End Upload.

Lemma upload_document_extension_witness :
  Py.contains "." "exe" = false
  /\ upload_document decode_ascii setup_exe ann empty_world
     = (Raise (http_error 400 "Unsupported file format"), empty_world).
Proof.
  split; [reflexivity|].
  exact (proj1 (upload_document_extension decode_ascii "setup.exe" "setup" "exe" [77; 90] ann
                  empty_world eq_refl (or_introl eq_refl)) eq_refl).
Defined.

(** ** The status of a failed task *)

Lemma prefix_length (n : nat) (s : string) :
  String.length (Py.prefix n s) = Nat.min n (String.length s).
Proof.
  revert s. induction n as [|n IH]; intros [|c s]; cbn; try reflexivity.
  rewrite IH. reflexivity.
Qed.

Lemma prefix_append (p r : string) (n : nat) :
  Py.prefix (String.length p + n) (p ++ r) = (p ++ Py.prefix n r)%string.
Proof.
  induction p as [|c p IH]; [rewrite !append_empty_l; reflexivity|].
  rewrite !append_cons. cbn. rewrite IH. reflexivity.
Qed.

Lemma string_prefix_append (p r : string) : String.prefix p (p ++ r) = true.
Proof.
  induction p as [|c p IH]; [rewrite append_empty_l; destruct r; reflexivity|].
  rewrite append_cons. cbn. destruct (ascii_dec c c); [exact IH|congruence].
Qed.

(** X16. The status that a failed background task stores has at most 500
    characters, whatever the message of the exception, and begins with
    ["failed: "] and the name of the exception's class. *)
Theorem failure_status_bound (e : exn) :
  Py.len (failure_status e) <= 500
  /\ String.prefix ("failed: " ++ class_name (cls e) ++ ": ") (failure_status e) = true.
Proof.
  unfold failure_status.
  set (head := ("failed: " ++ class_name (cls e) ++ ": ")%string).
  assert (Hmsg : ("failed: " ++ class_name (cls e) ++ ": " ++ message e)%string
                 = (head ++ message e)%string).
  { subst head. rewrite !append_assoc. reflexivity. }
  rewrite Hmsg.
  assert (Hhead : (String.length head <= 28)%nat).
  { subst head. rewrite !append_length. destruct (cls e); cbn; lia. }
  destruct (Py.len (head ++ message e) >? 500) eqn:Hlong.
  - split.
    + unfold Py.len. rewrite append_length, prefix_length. cbn [String.length]. lia.
    + replace 497%nat with (String.length head + (497 - String.length head))%nat by lia.
      rewrite prefix_append, append_assoc. apply string_prefix_append.
  - split; [lia|apply string_prefix_append].
Qed.

(** ** The background task *)

Lemma updated_same (doc : Document) : updated doc (summary doc) (status doc) = doc.
Proof. destruct doc; reflexivity. Qed.

Lemma task_write_refl (id : Z) (v : option (list Q)) (d : database) : task_write id v d d.
Proof.
  unfold task_write. repeat split; auto.
  destruct (documents d !! id) as [doc|]; [|reflexivity].
  exists (summary doc), (status doc). rewrite updated_same. reflexivity.
Qed.

(** The row of [id] in a Store the task has written to keeps the id. *)
Lemma task_write_id (id : Z) (v : option (list Q)) (d d' : database) (doc' : Document) :
  (forall doc, documents d !! id = Some doc -> d_id doc = id) ->
  task_write id v d d' ->
  documents d' !! id = Some doc' -> d_id doc' = id.
Proof.
  intros Hwf (_ & _ & _ & _ & Hrow & _) Hdoc'.
  destruct (documents d !! id) as [doc|]; [|congruence].
  destruct Hrow as (s & st & Hrow). rewrite Hrow in Hdoc'. injection Hdoc' as <-.
  cbn. apply Hwf. reflexivity.
Qed.

Lemma task_write_commit (id : Z) (v : option (list Q)) (d d' : database)
  (doc' : Document) (s : pyobj) (st : string) :
  (forall doc, documents d !! id = Some doc -> d_id doc = id) ->
  task_write id v d d' ->
  documents d' !! id = Some doc' ->
  task_write id v d (commit_document doc' s st d').
Proof.
  intros Hwf Hw Hdoc'. pose proof (task_write_id id v d d' doc' Hwf Hw Hdoc') as Hid.
  destruct Hw as (Hu & Hn & Hr & Hk & Hrow & He).
  unfold task_write, commit_document. cbn. rewrite Hid.
  repeat split; auto.
  - intros k Hne. rewrite lookup_insert_ne by congruence. apply Hk. exact Hne.
  - rewrite lookup_insert_eq.
    destruct (documents d !! id) as [doc|]; [|congruence].
    destruct Hrow as (s0 & st0 & Hrow). rewrite Hrow in Hdoc'. injection Hdoc' as <-.
    exists s, st. reflexivity.
Qed.

Lemma task_write_embedding (id : Z) (x : list Q) (d d' : database) :
  task_write id (Some x) d d' ->
  embeddings d' = embeddings d ->
  task_write id (Some x) d (snd (add_embedding id x d')).
Proof.
  intros (Hu & Hn & Hr & Hk & Hrow & _) Hsame. unfold add_embedding.
  destruct (reject d' x); cbn; unfold task_write; repeat split; auto.
  right. exists x. rewrite Hsame. auto.
Qed.

(** What the task writes does not depend on the cache. *)
Lemma task_write_record_results (id : Z) (s : pyobj) (x : list Q) (w : world) :
  (forall doc, documents (db w) !! id = Some doc -> d_id doc = id) ->
  task_write id (Some x) (db w) (db (snd (record_results id s x w))).
Proof.
  intros Hwf. unfold record_results.
  destruct (documents (db w) !! id) as [doc|] eqn:Hdoc; [|apply task_write_refl].
  rewrite <- Hdoc in Hwf. pose proof (Hwf doc Hdoc) as Hid.
  pose proof (task_write_commit id (Some x) (db w) (db w) doc s "completed" Hwf
                (task_write_refl _ _ _) Hdoc) as H1.
  set (d1 := commit_document doc s "completed" (db w)) in *.
  assert (Hd1 : documents d1 !! id = Some (updated doc s "completed")).
  { subst d1. cbn. rewrite Hid. apply lookup_insert_eq. }
  cbn [with_db cache db].
  destruct (delete_cache_pattern _ (cache w)) as [[n|e] c1];
    cbn [snd db with_cache with_db cache]; [|exact H1].
  rewrite Hid.
  pose proof (task_write_embedding id x (db w) d1 H1 eq_refl) as H2.
  assert (Hd2 : documents (snd (add_embedding id x d1)) !! id
                = Some (updated doc s "completed")).
  { unfold add_embedding. destruct (reject d1 x); exact Hd1. }
  destruct (add_embedding id x d1) as [[u|e] d2]; cbn [snd] in H2, Hd2;
    cbn [snd db with_cache with_db cache].
  - destruct (delete_cache_pattern "search:*" c1) as [[n'|e] c2];
      cbn [snd db with_cache with_db cache].
    + exact H2.
    + exact (task_write_commit id (Some x) (db w) d2 _ s _ Hwf H2 Hd2).
  - exact (task_write_commit id (Some x) (db w) d2 _ s _ Hwf H2 Hd2).
Qed.

Lemma set_cache_fault (key : string) (value : pyvalue) (ttl : option Z) (c : cache_state) :
  fault (server (snd (set_cache key value ttl c))) = fault (server c).
Proof.
  unfold set_cache.
  pose proof (get_redis_client_server c) as Hs.
  destruct (get_redis_client c) as [client c0]. cbn [snd] in Hs.
  destruct client; cbn [negb snd]; [|rewrite Hs; reflexivity].
  destruct (json_dumps value) as [json_value|e].
  - pose proof (proj1 (client_write_fault key
                         (match ttl with
                          | Some t => if t =? 0 then REDIS_CACHE_TTL else t
                          | None => REDIS_CACHE_TTL
                          end) json_value (server c0))) as Hw.
    destruct (client_setex key _ json_value (server c0)) as [[u|e] s1]; cbn [snd] in Hw.
    + cbn. congruence.
    + destruct (isinstance e RedisError || isinstance e TypeError); cbn; congruence.
  - destruct (isinstance e RedisError || isinstance e TypeError); cbn; congruence.
Qed.


Section Task.

Variable sent_tokenize : string -> list string.
Variable summarizer_load : option exn.
Variable summarizer : string -> Z -> Z -> outcome string.
Variable encode : string -> outcome (list Q).


(** The writes of the whole task. *)
Lemma process_document_background_writes (id : Z) (text : string) (w : world) :
  (forall doc, documents (db w) !! id = Some doc -> d_id doc = id) ->
  task_write id (encoded (encode text)) (db w)
    (db (process_document_background sent_tokenize summarizer_load summarizer encode
           id text w)).
Proof.
  intros Hwf. unfold process_document_background.
  pose proof (proj1 (generate_summary_frame sent_tokenize summarizer_load summarizer
                       text true w)) as Hdb.
  destruct (generate_summary sent_tokenize summarizer_load summarizer text true w)
    as [[s|e] w1]; cbn [snd] in Hdb.
  - unfold generate_embedding. destruct (encode text) as [x|e]; cbn [encoded].
    + assert (Hwf1 : forall doc, documents (db w1) !! id = Some doc -> d_id doc = id)
        by (rewrite Hdb; exact Hwf).
      pose proof (task_write_record_results id s x w1 Hwf1) as Hw. rewrite Hdb in Hw.
      destruct (record_results id s x w1) as [[u|e] w2]; cbn [snd] in Hw; [exact Hw|].
      destruct (documents (db w2) !! id) as [doc2|] eqn:Hdoc2; [|exact Hw].
      exact (task_write_commit id _ (db w) (db w2) doc2 _ _ Hwf Hw Hdoc2).
    + destruct (documents (db w1) !! id) as [doc1|] eqn:Hdoc1;
        [|rewrite Hdb; apply task_write_refl].
      cbn [with_db db]. rewrite Hdb in *.
      exact (task_write_commit id _ (db w) (db w) doc1 _ _ Hwf (task_write_refl _ _ _) Hdoc1).
  - destruct (documents (db w1) !! id) as [doc1|] eqn:Hdoc1;
      [|rewrite Hdb; apply task_write_refl].
    cbn [with_db db]. rewrite Hdb in *.
    exact (task_write_commit id _ (db w) (db w) doc1 _ _ Hwf (task_write_refl _ _ _) Hdoc1).
Qed.

(** X17. Whatever the models, the cache and the Store do, the background
    task for a document writes only that document's summary and status and
    at most one embedding, appended for that document with the vector of
    the embedding model; every other row, the users and the id sequence are
    as before, and the task neither creates nor deletes a document. *)
Theorem process_document_background_frame (id : Z) (text : string) (w : world) :
  (forall doc, documents (db w) !! id = Some doc -> d_id doc = id) ->
  let d := db w in
  let d' := db (process_document_background sent_tokenize summarizer_load summarizer encode
                  id text w) in
  users d' = users d
  /\ next_id d' = next_id d
  /\ (forall k, k <> id -> documents d' !! k = documents d !! k)
  /\ match documents d !! id with
     | None => documents d' !! id = None
     | Some doc => exists s st, documents d' !! id = Some (updated doc s st)
     end
  /\ (embeddings d' = embeddings d
      \/ exists v, encode text = Return v
                   /\ embeddings d'
                      = embeddings d ++ [{| document_id := id; embedding := v;
                                            model_name := None |}]).
Proof.
  intros Hwf d d'.
  destruct (process_document_background_writes id text w Hwf)
    as (Hu & Hn & _ & Hk & Hrow & He).
  repeat split; auto.
  destruct He as [He | (x & Hx & He)]; [left; exact He|].
  right. exists x. split; [|exact He].
  destruct (encode text); [injection Hx as ->; reflexivity|discriminate].
Qed.


(** X19. The background task for a document that is not in the Store writes
    nothing to the Store: no row, no embedding, no status. *)
Theorem process_document_background_missing (id : Z) (text : string) (w : world) :
  documents (db w) !! id = None ->
  db (process_document_background sent_tokenize summarizer_load summarizer encode id text w)
  = db w.
Proof.
  intros Hnone. unfold process_document_background.
  pose proof (proj1 (generate_summary_frame sent_tokenize summarizer_load summarizer
                       text true w)) as Hdb.
  destruct (generate_summary sent_tokenize summarizer_load summarizer text true w)
    as [[s|e] w1]; cbn [snd] in Hdb.
  - unfold generate_embedding, record_results.
    destruct (encode text) as [x|e]; rewrite Hdb, Hnone; exact Hdb.
  - rewrite Hdb, Hnone. exact Hdb.
Qed.

(** X20. When the summary cannot be generated, the document keeps its
    summary, gets the status of the failure, which names the summary
    generation and carries the message of the exception, and no embedding
    is added; the embedding model is not asked, so the outcome is the same
    for every embedding model. *)
Theorem process_document_background_summary_failure
  (id : Z) (text : string) (w : world) (doc : Document) (e : exn) :
  fst (generate_summary sent_tokenize summarizer_load summarizer text true w) = Raise e ->
  documents (db w) !! id = Some doc ->
  d_id doc = id ->
  let w' := process_document_background sent_tokenize summarizer_load summarizer encode
              id text w in
  documents (db w') !! id
  = Some (updated doc (summary doc) (failure_status (summary_failed e)))
  /\ embeddings (db w') = embeddings (db w)
  /\ forall encode' : string -> outcome (list Q),
       process_document_background sent_tokenize summarizer_load summarizer encode'
         id text w = w'.
Proof.
  intros Hsum Hdoc Hid w'. subst w'. unfold process_document_background.
  pose proof (proj1 (generate_summary_frame sent_tokenize summarizer_load summarizer
                       text true w)) as Hdb.
  destruct (generate_summary sent_tokenize summarizer_load summarizer text true w)
    as [[s|e'] w1]; cbn [fst snd] in Hsum, Hdb; [discriminate|].
  injection Hsum as ->. rewrite Hdb, Hdoc. cbn. rewrite Hid, lookup_insert_eq.
  repeat split; reflexivity.
Qed.

End Task.


Lemma process_document_background_frame_witness :
  users (db (process_document_background one_sentence None echo_summarizer stored_encoder
               1 lease_text uploaded_world))
  = users (db uploaded_world)
  /\ next_id (db (process_document_background one_sentence None echo_summarizer
                    stored_encoder 1 lease_text uploaded_world))
     = next_id (db uploaded_world)
  /\ (forall k, k <> 1 ->
        documents (db (process_document_background one_sentence None echo_summarizer
                         stored_encoder 1 lease_text uploaded_world)) !! k
        = documents (db uploaded_world) !! k)
  /\ match documents (db uploaded_world) !! 1 with
     | None =>
         documents (db (process_document_background one_sentence None echo_summarizer
                          stored_encoder 1 lease_text uploaded_world)) !! 1 = None
     | Some doc =>
         exists s st,
           documents (db (process_document_background one_sentence None echo_summarizer
                            stored_encoder 1 lease_text uploaded_world)) !! 1
           = Some (updated doc s st)
     end
  /\ (embeddings (db (process_document_background one_sentence None echo_summarizer
                        stored_encoder 1 lease_text uploaded_world))
      = embeddings (db uploaded_world)
      \/ exists v, stored_encoder lease_text = Return v
                   /\ embeddings (db (process_document_background one_sentence None
                                        echo_summarizer stored_encoder 1 lease_text
                                        uploaded_world))
                      = embeddings (db uploaded_world)
                        ++ [{| document_id := 1; embedding := v; model_name := None |}]).
Proof.
  apply (process_document_background_frame one_sentence None echo_summarizer stored_encoder
           1 lease_text uploaded_world).
  intros doc Hdoc. rewrite uploaded_world_document in Hdoc. injection Hdoc as <-. reflexivity.
Defined.


Lemma process_document_background_missing_witness :
  db (process_document_background one_sentence None echo_summarizer stored_encoder
        7 lease_text empty_world)
  = db empty_world.
Proof.
  exact (process_document_background_missing one_sentence None echo_summarizer
           stored_encoder 7 lease_text empty_world eq_refl).
Defined.

Lemma process_document_background_summary_failure_witness :
  documents (db (process_document_background one_sentence (Some load_error) echo_summarizer
                   stored_encoder 1 lease_text uploaded_world)) !! 1
  = Some (updated uploaded_lease (summary uploaded_lease)
            (failure_status (summary_failed load_error)))
  /\ embeddings (db (process_document_background one_sentence (Some load_error)
                       echo_summarizer stored_encoder 1 lease_text uploaded_world))
     = embeddings (db uploaded_world)
  /\ forall encode' : string -> outcome (list Q),
       process_document_background one_sentence (Some load_error) echo_summarizer
         encode' 1 lease_text uploaded_world
       = process_document_background one_sentence (Some load_error) echo_summarizer
           stored_encoder 1 lease_text uploaded_world.
Proof.
  apply (process_document_background_summary_failure one_sentence (Some load_error)
           echo_summarizer stored_encoder 1 lease_text uploaded_world uploaded_lease
           load_error).
  - vm_compute. reflexivity.
  - exact uploaded_world_document.
  - reflexivity.
Defined.

(** ** The read endpoints *)

Lemma reads_only_refl (k : string) (w : world) : reads_only k w w.
Proof. unfold reads_only. auto. Qed.

Lemma reads_only_get_cache (k : string) (w : world) :
  reads_only k w (with_cache w (snd (get_cache k (cache w)))).
Proof.
  unfold reads_only. cbn. rewrite get_cache_server. auto.
Qed.

Lemma reads_only_set_cache (k : string) (v : pyvalue) (ttl : option Z) (w0 w : world) :
  reads_only k w0 w ->
  reads_only k w0 (with_cache w (snd (set_cache k v ttl (cache w)))).
Proof.
  intros (Hdb & Hcalls & Hf & Hk). unfold reads_only. cbn.
  rewrite set_cache_fault. repeat split; auto.
  intros key Hne. rewrite set_cache_other by congruence. apply Hk. exact Hne.
Qed.

Lemma lower_blank (s : string) : String.eqb (Py.lower s) "" = String.eqb s "".
Proof. destruct s; reflexivity. Qed.

Section Endpoints.

Variable encode : string -> outcome (list Q).
Variable cosine_distance : list Q -> list Q -> Q.

(** What a call of [search_on_miss] did, read off its result. *)
Lemma search_on_miss_inv (cache_key query : string) (w : world) :
  match encode query with
  | Raise e => search_on_miss encode cosine_distance cache_key query w = (Raise e, w)
  | Return [] =>
      search_on_miss encode cosine_distance cache_key query w
      = (Raise (http_error 500 "Failed to generate query embedding"), w)
  | Return _ =>
      exists (items : list (string * pyobj)) (ttl : option Z),
        0 < effective_ttl ttl
        /\ search_on_miss encode cosine_distance cache_key query w
           = match set_cache cache_key (ODict items) ttl (cache w) with
             | (Raise e, c) => (Raise e, with_cache w c)
             | (Return _, c) => (Return (ODict items), with_cache w c)
             end
  end.
Proof.
  unfold search_on_miss, generate_embedding.
  destruct (encode query) as [[|x v]|e]; try reflexivity.
  destruct (search_rows cosine_distance (db w) (x :: v)) as [|r rest].
  - eexists _, (Some 300). split; [reflexivity|]. reflexivity.
  - destruct (filtered_results (r :: rest)) as [|f fs].
    + eexists _, (Some 300). split; [reflexivity|]. reflexivity.
    + eexists _, None. split; [reflexivity|]. reflexivity.
Qed.

Lemma search_on_miss_reads_only (cache_key query : string) (w0 w : world) :
  reads_only cache_key w0 w ->
  reads_only cache_key w0 (snd (search_on_miss encode cosine_distance cache_key query w)).
Proof.
  intros Hw. pose proof (search_on_miss_inv cache_key query w) as H.
  destruct (encode query) as [[|x v]|e]; try (rewrite H; exact Hw).
  destruct H as (items & ttl & _ & ->).
  pose proof (reads_only_set_cache cache_key (ODict items) ttl w0 w Hw) as Hset.
  destruct (set_cache cache_key (ODict items) ttl (cache w)) as [[b|e] c]; exact Hset.
Qed.

(** X21. The two read endpoints [semantic_search] and [get_document] never
    write the Store and never call the summarizer; in the cache they write
    at most the entry of their own key; and the only exceptions they raise
    are of the class [HTTPException]. *)
Theorem read_endpoints_frame (current_user : User) (w : world) :
  (forall query,
     reads_only (search_cache_key query) w
       (snd (semantic_search encode cosine_distance query current_user w))
     /\ forall e,
          fst (semantic_search encode cosine_distance query current_user w) = Raise e ->
          exists code, cls e = HTTPException code)
  /\ (forall document_id,
        reads_only (document_cache_key document_id (user_id current_user)) w
          (snd (get_document document_id current_user w))
        /\ forall e,
             fst (get_document document_id current_user w) = Raise e ->
             exists code, cls e = HTTPException code).
Proof.
  split.
  - intros query. unfold semantic_search.
    generalize (search_cache_key query) as k. intros k.
    set (inner := if String.eqb (Py.strip query) "" then _ else _).
    assert (Hin : reads_only k w (snd inner)).
    { subst inner. destruct (String.eqb (Py.strip query) ""); [apply reads_only_refl|].
      pose proof (reads_only_get_cache k w) as Hg.
      destruct (get_cache k (cache w)) as [[v|e] c]; cbn [snd] in Hg; [|exact Hg].
      destruct v; try exact Hg. apply search_on_miss_reads_only. exact Hg. }
    destruct inner as [[r|e] w1]; cbn [snd] in Hin.
    + split; [exact Hin|]. discriminate.
    + destruct (isinstance e (HTTPException 0)) eqn:Hhttp; cbn [fst snd];
        (split; [exact Hin|]); intros e0 [= <-].
      * apply issubclass_http. exact Hhttp.
      * eexists. reflexivity.
  - intros document_id. unfold get_document.
    generalize (document_cache_key document_id (user_id current_user)) as k. intros k.
    set (inner := if document_id <=? 0 then _ else _).
    assert (Hin : reads_only k w (snd inner)).
    { subst inner. destruct (document_id <=? 0); [apply reads_only_refl|].
      pose proof (reads_only_get_cache k w) as Hg.
      destruct (get_cache k (cache w)) as [[v|e] c]; cbn [snd] in Hg; [|exact Hg].
      destruct v; try exact Hg.
      cbn [db with_cache].
      destruct (documents (db w) !! document_id) as [doc|]; [|exact Hg].
      destruct (negb (d_user_id doc =? user_id current_user)
                && negb (String.eqb (role current_user) "admin")); [exact Hg|].
      destruct (d_user_id doc =? user_id current_user);
        [|destruct (users (db w) !! d_user_id doc) as [owner|]; [|exact Hg]].
      all: cbn [cache with_cache];
        match goal with
        | |- context [set_cache ?k0 ?v ?t ?c0] =>
            pose proof (reads_only_set_cache k0 v t w (with_cache w c) Hg) as Hset;
            cbn [cache with_cache] in Hset;
            destruct (set_cache k0 v t c0) as [[b|e] c2]
        end; exact Hset. }
    destruct inner as [[r|e] w1]; cbn [snd] in Hin.
    + split; [exact Hin|]. discriminate.
    + destruct (isinstance e (HTTPException 0)) eqn:Hhttp;
        [|destruct (isinstance e SQLAlchemyError)]; cbn [fst snd];
        (split; [exact Hin|]); intros e0 [= <-].
      * apply issubclass_http. exact Hhttp.
      * eexists. reflexivity.
      * eexists. reflexivity.
Qed.

(** X22. [semantic_search] answers a blank query with status 400 without
    looking at the cache or at the model. On a cache miss, an empty
    embedding of the query gives status 500 with the detail of the empty
    embedding, and an exception of the embedding model that is no
    [HTTPException] gives status 500 with its message after
    ["Search failed: "]; in both cases nothing is stored in the cache. *)
Theorem semantic_search_errors (query : string) (current_user : User) (w : world) :
  (String.eqb (Py.strip query) "" = true ->
   semantic_search encode cosine_distance query current_user w
   = (Raise (http_error 400 "Query cannot be empty"), w))
  /\ (String.eqb (Py.strip query) "" = false ->
      fst (get_cache (search_cache_key query) (cache w)) = Return ONone ->
      (encode query = Return [] ->
       fst (semantic_search encode cosine_distance query current_user w)
       = Raise (http_error 500 "Failed to generate query embedding"))
      /\ (forall e,
            encode query = Raise e ->
            isinstance e (HTTPException 0) = false ->
            fst (semantic_search encode cosine_distance query current_user w)
            = Raise (http_error 500 ("Search failed: " ++ message e)))
      /\ (encode query = Return [] \/ (exists e, encode query = Raise e) ->
          server (cache (snd (semantic_search encode cosine_distance query current_user w)))
          = server (cache w))).
Proof.
  split.
  - intros Hblank. unfold semantic_search. rewrite Hblank. reflexivity.
  - intros Hblank Hmiss. unfold semantic_search. rewrite Hblank.
    revert Hmiss. generalize (search_cache_key query) as k. intros k Hmiss.
    pose proof (get_cache_server k (cache w)) as Hs.
    destruct (get_cache k (cache w)) as [[v|e] c]; cbn [fst snd] in Hmiss, Hs;
      [|discriminate].
    injection Hmiss as ->.
    pose proof (search_on_miss_inv k query (with_cache w c)) as Hinv.
    split; [|split].
    + intros Henc. rewrite Henc in Hinv. rewrite Hinv. reflexivity.
    + intros e Henc Hhttp. rewrite Henc in Hinv. rewrite Hinv, Hhttp. reflexivity.
    + intros [Henc | [e Henc]]; rewrite Henc in Hinv; rewrite Hinv.
      * cbn. exact Hs.
      * destruct (isinstance e (HTTPException 0)); cbn; exact Hs.
Qed.

(** A search that returned left its response in the cache, when the server
    answers. *)
Lemma semantic_search_cached
  (k query : string) (current_user : User) (w w1 : world) (r : pyobj) :
  k = search_cache_key query ->
  fault (server (cache w)) = None ->
  semantic_search encode cosine_distance query current_user w = (Return r, w1) ->
  String.eqb (Py.strip query) "" = false
  /\ r <> ONone
  /\ fault (server (cache w1)) = None
  /\ redis_client (cache w1) = true
  /\ cache_value k (server (cache w1)) = r.
Proof.
  intros Hk Hf. unfold semantic_search. rewrite <- Hk. clear Hk.
  destruct (String.eqb (Py.strip query) "").
  { destruct (isinstance _ _); discriminate. }
  rewrite (get_cache_available k (cache w) Hf).
  assert (Hhit : forall v, v <> ONone -> cache_value k (server (cache w)) = v ->
                           (Return v, with_cache w (connected (cache w))) = (Return r, w1) ->
                           false = false /\ r <> ONone /\ fault (server (cache w1)) = None
                           /\ redis_client (cache w1) = true
                           /\ cache_value k (server (cache w1)) = r).
  { intros v Hv Hval [= <- <-]. cbn. auto. }
  destruct (cache_value k (server (cache w))) as [|z|q|s|l|items] eqn:Hval;
    try (intros Hrun; eapply Hhit; [|reflexivity|exact Hrun]; discriminate).
  pose proof (search_on_miss_inv k query (with_cache w (connected (cache w)))) as Hinv.
  destruct (encode query) as [[|x v]|e].
  - rewrite Hinv. discriminate.
  - destruct Hinv as (items & ttl & Httl & ->). cbn [cache with_cache].
    rewrite (set_cache_stores k (ODict items) ttl (connected (cache w)) Hf Httl).
    intros [= <- <-]. cbn. unfold cache_value. cbn. rewrite lookup_insert_eq.
    repeat split; auto; discriminate.
  - rewrite Hinv. destruct (isinstance e (HTTPException 0)); discriminate.
Qed.

(** A search whose key is in the cache returns the entry. *)
Lemma semantic_search_hit
  (k query : string) (current_user : User) (w : world) (r : pyobj) :
  k = search_cache_key query ->
  String.eqb (Py.strip query) "" = false ->
  fault (server (cache w)) = None ->
  redis_client (cache w) = true ->
  cache_value k (server (cache w)) = r ->
  r <> ONone ->
  semantic_search encode cosine_distance query current_user w = (Return r, w).
Proof.
  intros Hk Hblank Hf Hclient Hval Hr. unfold semantic_search. rewrite <- Hk, Hblank.
  rewrite (get_cache_available k (cache w) Hf), Hval.
  assert (Hw : with_cache w (connected (cache w)) = w).
  { destruct w as [[client s] d calls]. cbn in Hclient. subst client. reflexivity. }
  rewrite Hw. destruct r; try reflexivity. congruence.
Qed.

End Endpoints.

(** X23. With the cache server answering, a search that returned is
    repeated from the cache: the same query, or one that differs from it
    in case or in blanks around it, by any user, returns the same response
    whatever the Store holds by then and whatever the embedding model does,
    and changes nothing. *)
Theorem semantic_search_second_call
  (encode encode' : string -> outcome (list Q))
  (cosine_distance cosine_distance' : list Q -> list Q -> Q)
  (query query' : string) (current_user current_user' : User)
  (w w1 : world) (r : pyobj) (d' : database) :
  fault (server (cache w)) = None ->
  semantic_search encode cosine_distance query current_user w = (Return r, w1) ->
  Py.lower (Py.strip query') = Py.lower (Py.strip query) ->
  semantic_search encode' cosine_distance' query' current_user' (with_db w1 d')
  = (Return r, with_db w1 d').
Proof.
  intros Hf Hrun Hlow.
  destruct (semantic_search_cached encode cosine_distance (search_cache_key query) query
              current_user w w1 r eq_refl Hf Hrun) as (Hblank & Hr & Hf1 & Hclient & Hval).
  apply (semantic_search_hit encode' cosine_distance' (search_cache_key query) query').
  - exact (f_equal (fun s => generate_cache_key "search" [] [("query", PyStr s)])
             (eq_sym Hlow)).
  - rewrite <- lower_blank, Hlow, lower_blank. exact Hblank.
  - exact Hf1.
  - exact Hclient.
  - exact Hval.
  - exact Hr.
Qed.

Lemma semantic_search_second_call_witness :
  semantic_search model_unavailable unit_distance " RENEWAL " bob
    (with_db (snd (semantic_search (fun _ => Return query_vector) unit_distance "renewal" ann
                     search_world))
       (db empty_world))
  = (Return floor_response,
     with_db (snd (semantic_search (fun _ => Return query_vector) unit_distance "renewal" ann
                     search_world))
       (db empty_world)).
Proof.
  destruct (semantic_search (fun _ => Return query_vector) unit_distance "renewal" ann search_world)
    as [o w1] eqn:Hrun.
  assert (Ho : o = Return floor_response).
  { apply (f_equal fst) in Hrun. simpl in Hrun. rewrite <- Hrun. vm_compute. reflexivity. }
  subst o. cbn [snd].
  exact (semantic_search_second_call (fun _ => Return query_vector) model_unavailable
           unit_distance unit_distance "renewal" " RENEWAL " ann bob search_world w1
           floor_response (db empty_world) eq_refl Hrun eq_refl).
Defined.

(** ** Where the results of a search come from *)

Lemma order_by_distance_In (x : row) (l : list row) :
  In x (order_by_distance l) -> In x l.
Proof.
  induction l as [|r l IH]; [intros []|].
  cbn [order_by_distance fold_right]. intros H.
  apply insert_row_In in H as [-> | H]; [left; reflexivity|right; apply IH; exact H].
Qed.

Lemma joined_In (cosine_distance : list Q -> list Q -> Q) (d : database)
  (query_vector : list Q) (r : row) :
  In r (joined cosine_distance d query_vector) ->
  exists e doc u,
    In e (embeddings d)
    /\ documents d !! document_id e = Some doc
    /\ users d !! d_user_id doc = Some u
    /\ r = joined_row cosine_distance query_vector e doc u.
Proof.
  unfold joined. intros H.
  apply list_elem_of_In, list_elem_of_omap in H as (e & He & Hrow).
  apply list_elem_of_In in He.
  destruct (documents d !! document_id e) as [doc|] eqn:Hdoc; [|discriminate].
  destruct (users d !! d_user_id doc) as [u|] eqn:Hu; [|discriminate].
  injection Hrow as <-. exists e, doc, u. auto.
Qed.

(** X24. Every result of a search that was computed, not read from the
    cache, is the row of an embedding of the Store, of the document the
    embedding belongs to and of that document's owner, whoever the owner
    is, with a similarity to the query above 0.2: a document without an
    embedding is not found, and the results are not limited to the
    documents of the caller. *)
Theorem semantic_search_sources
  (encode : string -> outcome (list Q)) (cosine_distance : list Q -> list Q -> Q)
  (query : string) (current_user : User) (w w' : world) (response : pyobj) :
  semantic_search encode cosine_distance query current_user w = (Return response, w') ->
  fst (get_cache (search_cache_key query) (cache w)) = Return ONone ->
  exists query_vector,
    encode query = Return query_vector
    /\ Forall (fun entry =>
                 exists e doc u,
                   In e (embeddings (db w))
                   /\ documents (db w) !! document_id e = Some doc
                   /\ users (db w) !! d_user_id doc = Some u
                   /\ (2 # 10 < 1 - cosine_distance (embedding e) query_vector)%Q
                   /\ entry = format_row (joined_row cosine_distance query_vector e doc u))
         (results_of response).
Proof.
  unfold semantic_search. generalize (search_cache_key query) as k. intros k H Hmiss.
  destruct (String.eqb (Py.strip query) "").
  { destruct (isinstance _ _); discriminate. }
  destruct (get_cache k (cache w)) as [[cached|e] c]; simpl in Hmiss; [|discriminate].
  injection Hmiss as ->.
  destruct (search_on_miss encode cosine_distance k query (with_cache w c))
    as [[r|e] w1] eqn:Hs.
  2: { destruct (isinstance e (HTTPException 0)); discriminate. }
  injection H as <- <-.
  apply search_on_miss_results in Hs as (qv & Henc & Hres).
  exists qv. split; [exact Henc|].
  rewrite Hres. apply List.Forall_forall. intros entry Hentry.
  apply in_map_iff in Hentry as (r0 & <- & Hr0).
  unfold relevant_rows in Hr0. apply filter_In in Hr0 as [Hr0 Hrel].
  unfold search_rows in Hr0.
  apply In_firstn, order_by_distance_In, joined_In in Hr0 as (e & doc & u & He & Hd & Hu & ->).
  exists e, doc, u. repeat split; auto.
  unfold relevant, r_similarity in Hrel. cbn [r_distance joined_row] in Hrel.
  apply negb_true_iff in Hrel.
  destruct (Qlt_le_dec (2 # 10) (1 - cosine_distance (embedding e) qv)) as [Hlt|Hle];
    [exact Hlt|].
  apply Qle_bool_iff in Hle. simpl db in Hle. congruence.
Qed.

Lemma semantic_search_sources_witness :
  exists qv,
    (fun _ : string => Return query_vector) "renewal" = Return qv
    /\ Forall (fun entry =>
                 exists e doc u,
                   In e (embeddings (db search_world))
                   /\ documents (db search_world) !! document_id e = Some doc
                   /\ users (db search_world) !! d_user_id doc = Some u
                   /\ (2 # 10 < 1 - unit_distance (embedding e) qv)%Q
                   /\ entry = format_row (joined_row unit_distance qv e doc u))
         (results_of floor_response).
Proof.
  destruct (semantic_search (fun _ => Return query_vector) unit_distance "renewal" ann search_world)
    as [o w'] eqn:Hrun.
  assert (Ho : o = Return floor_response).
  { apply (f_equal fst) in Hrun. simpl in Hrun. rewrite <- Hrun. vm_compute. reflexivity. }
  subst o.
  assert (Hmiss : fst (get_cache (search_cache_key "renewal") (cache search_world)) = Return ONone)
    by (vm_compute; reflexivity).
  exact (semantic_search_sources (fun _ => Return query_vector) unit_distance
           "renewal" ann search_world w' floor_response Hrun Hmiss).
Defined.

(** ** Access to a document *)

(** X25. On a cache miss [get_document] checks the caller: a document that
    is not in the Store gives status 404, and a document of another user
    gives status 403 to a caller who is no administrator; an id that is
    not positive gives status 400 before the cache is looked at. In these
    cases nothing is stored in the cache. With a cache that raises at most
    Redis errors, the owner and an administrator get neither 403 nor 404:
    the call returns or has status 500. *)
Theorem get_document_access (document_id : Z) (current_user : User) (w : world) :
  (document_id <= 0 ->
   get_document document_id current_user w
   = (Raise (http_error 400 "Invalid document ID. Must be a positive integer."), w))
  /\ (0 < document_id ->
      fst (get_cache (document_cache_key document_id (user_id current_user)) (cache w))
      = Return ONone ->
      match documents (db w) !! document_id with
      | None =>
          fst (get_document document_id current_user w)
          = Raise (http_error 404
                     ("Document with ID " ++ Py.str_int document_id ++ " not found."))
          /\ server (cache (snd (get_document document_id current_user w)))
             = server (cache w)
      | Some doc =>
          (d_user_id doc <> user_id current_user ->
           role current_user <> "admin" ->
           fst (get_document document_id current_user w)
           = Raise (http_error 403 "You are not authorized to access this document.")
           /\ server (cache (snd (get_document document_id current_user w)))
              = server (cache w))
          /\ (d_user_id doc = user_id current_user \/ role current_user = "admin" ->
              cache_quiet (cache w) ->
              forall e,
                fst (get_document document_id current_user w) = Raise e ->
                cls e = HTTPException 500)
      end).
Proof.
  split.
  - intros Hid. unfold get_document.
    assert (Hle : (document_id <=? 0) = true) by lia. rewrite Hle. reflexivity.
  - intros Hid. unfold get_document.
    assert (Hle : (document_id <=? 0) = false) by lia. rewrite Hle.
    generalize (document_cache_key document_id (user_id current_user)) as k.
    intros k Hmiss.
    pose proof (get_cache_server k (cache w)) as Hs.
    pose proof (get_cache_quiet k (cache w)) as Hq.
    destruct (get_cache k (cache w)) as [[v|e] c]; cbn [fst snd] in Hmiss, Hs, Hq;
      [|discriminate].
    injection Hmiss as ->. cbn [db with_cache cache].
    destruct (documents (db w) !! document_id) as [doc|]; [|split; [reflexivity|exact Hs]].
    split.
    + intros Howner Hrole.
      assert (H1 : (d_user_id doc =? user_id current_user) = false) by lia.
      assert (H2 : String.eqb (role current_user) "admin" = false)
        by (apply String.eqb_neq; exact Hrole).
      rewrite H1, H2. split; [reflexivity|exact Hs].
    + intros Hallowed Hquiet e.
      assert (Hgate : negb (d_user_id doc =? user_id current_user)
                      && negb (String.eqb (role current_user) "admin") = false).
      { destruct Hallowed as [Ho | Ha].
        - apply Z.eqb_eq in Ho. rewrite Ho. reflexivity.
        - apply String.eqb_eq in Ha. rewrite Ha. apply andb_false_r. }
      rewrite Hgate.
      destruct (d_user_id doc =? user_id current_user);
        [|destruct (users (db w) !! d_user_id doc) as [owner|]].
      3: { cbn. intros [= <-]. reflexivity. }
      all: match goal with
           | |- context [set_cache ?k0 (Tree ?v) ?t ?c0] =>
               destruct (set_cache_returns k0 v t c0 (Hq Hquiet)) as (b & c2 & -> & _)
           end; discriminate.
Qed.

(** A view that returned left its response in the cache, when the server
    answers. *)
Lemma get_document_cached
  (k : string) (document_id : Z) (current_user : User) (w w1 : world) (r : pyobj) :
  k = document_cache_key document_id (user_id current_user) ->
  fault (server (cache w)) = None ->
  get_document document_id current_user w = (Return r, w1) ->
  0 < document_id
  /\ r <> ONone
  /\ fault (server (cache w1)) = None
  /\ redis_client (cache w1) = true
  /\ cache_value k (server (cache w1)) = r.
Proof.
  intros Hk Hf. unfold get_document. rewrite <- Hk. clear Hk.
  destruct (document_id <=? 0) eqn:Hid.
  { destruct (isinstance _ _); discriminate. }
  apply Z.leb_gt in Hid.
  rewrite (get_cache_available k (cache w) Hf).
  assert (Hhit : forall v, v <> ONone -> cache_value k (server (cache w)) = v ->
                           (Return v, with_cache w (connected (cache w))) = (Return r, w1) ->
                           0 < document_id /\ r <> ONone /\ fault (server (cache w1)) = None
                           /\ redis_client (cache w1) = true
                           /\ cache_value k (server (cache w1)) = r).
  { intros v Hv Hval [= <- <-]. cbn. auto. }
  destruct (cache_value k (server (cache w))) as [|z|q|s|l|items] eqn:Hval;
    try (intros Hrun; eapply Hhit; [|reflexivity|exact Hrun]; discriminate).
  cbn [db with_cache cache].
  destruct (documents (db w) !! document_id) as [doc|];
    [|destruct (isinstance _ _); discriminate].
  destruct (negb (d_user_id doc =? user_id current_user)
            && negb (String.eqb (role current_user) "admin"));
    [destruct (isinstance _ _); discriminate|].
  destruct (d_user_id doc =? user_id current_user);
    [|destruct (users (db w) !! d_user_id doc) as [owner|];
      [|destruct (isinstance _ _); discriminate]].
  all: match goal with
       | |- context [set_cache ?k0 (Tree ?v) ?t ?c0] =>
           rewrite (set_cache_stores k0 v t c0 Hf eq_refl)
       end;
    intros [= <- <-]; cbn; unfold cache_value; cbn; rewrite lookup_insert_eq;
    repeat split; auto; discriminate.
Qed.

(** A view whose key is in the cache returns the entry. *)
Lemma get_document_hit
  (k : string) (document_id : Z) (current_user : User) (w : world) (r : pyobj) :
  k = document_cache_key document_id (user_id current_user) ->
  0 < document_id ->
  fault (server (cache w)) = None ->
  redis_client (cache w) = true ->
  cache_value k (server (cache w)) = r ->
  r <> ONone ->
  get_document document_id current_user w = (Return r, w).
Proof.
  intros Hk Hid Hf Hclient Hval Hr. unfold get_document. rewrite <- Hk.
  assert (Hle : (document_id <=? 0) = false) by lia. rewrite Hle.
  rewrite (get_cache_available k (cache w) Hf), Hval.
  assert (Hw : with_cache w (connected (cache w)) = w).
  { destruct w as [[client s] d calls]. cbn in Hclient. subst client. reflexivity. }
  rewrite Hw. destruct r; try reflexivity. congruence.
Qed.

(** X26. With the cache server answering, a view of a document that
    returned is repeated from the cache: the same caller gets the same
    response whatever the Store holds by then, be the document changed,
    deleted or the caller no administrator any more, and nothing changes. *)
Theorem get_document_second_call
  (document_id : Z) (current_user current_user' : User)
  (w w1 : world) (r : pyobj) (d' : database) :
  fault (server (cache w)) = None ->
  get_document document_id current_user w = (Return r, w1) ->
  user_id current_user' = user_id current_user ->
  get_document document_id current_user' (with_db w1 d') = (Return r, with_db w1 d').
Proof.
  intros Hf Hrun Hu.
  destruct (get_document_cached (document_cache_key document_id (user_id current_user))
              document_id current_user w w1 r eq_refl Hf Hrun)
    as (Hid & Hr & Hf1 & Hclient & Hval).
  apply (get_document_hit (document_cache_key document_id (user_id current_user))).
  - exact (f_equal (document_cache_key document_id) (eq_sym Hu)).
  - exact Hid.
  - exact Hf1.
  - exact Hclient.
  - exact Hval.
  - exact Hr.
Qed.

Lemma get_document_second_call_witness :
  get_document 1 ann (with_db (snd (get_document 1 ann search_world)) (db empty_world))
  = (Return lease_view,
     with_db (snd (get_document 1 ann search_world)) (db empty_world)).
Proof.
  destruct (get_document 1 ann search_world) as [o w1] eqn:Hrun.
  assert (Ho : o = Return lease_view).
  { apply (f_equal fst) in Hrun. simpl in Hrun. rewrite <- Hrun. vm_compute. reflexivity. }
  subst o. cbn [snd].
  exact (get_document_second_call 1 ann ann search_world w1 lease_view
           (db empty_world) eq_refl Hrun eq_refl).
Defined.

(** ** The invariant of the Store *)

(** X27. The endpoints keep the invariant of the [documents] table: if
    every row is stored under its own id and below the next id of the
    sequence, the same holds after an upload and after a background task,
    whatever their outcome; and the id an upload takes was free, so an
    upload never overwrites a document. *)
Theorem store_invariant
  (extract_text : string -> list Z -> outcome string)
  (sent_tokenize : string -> list string) (summarizer_load : option exn)
  (summarizer : string -> Z -> Z -> outcome string) (encode : string -> outcome (list Q))
  (file : UploadFile) (current_user : User) (id : Z) (text : string) (w : world) :
  store_wf (db w) ->
  store_wf (db (snd (upload_document extract_text file current_user w)))
  /\ store_wf (db (process_document_background sent_tokenize summarizer_load summarizer
                     encode id text w))
  /\ forall response id' text' w',
       upload_document extract_text file current_user w = (Return (response, (id', text')), w') ->
       documents (db w) !! id' = None.
Proof.
  intros Hwf. split; [|split].
  - pose proof (upload_document_inv extract_text file current_user w) as H. cbv zeta in H.
    destruct (upload_document extract_text file current_user w)
      as [[[response [id' text']]|e] w']; cbn [snd].
    + destruct H as (_ & _ & _ & -> & ->).
      cbn [db with_db snd insert_document documents next_id]. intros k doc Hdoc.
      cbn [db with_db snd insert_document documents next_id] in Hdoc.
      destruct (decide (k = next_id (db w))) as [->|Hne].
      * rewrite lookup_insert_eq in Hdoc. injection Hdoc as <-.
        cbn [d_id db with_db snd insert_document next_id]. split; [reflexivity|lia].
      * rewrite lookup_insert_ne in Hdoc by congruence.
        destruct (Hwf k doc Hdoc) as [Hk Hlt].
        cbn [d_id db with_db snd insert_document next_id]. split; [exact Hk|lia].
    + destruct H as [-> _]. exact Hwf.
  - assert (Hid : forall doc, documents (db w) !! id = Some doc -> d_id doc = id)
      by (intros doc Hdoc; apply (Hwf id doc Hdoc)).
    destruct (process_document_background_writes sent_tokenize summarizer_load summarizer
                encode id text w Hid) as (_ & Hn & _ & Hk & Hrow & _).
    intros k doc' Hdoc'. rewrite Hn.
    destruct (decide (k = id)) as [->|Hne].
    + destruct (documents (db w) !! id) as [doc|] eqn:Hdoc; [|congruence].
      destruct Hrow as (s & st & Hrow). rewrite Hrow in Hdoc'. injection Hdoc' as <-.
      cbn. exact (Hwf id doc Hdoc).
    + rewrite Hk in Hdoc' by exact Hne. exact (Hwf k doc' Hdoc').
  - intros response id' text' w' Hup.
    pose proof (upload_document_inv extract_text file current_user w) as H. cbv zeta in H.
    rewrite Hup in H. destruct H as (_ & _ & _ & -> & _).
    destruct (documents (db w) !! next_id (db w)) as [doc|] eqn:Hdoc; [|reflexivity].
    destruct (Hwf _ doc Hdoc). lia.
Qed.

Lemma store_invariant_witness :
  store_wf (db (snd (upload_document decode_ascii lease_file ann empty_world)))
  /\ store_wf (db (process_document_background one_sentence None echo_summarizer
                     stored_encoder 1 lease_text empty_world))
  /\ forall response id' text' w',
       upload_document decode_ascii lease_file ann empty_world
       = (Return (response, (id', text')), w') ->
       documents (db empty_world) !! id' = None.
Proof.
  apply (store_invariant decode_ascii one_sentence None echo_summarizer stored_encoder
           lease_file ann 1 lease_text empty_world).
  intros k doc Hdoc. cbn in Hdoc. rewrite lookup_empty in Hdoc. discriminate Hdoc.
Defined.

(** ** A small Store is searched completely *)

Lemma insert_row_In_rev (r x : row) (l : list row) :
  x = r \/ In x l -> In x (insert_row r l).
Proof.
  induction l as [|y l IH]; cbn [insert_row].
  - intros [-> | []]. left. reflexivity.
  - destruct (Qle_bool (r_distance r) (r_distance y)).
    + intros [-> | H]; [left; reflexivity|right; exact H].
    + intros [-> | [-> | H]].
      * right. apply IH. left. reflexivity.
      * left. reflexivity.
      * right. apply IH. right. exact H.
Qed.

Lemma order_by_distance_In_rev (x : row) (l : list row) :
  In x l -> In x (order_by_distance l).
Proof.
  induction l as [|r l IH]; [intros []|].
  cbn [order_by_distance fold_right]. intros [<- | H]; apply insert_row_In_rev.
  - left. reflexivity.
  - right. apply IH. exact H.
Qed.

Lemma insert_row_length (r : row) (l : list row) :
  List.length (insert_row r l) = S (List.length l).
Proof.
  induction l as [|y l IH]; [reflexivity|]. cbn [insert_row].
  destruct (Qle_bool (r_distance r) (r_distance y)); cbn [List.length]; [|rewrite IH];
    reflexivity.
Qed.

Lemma order_by_distance_length (l : list row) :
  List.length (order_by_distance l) = List.length l.
Proof.
  induction l as [|r l IH]; [reflexivity|].
  cbn [order_by_distance fold_right]. rewrite insert_row_length. cbn [List.length].
  f_equal. exact IH.
Qed.

Lemma omap_length_le {A B : Type} (f : A -> option B) (l : list A) :
  (List.length (omap f l) <= List.length l)%nat.
Proof.
  induction l as [|a l IH]; [reflexivity|]. cbn. destruct (f a); cbn; lia.
Qed.

(** X28. While the Store holds at most ten embeddings, the limit of ten
    rows cuts nothing: a search computed on a cache miss returns every
    embedded document whose owner exists and whose similarity to the query
    is above 0.2. *)
Theorem semantic_search_complete
  (encode : string -> outcome (list Q)) (cosine_distance : list Q -> list Q -> Q)
  (query : string) (current_user : User) (w w' : world) (response : pyobj)
  (query_vector : list Q) (e : Embedding) (doc : Document) (u : User) :
  semantic_search encode cosine_distance query current_user w = (Return response, w') ->
  fst (get_cache (search_cache_key query) (cache w)) = Return ONone ->
  encode query = Return query_vector ->
  (List.length (embeddings (db w)) <= 10)%nat ->
  In e (embeddings (db w)) ->
  documents (db w) !! document_id e = Some doc ->
  users (db w) !! d_user_id doc = Some u ->
  (2 # 10 < 1 - cosine_distance (embedding e) query_vector)%Q ->
  In (format_row (joined_row cosine_distance query_vector e doc u)) (results_of response).
Proof.
  unfold semantic_search. generalize (search_cache_key query) as k.
  intros k H Hmiss Henc Hlen He Hdoc Hu Hsim.
  destruct (String.eqb (Py.strip query) "").
  { destruct (isinstance _ _); discriminate. }
  destruct (get_cache k (cache w)) as [[cached|e0] c]; simpl in Hmiss; [|discriminate].
  injection Hmiss as ->.
  destruct (search_on_miss encode cosine_distance k query (with_cache w c))
    as [[r|e0] w1] eqn:Hs.
  2: { destruct (isinstance e0 (HTTPException 0)); discriminate. }
  injection H as <- <-.
  apply search_on_miss_results in Hs as (qv & Henc' & Hres).
  rewrite Henc in Henc'. injection Henc' as <-.
  rewrite Hres. apply in_map. unfold relevant_rows. apply filter_In. split.
  - unfold search_rows. simpl db.
    rewrite firstn_all2.
    2: { rewrite order_by_distance_length. unfold joined.
         etransitivity; [apply omap_length_le|exact Hlen]. }
    apply order_by_distance_In_rev. unfold joined.
    apply list_elem_of_In, list_elem_of_omap. exists e. split; [apply list_elem_of_In; exact He|].
    rewrite Hdoc, Hu. reflexivity.
  - unfold relevant, r_similarity. cbn [r_distance joined_row].
    apply negb_true_iff.
    destruct (Qle_bool (1 - cosine_distance (embedding e) query_vector) (2 # 10)) eqn:Hle;
      [|reflexivity].
    apply Qle_bool_iff in Hle. exfalso. apply (Qlt_not_le _ _ Hsim). exact Hle.
Qed.

Lemma semantic_search_complete_witness :
  In (format_row (joined_row unit_distance query_vector
                    {| document_id := 1; embedding := stored_vector; model_name := None |}
                    lease ann))
     (results_of floor_response).
Proof.
  destruct (semantic_search (fun _ => Return query_vector) unit_distance "renewal" ann search_world)
    as [o w'] eqn:Hrun.
  assert (Ho : o = Return floor_response).
  { apply (f_equal fst) in Hrun. simpl in Hrun. rewrite <- Hrun. vm_compute. reflexivity. }
  subst o.
  apply (semantic_search_complete (fun _ => Return query_vector) unit_distance
           "renewal" ann search_world w' floor_response query_vector
           {| document_id := 1; embedding := stored_vector; model_name := None |} lease ann
           Hrun).
  - vm_compute. reflexivity.
  - reflexivity.
  - cbn. lia.
  - left. reflexivity.
  - reflexivity.
  - reflexivity.
  - vm_compute. reflexivity.
Defined.

(** * The outcome of a failed embedding step (C1) *)






Section EmbeddingStep.

Variable sent_tokenize : string -> list string.
Variable summarizer_load : option exn.
Variable summarizer : string -> Z -> Z -> outcome string.
Variable encode : string -> outcome (list Q).

(** The summarisation model does not answer a text with the empty text. *)
Hypothesis summarizer_nonempty :
  forall t max_length min_length out,
    t <> "" -> summarizer t max_length min_length = Return out -> out <> "".





End EmbeddingStep.


(** * The keys of the endpoints (C9, C10) *)

(** ** What a read and a write of one key depend on *)

Lemma same_at_refl (k : string) (c : cache_state) : same_at k c c.
Proof. unfold same_at. auto. Qed.

Lemma same_at_trans (k : string) (c1 c2 c3 : cache_state) :
  same_at k c1 c2 -> same_at k c2 c3 -> same_at k c1 c3.
Proof. unfold same_at. intros (? & ? & ?) (? & ? & ?). repeat split; congruence. Qed.

Lemma same_at_sym (k : string) (c1 c2 : cache_state) : same_at k c1 c2 -> same_at k c2 c1.
Proof. unfold same_at. intros (? & ? & ?). auto. Qed.

Lemma get_cache_same_at (k : string) (c c' : cache_state) :
  same_at k c c' -> fst (get_cache k c) = fst (get_cache k c').
Proof.
  destruct c as [cl [f en]], c' as [cl' [f' en']]. unfold same_at, client_after.
  cbn [redis_client server fault entries]. intros (Hc & -> & He).
  unfold get_cache, get_redis_client, client_get. cbn [redis_client server fault entries].
  destruct cl, cl', f' as [e|]; cbn in Hc |- *; try discriminate Hc;
    try reflexivity; rewrite ?He;
    repeat match goal with
           | |- context [match ?x with _ => _ end] => destruct x; cbn
           end; reflexivity.
Qed.

Lemma set_cache_same_at (k : string) (v : pyvalue) (ttl : option Z) (c c' : cache_state) :
  client_after c = client_after c' ->
  fault (server c) = fault (server c') ->
  fst (set_cache k v ttl c) = fst (set_cache k v ttl c').
Proof.
  destruct c as [cl [f en]], c' as [cl' [f' en']]. unfold client_after.
  cbn [redis_client server fault entries]. intros Hc ->.
  unfold set_cache, get_redis_client, client_setex. cbn [redis_client server fault entries].
  destruct cl, cl', f' as [e|]; cbn in Hc |- *; try discriminate Hc;
    destruct (json_dumps v) as [json_value|e0]; cbn;
    repeat match goal with
           | |- context [if ?b then _ else _] => destruct b; cbn
           end; reflexivity.
Qed.

Lemma same_at_get_cache (k k' : string) (c : cache_state) :
  same_at k' c (snd (get_cache k c)).
Proof.
  destruct c as [cl [f en]]. unfold same_at, client_after, get_cache, get_redis_client,
    client_get. cbn [redis_client server fault entries].
  destruct cl, f as [e|]; cbn;
    repeat match goal with
           | |- context [match ?x with _ => _ end] => destruct x; cbn
           end; auto.
Qed.

Lemma same_at_set_cache (k k' : string) (v : pyvalue) (ttl : option Z) (c : cache_state) :
  k <> k' -> same_at k' c (snd (set_cache k v ttl c)).
Proof.
  intros Hne. unfold same_at. rewrite set_cache_fault, set_cache_other by exact Hne.
  split; [|auto].
  destruct c as [cl [f en]]. unfold client_after, set_cache, get_redis_client, client_setex.
  cbn [redis_client server fault entries].
  destruct cl, f as [e|]; cbn; destruct (json_dumps v) as [json_value|e0]; cbn;
    repeat match goal with
           | |- context [if ?b then _ else _] => destruct b; cbn
           end; reflexivity.
Qed.

(** ** The view of a document reads the entry of the caller's key *)

(** The result of [get_document] depends on the cache only through the
    entry of the key made of the document id and of the caller's id. *)
Lemma get_document_same_at (document_id : Z) (current_user : User) (w w' : world) :
  db w' = db w ->
  same_at (document_cache_key document_id (user_id current_user)) (cache w) (cache w') ->
  fst (get_document document_id current_user w')
  = fst (get_document document_id current_user w).
Proof.
  unfold get_document.
  generalize (document_cache_key document_id (user_id current_user)) as k.
  intros k Hdb Hsame.
  destruct (document_id <=? 0); [reflexivity|].
  pose proof (get_cache_same_at k (cache w) (cache w') Hsame) as Hget.
  pose proof (same_at_get_cache k k (cache w)) as H1.
  pose proof (same_at_get_cache k k (cache w')) as H2.
  destruct (get_cache k (cache w)) as [o c1], (get_cache k (cache w')) as [o' c1'].
  cbn [fst snd] in Hget, H1, H2. subst o'.
  assert (Hc : same_at k c1 c1').
  { eapply same_at_trans; [apply same_at_sym; exact H1|].
    eapply same_at_trans; [exact Hsame|exact H2]. }
  destruct o as [v|e]; [|cbn; repeat (destruct (isinstance _ _)); reflexivity].
  destruct v; try reflexivity.
  cbn [db with_cache cache]. rewrite Hdb.
  destruct (documents (db w) !! document_id) as [doc|]; [|reflexivity].
  destruct (negb (d_user_id doc =? user_id current_user)
            && negb (String.eqb (role current_user) "admin")); [reflexivity|].
  destruct (d_user_id doc =? user_id current_user);
    [|destruct (users (db w) !! d_user_id doc) as [owner|]; [|reflexivity]];
    (match goal with
     | |- context [set_cache ?k0 ?v ?t c1] =>
         pose proof (set_cache_same_at k0 v t c1 c1' (proj1 Hc) (proj1 (proj2 Hc))) as Hset;
         destruct (set_cache k0 v t c1) as [[b|e] c2],
                  (set_cache k0 v t c1') as [[b'|e'] c2']
     end; cbn [fst] in Hset; try discriminate Hset;
     [reflexivity|injection Hset as <-; cbn; repeat (destruct (isinstance _ _)); reflexivity]).
Qed.

(** A view of a document leaves what a read or a write of another key
    depends on. *)
Lemma get_document_leaves (document_id : Z) (current_user : User) (w : world) (k' : string) :
  document_cache_key document_id (user_id current_user) <> k' ->
  db (snd (get_document document_id current_user w)) = db w
  /\ same_at k' (cache w) (cache (snd (get_document document_id current_user w))).
Proof.
  unfold get_document.
  generalize (document_cache_key document_id (user_id current_user)) as k.
  intros k Hne.
  set (inner := if document_id <=? 0 then _ else _).
  assert (Hin : db (snd inner) = db w /\ same_at k' (cache w) (cache (snd inner))).
  { subst inner. destruct (document_id <=? 0); [split; [reflexivity|apply same_at_refl]|].
    pose proof (same_at_get_cache k k' (cache w)) as Hg.
    destruct (get_cache k (cache w)) as [[v|e] c]; cbn [snd] in Hg;
      [|split; [reflexivity|exact Hg]].
    destruct v; try (split; [reflexivity|exact Hg]).
    cbn [db with_cache cache].
    destruct (documents (db w) !! document_id) as [doc|]; [|split; [reflexivity|exact Hg]].
    destruct (negb (d_user_id doc =? user_id current_user)
              && negb (String.eqb (role current_user) "admin"));
      [split; [reflexivity|exact Hg]|].
    destruct (d_user_id doc =? user_id current_user);
      [|destruct (users (db w) !! d_user_id doc) as [owner|];
        [|split; [reflexivity|exact Hg]]];
      (match goal with
       | |- context [set_cache ?k0 ?v ?t c] =>
           pose proof (same_at_set_cache k0 k' v t c Hne) as Hset;
           destruct (set_cache k0 v t c) as [[b|e] c2]
       end; cbn [snd] in Hset;
       (split; [reflexivity|exact (same_at_trans _ _ _ _ Hg Hset)])). }
  destruct inner as [[r|e] w1]; cbn [snd] in Hin |- *; [exact Hin|].
  repeat (destruct (isinstance _ _)); exact Hin.
Qed.

(** C9. The key of a document view is [document:] followed by the MD5 digest
    of a text that contains the document id and the id of the requesting
    user, and it is the entry of this key, and no other, that the view of
    a caller depends on. For two different users and one document the texts
    differ; so, unless the two texts collide under MD5, the keys differ, a
    view by the first user leaves the entry that the second user reads as
    it was, and what the second user is served after a view by the first is
    what she is served without it: what was cached for the first user is
    not served to the second. *)
Theorem document_cache_key_per_user (d : Z) (user1 user2 : User) :
  user_id user1 <> user_id user2 ->
  let text1 := key_string "document" []
                 [("document_id", PyInt d); ("user_id", PyInt (user_id user1))] in
  let text2 := key_string "document" []
                 [("document_id", PyInt d); ("user_id", PyInt (user_id user2))] in
  document_cache_key d (user_id user1) = ("document:" ++ MD5.hexdigest (Py.encode text1))%string
  /\ text1 <> text2
  /\ (forall w w',
        db w' = db w ->
        same_at (document_cache_key d (user_id user2)) (cache w) (cache w') ->
        fst (get_document d user2 w') = fst (get_document d user2 w))
  /\ (MD5.hexdigest (Py.encode text1) = MD5.hexdigest (Py.encode text2)
      \/ (document_cache_key d (user_id user1) <> document_cache_key d (user_id user2)
          /\ forall w,
               entries (server (cache (snd (get_document d user1 w))))
                 !! document_cache_key d (user_id user2)
               = entries (server (cache w)) !! document_cache_key d (user_id user2)
               /\ fst (get_document d user2 (snd (get_document d user1 w)))
                  = fst (get_document d user2 w))).
Proof.
  intros Hne text1 text2. split; [reflexivity|]. split; [|split].
  - intros H. apply Hne. exact (document_key_string_inj _ _ _ H).
  - intros w w'. apply get_document_same_at.
  - destruct (decide (MD5.hexdigest (Py.encode text1) = MD5.hexdigest (Py.encode text2)))
      as [Heq|Hd]; [left; exact Heq|right].
    assert (Hk : document_cache_key d (user_id user1) <> document_cache_key d (user_id user2)).
    { unfold document_cache_key, generate_cache_key. intros H.
      apply append_inv_head in H. apply append_inv_head in H. exact (Hd H). }
    split; [exact Hk|]. intros w. split; [apply get_document_other; exact Hk|].
    destruct (get_document_leaves d user1 w _ Hk) as [Hdb Hsame].
    exact (get_document_same_at d user2 w _ Hdb Hsame).
Qed.

Lemma document_cache_key_per_user_witness :
  document_cache_key 5 7 <> document_cache_key 5 8
  /\ forall w,
       entries (server (cache (snd (get_document 5
                   {| user_id := 7; username := "ann"; role := "user" |} w))))
         !! document_cache_key 5 8
       = entries (server (cache w)) !! document_cache_key 5 8
       /\ fst (get_document 5 {| user_id := 8; username := "bob"; role := "user" |}
                 (snd (get_document 5 {| user_id := 7; username := "ann"; role := "user" |} w)))
          = fst (get_document 5 {| user_id := 8; username := "bob"; role := "user" |} w).
Proof.
  assert (Hne : (7 : Z) <> 8) by discriminate.
  destruct (document_cache_key_per_user 5
              {| user_id := 7; username := "ann"; role := "user" |}
              {| user_id := 8; username := "bob"; role := "user" |} Hne)
    as (_ & _ & _ & [Hcoll | Hsep]).
  - exfalso. vm_compute in Hcoll. discriminate Hcoll.
  - exact Hsep.
Defined.

(** ** Two searches for one normalised query share an entry *)

Lemma semantic_search_reads_only
  (encode : string -> outcome (list Q)) (cosine_distance : list Q -> list Q -> Q)
  (k query : string) (current_user : User) (w : world) :
  k = search_cache_key query ->
  reads_only k w (snd (semantic_search encode cosine_distance query current_user w)).
Proof.
  intros Hk. unfold semantic_search. rewrite <- Hk. clear Hk.
  set (inner := if String.eqb (Py.strip query) "" then _ else _).
  assert (Hin : reads_only k w (snd inner)).
  { subst inner. destruct (String.eqb (Py.strip query) ""); [apply reads_only_refl|].
    pose proof (reads_only_get_cache k w) as Hg.
    destruct (get_cache k (cache w)) as [[v|e] c]; cbn [snd] in Hg; [|exact Hg].
    destruct v; try exact Hg. apply search_on_miss_reads_only. exact Hg. }
  destruct inner as [[r|e] w1]; cbn [snd] in Hin |- *; [exact Hin|].
  destruct (isinstance e (HTTPException 0)); exact Hin.
Qed.

(** C10. Two search queries that are equal after stripping surrounding
    whitespace and lowercasing derive the same cache key, and the two
    searches share the entry of that key: a search for the one reads and
    writes in the cache only the entry of the key of the other, and, with
    the cache server answering, once a search for the one has returned, its
    response is the entry of the key of the other and a search for the
    other returns it, whoever asks and whatever the embedding model does. *)
Theorem search_cache_key_normalized (q1 q2 : string) :
  Py.lower (Py.strip q1) = Py.lower (Py.strip q2) ->
  search_cache_key q1 = search_cache_key q2
  /\ (forall c, get_cache (search_cache_key q1) c = get_cache (search_cache_key q2) c)
  /\ (forall v ttl c,
        set_cache (search_cache_key q1) v ttl c = set_cache (search_cache_key q2) v ttl c)
  /\ (forall encode cosine_distance current_user w,
        reads_only (search_cache_key q1) w
          (snd (semantic_search encode cosine_distance q2 current_user w)))
  /\ (forall encode cosine_distance encode' cosine_distance' current_user current_user'
             w w1 r,
        fault (server (cache w)) = None ->
        semantic_search encode cosine_distance q1 current_user w = (Return r, w1) ->
        cache_value (search_cache_key q2) (server (cache w1)) = r
        /\ semantic_search encode' cosine_distance' q2 current_user' w1 = (Return r, w1)).
Proof.
  intros H.
  assert (Hk : search_cache_key q1 = search_cache_key q2)
    by exact (f_equal (fun s => generate_cache_key "search" [] [("query", PyStr s)]) H).
  split; [exact Hk|]. split; [|split; [|split]].
  - intros c. exact (f_equal (fun k => get_cache k c) Hk).
  - intros v ttl c. exact (f_equal (fun k => set_cache k v ttl c) Hk).
  - intros encode cosine_distance current_user w.
    exact (semantic_search_reads_only encode cosine_distance (search_cache_key q1) q2
             current_user w Hk).
  - intros encode cosine_distance encode' cosine_distance' current_user current_user'
      w w1 r Hf Hrun.
    destruct (semantic_search_cached encode cosine_distance (search_cache_key q2) q1
                current_user w w1 r (eq_sym Hk) Hf Hrun)
      as (Hblank & Hr & Hf1 & Hclient & Hval).
    split; [exact Hval|].
    apply (semantic_search_hit encode' cosine_distance' (search_cache_key q2) q2).
    + reflexivity.
    + rewrite <- lower_blank, <- H, lower_blank. exact Hblank.
    + exact Hf1.
    + exact Hclient.
    + exact Hval.
    + exact Hr.
Qed.

Lemma search_cache_key_normalized_witness :
  search_cache_key "  Contract Renewal " = search_cache_key "contract renewal"
  /\ search_cache_key "contract renewal" = "search:45716136eb09800caa7d8a4d4288037a"
  /\ semantic_search model_unavailable unit_distance " RENEWAL " bob
       (snd (semantic_search (fun _ => Return query_vector) unit_distance "renewal" ann
               search_world))
     = (Return floor_response,
        snd (semantic_search (fun _ => Return query_vector) unit_distance "renewal" ann
               search_world)).
Proof.
  assert (H : Py.lower (Py.strip "  Contract Renewal ") = Py.lower (Py.strip "contract renewal"))
    by (vm_compute; reflexivity).
  split; [exact (proj1 (search_cache_key_normalized "  Contract Renewal " "contract renewal" H))|].
  split; [vm_compute; reflexivity|].
  destruct (semantic_search (fun _ => Return query_vector) unit_distance "renewal" ann search_world)
    as [o w1] eqn:Hrun.
  assert (Ho : o = Return floor_response).
  { apply (f_equal fst) in Hrun. simpl in Hrun. rewrite <- Hrun. vm_compute. reflexivity. }
  subst o. cbn [snd].
  assert (H' : Py.lower (Py.strip "renewal") = Py.lower (Py.strip " RENEWAL "))
    by (vm_compute; reflexivity).
  destruct (search_cache_key_normalized "renewal" " RENEWAL " H') as (_ & _ & _ & _ & Hshare).
  exact (proj2 (Hshare (fun _ => Return query_vector) unit_distance model_unavailable
                  unit_distance ann bob search_world w1 floor_response eq_refl Hrun)).
Defined.

(** ** The patterns of the program *)

Lemma string_of_uint_plain (c : ascii) (u : Decimal.uint) :
  Py.contains c "0123456789" = false ->
  Py.contains c (NilZero.string_of_uint u) = false.
Proof.
  intros H. cbn [Py.contains] in H.
  repeat (apply orb_false_iff in H as [? H]).
  assert (Hrest : forall v, Py.contains c (NilEmpty.string_of_uint v) = false).
  { induction v; cbn [NilEmpty.string_of_uint Py.contains]; rewrite ?IHv;
      try reflexivity;
      match goal with
      | Hd : Ascii.eqb c ?d = false |- Ascii.eqb c ?d || false = false =>
          rewrite Hd; reflexivity
      end. }
  destruct u; try apply Hrest.
  cbn [NilZero.string_of_uint Py.contains].
  match goal with
  | Hd : Ascii.eqb c ?d = false |- Ascii.eqb c ?d || false = false => rewrite Hd; reflexivity
  end.
Qed.

Lemma str_int_plain (c : ascii) (z : Z) :
  Py.contains c "-0123456789" = false -> Py.contains c (Py.str_int z) = false.
Proof.
  intros H. cbn [Py.contains] in H. apply orb_false_iff in H as [Hminus H].
  unfold Py.str_int, NilZero.string_of_int.
  destruct (Z.to_int z) as [u|u]; cbn [Py.contains];
    rewrite ?Hminus; apply string_of_uint_plain; exact H.
Qed.

(** The two patterns that the program passes to [delete_cache_pattern] open
    no character class and escape nothing: on them the matching modelled is
    that of Redis. *)
Lemma document_pattern_plain (id : Z) :
  Py.contains "[" ("document:*" ++ Py.str_int id ++ "*") = false
  /\ Py.contains (Py.chr 92) ("document:*" ++ Py.str_int id ++ "*") = false
  /\ Py.contains "[" "search:*" = false
  /\ Py.contains (Py.chr 92) "search:*" = false.
Proof.
  rewrite !contains_append.
  rewrite (str_int_plain "[" id eq_refl), (str_int_plain (Py.chr 92) id eq_refl).
  repeat split; reflexivity.
Qed.
